(* ===== verification/_CoqProject ===== *)
-Q . S2P
Prelude.v
Dates.v
Schema.v
Frame.v
Store.v
Serving.v
Queries.v
Api.v
Server.v
Histogram.v
Cleaning.v
Report.v
Charts.v
Pipelines.v
Witnesses.v
