(* ===== verification/Prelude.v ===== *)
(** * A verification development of gym-membership-churn-api

    The repository has two independent Python pipelines that read the same
    CSV file of gym members ([data/gym_members_dataset.csv]):

    - the cleaning and reporting script [src/analytics/data_cleaning.py]
      (pandas + matplotlib): drop rows without [Member_ID]/[Age], fill
      missing names with ["Unknown"], parse the two date columns leniently
      ([pd.to_datetime(errors='coerce')]), print a value count per text
      column, derive [Membership_Period_Days] and [Days_Since_Last_Visit],
      and compute the data behind four charts;
    - the HTTP service [src/app/main.py] (polars + DuckDB + FastAPI) with
      the response models of [src/app/schemas.py]: at start-up it fills
      missing values (["Test Name"], column means), drops rows without a
      [Join_Date], casts the date columns strictly ([cast(pl.Date)]),
      materialises the frame as the DuckDB table [gym_membership_data]
      ([CREATE OR REPLACE TABLE]), and then serves four GET routes
      through uvicorn, forever (line 170).

    The components interact only through data: the service's handlers read
    the module-level frame [df] (raw route) or the DuckDB table written by
    [create_table] (the three SQL routes); the cleaning script shares
    nothing with the service but the input file.

    ** Files, in dependency order (as _CoqProject lists them)

    - [Prelude] (this file): the [result] type of Python exceptions with
      its bind notation [let?] in [gym_scope], the tactics and the hint
      databases [gym]/[gym_rw], and the generic list lemmas the components
      share: the stable descending insertion sort [sort_desc] that models
      [ORDER BY ... DESC], the [LIMIT/OFFSET] page [limit_offset] and the
      decomposition of a list into consecutive pages, ceiling division.
    - [Dates]: calendar dates, the ISO-8601 text form read from the CSV
      ([parse_iso]/[print_iso]), the day number of a date
      ([days_from_civil]), the pandas nanosecond timestamp range, and the
      two parsers: lenient [to_datetime_coerce]
      ([pd.to_datetime(errors='coerce')], data_cleaning.py:18-19) and
      strict [cast_date_strict] ([cast(pl.Date)], main.py:30-33).
    - [Schema]: the member row [member_row] (one record per CSV line, every
      cell nullable, parametric in the type of its date cells), the result
      tuple [row_cells] of [SELECT *], the column types [table_schema] of
      the DuckDB table, and Module [Models]: the pydantic models
      [MemberData] and [PaginatedItems] (schemas.py) and
      [MemberData_of_tuple], the construction of main.py:141-157.
    - [Frame]: the dataframe column operations the scripts call (null
      fill, column mean ignoring nulls, value counts, distinct counts) and
      [group_agg], the GROUP BY ... ORDER BY ... DESC both SQL aggregates
      share.
    - [Store]: the DuckDB catalogue as an interface ([TableStore], a
      typeclass, with its laws [TableStoreLaws]), [select_from] (a missing
      table raises CatalogException), and the [gmap] implementation.
    - [Serving]: the start-up code of main.py (lines 17-33, 48-64):
      [fill_step], [drop_null_join], [cast_dates], [serve_load],
      [create_table], [startup].
    - [Queries]: the three SQL queries of main.py: Module [Churn] (lines
      69-82), Module [Exercise] (lines 86-105), Module [Page] (lines
      118-137), the first two with an abstract specification and a
      refinement theorem.
    - [Api]: the FastAPI layer: query-parameter validation, the four
      handlers, [handle], and the server life cycle (boot, requests, stop,
      crash) as a step relation [step] with its reachability invariant.
    - [Server]: the process main.py runs, as an interaction tree
      ([ITree]): the start-up, then uvicorn's loop of line 170 (receive a
      request, answer it with [handle], repeat), observed by [run_io], a
      client sending a list of requests within a budget of steps.
    - [Histogram]: the binning of [plt.hist(..., bins=20)] as numpy does
      it (range, 21 edges, the fast index computation with its
      corrections, [bincount]).
    - [Cleaning]: data_cleaning.py lines 9-36, step by step, composed by
      [clean_pipeline] (the frame computed) and [run_cleaning] (the same
      lines with pandas' int64 overflow checks of the two date
      subtractions, which can raise), and the data behind the pie and bar
      charts.
    - [Report]: what the cleaning script prints (lines 21-36), in order:
      the audit's headers and value counts, then the dtype and the
      labelled values of each derived column ([run_cleaning_io]); the
      output stops where an overflow stops the script.
    - [Charts]: the chart section of data_cleaning.py (lines 38-85) as a
      pyplot state machine: the stack of open figures, their numbering and
      the files [savefig] writes; each call of the script is a command
      [cmd], [exec_cmd] its effect, [run_charts] the section run to its end
      or to the first exception.
    - [Pipelines]: [run_script], the whole cleaning script (cleaning, then
      charts), and the relation between the two programs that read the
      same CSV.
    - [Witnesses]: small concrete tables and CSV contents on which the
      theorems with hypotheses are applied and evaluated.

    ** What the theorems show

    - Pagination (Queries, Api): a valid page returns the rows from
      [(page-1)*page_size] on, at most [page_size] of them, with the total
      row count; reading pages 1 to [ceil(T/page_size)] returns the table
      once and in order; page [k] is non-empty iff [k <= ceil(T/page_size)];
      422 exactly for out-of-range parameters; 500 as soon as a row of the
      page holds a null cell (pydantic rejects it); 500 on a non-empty
      table when the offset passes DuckDB's LIMIT/OFFSET bound [2^62] (a
      finding: [page] has no upper bound).
    - SQL aggregates (Queries): refinement of [churn_by_membership] and
      [favorite_exercise_count] against specifications stated on the
      table's rows (one group per membership type with its number of
      'Yes' rows, in descending order, ties open; the size of the set of
      member ids of the exercise's rows); lemmas: uniqueness of the
      specified churn answer up to permutation and its invariance under
      permutation of the table.
    - Start-up and life cycle (Serving, Api): the load on both branches
      (strict cast failure crashes start-up); the served frame has join
      dates and names; every reachable state satisfies the invariant (the
      DuckDB file holds the table replaced once by the loaded frame, and a
      running server's table is its frame).
    - Process (Server): termination: the process ends, on all or on
      some of its interactions with clients, exactly when the load of the
      CSV raises, and otherwise serves forever; every run answers the
      requests received, in order, with their routes' responses (a lemma
      also shows every run is a path of the life-cycle relation of
      [Api]).
    - Types (Schema): every [SELECT *] tuple has the table's column types,
      and pydantic accepts every NULL-free tuple of those types.
    - Charts (Histogram, Charts): numpy's bin index agrees with the
      placement by edges; the 20 bars count the values of their bins and
      add up to the number of values; the script writes the four chart
      files with their data; the gender chart is saved at the default
      size as figure 3, not at the 8 x 6 of line 77 (a finding), figure
      numbers being reused after [plt.close()]; with other than three
      membership types the pie raises and only the histogram is written.
    - Overflow (Cleaning): lines 29 and 34 raise OverflowError exactly
      when two dates of a kept row (or a last visit and the run time) are
      more than 2^63 ns apart (a finding: the spec says the cleaning
      raises nothing); within 53375 days of 1970 they never do.
    - Composition (Pipelines): on rows the two pipelines neither fill
      nor filter, the service's table is the script's cleaned frame.
    - Cleaning (Cleaning, Dates): the rows kept, the two derived columns
      as day differences, the range of dates pandas can represent, the
      consistency report (a lemma shows the pie chart's hard-coded labels
      do not follow the order of [value_counts], a finding); the ISO
      round trips.
    - Output (Report): after the audit the script prints each derived
      column's dtype and values, labelled with the CSV line numbers of
      the kept rows; the dtype is [int64] exactly when no kept row misses
      a date of the subtraction, [float64] otherwise (a spec gap: the
      spec speaks of whole days).

    ** Bounds and fuel

    Every function of the two pipelines is structurally recursive on a
    list (the chart script is a list of commands run in order) or defined
    without recursion, and evaluates by [vm_compute]: their loops iterate
    over finite collections (rows, columns, commands). The one loop that
    does not end is uvicorn's (main.py:170). It is an interaction tree
    ([ITree.iter]), whose termination is the library's [all_finite] /
    [any_finite], independent of any fuel. The client [run_io] observes
    it with fuel, one unit per event or silent step. A turn of the loop
    takes three (request, response, back to the top), so [fuel] steps
    give the responses to the first [(fuel + 1) / 3] requests. The
    theorems hold for every fuel and state that count exactly, so no
    bound on the fuel is assumed. Integers
    are unbounded [Z] as in Python, except where the code meets a machine
    width: pandas' signed 64-bit nanosecond timestamps ([int64_max],
    [pandas_in_bounds]) and the overflow-checked subtractions of
    datetime64 values ([sub_i64], [neg_i64]), all in [Dates].

    ** Modelling choices

    - Cells are [option] values ([None] is a CSV empty cell, pandas NaN,
      polars null, SQL NULL). Python floats are modelled as exact
      rationals [Q]: the development states which value is imputed or
      averaged, not its rounding. Integers are [Z] (Python ints are
      unbounded; DuckDB's [SUM] of 0/1 flags and [COUNT] cannot overflow
      on a table of realistic size).
    - Dates are parsed from the ISO form [YYYY-MM-DD] only; pandas and
      polars accept more layouts, which are not modelled.
    - Row order is the storage order of the frame and of the DuckDB table
      (a [list]). Where SQL leaves an order unspecified (GROUP BY output,
      ties of ORDER BY) the model fixes one and the theorems are stated
      against an abstract specification that every order satisfies.
    - DuckDB refuses a LIMIT/OFFSET value above [2^62] (a value beyond
      int64 already fails its conversion); the page query raises there
      ([Page.select_page]), the one engine bound the routes can reach.
    - Python exceptions are values of [py_exception]; a handler that
      raises answers with HTTP 500, a request rejected by FastAPI's
      validation answers with HTTP 422.

    ** Not modelled

    - CSV reading ([pd.read_csv], [pl.read_csv]): the model starts from
      the typed rows they return. Their per-column type inference over
      the whole file, number formats and quoting are library behaviour
      that cannot be stated faithfully without the file; a column whose
      inferred type differs from the model's (text in a numeric column)
      is outside the model.
    - Date layouts other than [YYYY-MM-DD]: pandas infers a format from
      the data (dateutil) and polars accepts several ISO variants; only
      the layout the spec names is modelled, so component "Date parsing"
      is partly modelled.
      The conversion of a stored date to a Python [date] (by [to_dicts]
      and [fetchall]) is taken as total: year 0000, which the ISO parser
      and polars accept, has no Python date and would make those routes
      raise.
    - The text layout of what the script prints: the printed items, their
      order, the dtypes and index labels are modelled ([Report]), the
      characters pandas lays a Series out with (alignment, float
      formatting, truncation of long Series) are not; so component
      "Consistency audit" is partly modelled.
    - The rendering of the charts: the figures, their data and the files
      pyplot writes are modelled, not pixels, colours or
      [autopct]/[startangle] styling.
    - Process configuration (main.py 1-15: imports, POLARS_VERBOSE, file
      paths from getcwd) and, of uvicorn ([run], line 170), everything
      but its request loop: the host and port binding, HTTP parsing, its
      shutdown on a signal (the life cycle's [Stop] in [Api] stands for
      it), and its thread pool. The handlers only read, so running them
      concurrently changes no response; the loop is modelled sequential.
      Also not modelled: FastAPI's coercion of query strings to [int]
      (parameters arrive as integers or are absent). *)

From Stdlib Require Import ZArith QArith Lia Sorted Permutation.
From stdpp Require Import base list gmap strings list_numbers.

Declare Scope gym_scope.
Delimit Scope gym_scope with gym.
Open Scope gym_scope.

(** ** Python exceptions and fallible computations *)

(** The exceptions the modelled code can raise. *)
Inductive py_exception : Type :=
  | InvalidOperationError   (** polars: a strict cast failed *)
  | CatalogException        (** DuckDB: the table does not exist *)
  | BinderException         (** DuckDB: a LIMIT/OFFSET value above 2^62 *)
  | ValidationError         (** pydantic: a field has the wrong type *)
  | RequestValidationError  (** FastAPI: a query parameter is out of range *)
  | IndexError              (** Python: a tuple index is out of range *)
  | ValueError              (** matplotlib: inconsistent arguments *)
  | OverflowError.          (** pandas: int64 arithmetic left its range *)

#[export] Instance py_exception_eq_dec : EqDecision py_exception.
Proof. solve_decision. Defined.

(** A computation that returns a value or raises. *)
Inductive result (A : Type) : Type :=
  | Ok (a : A)
  | Raise (e : py_exception).
Arguments Ok {A} a.
Arguments Raise {A} e.

Definition bind_result {A B} (c : result A) (k : A -> result B) : result B :=
  match c with
  | Ok a => k a
  | Raise e => Raise e
  end.

Notation "'let?' x ':=' c 'in' k" := (bind_result c (fun x => k))
  (at level 10, x name, c at level 100, k at level 200) : gym_scope.

(** [all_ok] runs a list of fallible computations in order; the first
    exception wins (a Python list comprehension that raises). *)
Fixpoint all_ok {A} (l : list (result A)) : result (list A) :=
  match l with
  | [] => Ok []
  | c :: l' => let? a := c in let? r := all_ok l' in Ok (a :: r)
  end.

Definition is_ok {A} (c : result A) : bool :=
  match c with Ok _ => true | Raise _ => false end.

Definition is_some {A} (o : option A) : bool :=
  match o with Some _ => true | None => false end.

(** ** Tactics and hints *)

Create HintDb gym discriminated.
Create Rewrite HintDb gym_rw.

(** Case on the first boolean or option scrutinee of the goal. *)
Ltac case_if :=
  match goal with
  | |- context [if ?b then _ else _] => destruct b eqn:?
  end.

Ltac invc H := inversion H; subst; clear H.

(** ** Generic list lemmas *)

Lemma all_ok_Ok {A} (l : list (result A)) (r : list A) :
  all_ok l = Ok r <-> Forall2 (fun c a => c = Ok a) l r.
Proof.
  revert r; induction l as [|c l IH]; intros r; simpl.
  - split; [intros [= <-]; constructor | intros H; invc H; reflexivity].
  - split.
    + destruct c as [a|e]; simpl; [|done].
      destruct (all_ok l) as [r'|e'] eqn:E; simpl; [|done].
      intros [= <-]. constructor; [done|]. by apply IH.
    + intros H; invc H. simpl. by rewrite (proj2 (IH _) H4).
Qed.

Lemma all_ok_map_Raise {A B} (f : A -> result B) (l : list A) x e :
  x ∈ l -> f x = Raise e -> exists e', all_ok (map f l) = Raise e'.
Proof.
  intros Hx Hf. induction l as [|y l IH]; [by apply elem_of_nil in Hx|].
  simpl. destruct (f y) as [b|e1] eqn:Ey; simpl; [|eauto].
  apply elem_of_cons in Hx as [->|Hx]; [congruence|].
  destruct (IH Hx) as [e' ->]. simpl. eauto.
Qed.

Lemma all_ok_map_Ok {A B} (f : A -> B) (l : list A) :
  all_ok (map (fun x => Ok (f x)) l) = Ok (map f l).
Proof. induction l as [|x l IH]; simpl; [done|]. by rewrite IH. Qed.

(** A list of fallible computations succeeds exactly when each does. *)
Lemma all_ok_map_is_ok {A B} (f : A -> result B) (l : list A) :
  is_ok (all_ok (map f l)) = forallb (fun x => is_ok (f x)) l.
Proof.
  induction l as [|x l IH]; simpl; [done|].
  destruct (f x); simpl; [|done]. rewrite <- IH. by destruct (all_ok (map f l)).
Qed.

(** The exception raised is one of the computations'. *)
Lemma all_ok_map_Raise_inv {A B} (f : A -> result B) (l : list A) e :
  all_ok (map f l) = Raise e -> exists x, x ∈ l /\ f x = Raise e.
Proof.
  induction l as [|x l IH]; simpl; [done|].
  destruct (f x) as [b|e1] eqn:E; simpl.
  - destruct (all_ok (map f l)) eqn:E'; simpl; [done|].
    intros [= <-]. destruct IH as (y & Hy & Hf); [done|]. exists y. split; [by right|done].
  - intros [= <-]. exists x. split; [by left|done].
Qed.

Lemma existsb_ext {A} (f g : A -> bool) (l : list A) :
  (forall x, f x = g x) -> existsb f l = existsb g l.
Proof. intros H. induction l as [|x l IH]; simpl; [done|]. by rewrite H, IH. Qed.

Lemma length_filter_le {A} (p : A -> bool) (l : list A) :
  length (List.filter p l) <= length l.
Proof. induction l as [|x l IH]; simpl; [lia|]. destruct (p x); simpl; lia. Qed.

#[export] Hint Resolve length_filter_le : gym.

Lemma filter_perm {A} (p : A -> bool) (l l' : list A) :
  Permutation l l' -> Permutation (List.filter p l) (List.filter p l').
Proof.
  induction 1 as [|x l l' _ IH|x y l|l l' l'' _ IH1 _ IH2]; simpl.
  - done.
  - destruct (p x); [by constructor|done].
  - destruct (p x), (p y); first [apply perm_swap | reflexivity].
  - by transitivity (List.filter p l').
Qed.

Lemma sum_list_map_add {B} (f g : B -> nat) (l : list B) :
  sum_list (map (fun b => f b + g b) l) = sum_list (map f l) + sum_list (map g l).
Proof. induction l; simpl; lia. Qed.

(** ** [ORDER BY key DESC]: a stable descending insertion sort

    SQL does not fix the order of ties; the model keeps ties in input
    order. Clients rely only on [sort_desc_sorted] and [sort_desc_perm]. *)

Section SortDesc.
Context {A : Type} (key : A -> Z).

(** [a] may precede [b] in a descending order. *)
Definition desc (a b : A) : Prop := (key b <= key a)%Z.

Fixpoint insert_desc (x : A) (l : list A) : list A :=
  match l with
  | [] => [x]
  | y :: l' => if Z.leb (key y) (key x) then x :: y :: l' else y :: insert_desc x l'
  end.

Fixpoint sort_desc (l : list A) : list A :=
  match l with
  | [] => []
  | x :: l' => insert_desc x (sort_desc l')
  end.

Lemma insert_desc_perm x l : Permutation (insert_desc x l) (x :: l).
Proof.
  induction l as [|y l IH]; simpl; [done|].
  destruct (Z.leb (key y) (key x)); [done|].
  rewrite IH. constructor.
Qed.

Lemma sort_desc_perm l : Permutation (sort_desc l) l.
Proof.
  induction l as [|x l IH]; simpl; [done|].
  by rewrite insert_desc_perm, IH.
Qed.

Lemma insert_desc_sorted x l : Sorted desc l -> Sorted desc (insert_desc x l).
Proof.
  unfold desc. induction 1 as [|y l Hl IH Hhd]; simpl; [by repeat constructor|].
  destruct (Z.leb_spec (key y) (key x)).
  - constructor; [by constructor|]. by constructor.
  - constructor; [done|].
    destruct l as [|z l]; simpl in *; [constructor; lia|].
    invc Hhd. destruct (Z.leb (key z) (key x)); constructor; lia.
Qed.

Lemma sort_desc_sorted l : Sorted desc (sort_desc l).
Proof. induction l; simpl; [constructor|]. by apply insert_desc_sorted. Qed.

Lemma desc_trans : Relations_1.Transitive desc.
Proof. unfold desc; intros ???; lia. Qed.

(** In a descending list every later key is at most every earlier key. *)
Lemma sorted_desc_nth (l : list A) i j a b :
  Sorted desc l -> (i < j)%nat -> l !! i = Some a -> l !! j = Some b ->
  (key b <= key a)%Z.
Proof.
  intros Hs%Sorted_StronglySorted; [|exact desc_trans].
  revert i j. induction Hs as [|x l Hs IH Hall]; intros i j Hij Ha Hb; [done|].
  destruct i as [|i], j as [|j]; simpl in *; try lia.
  - injection Ha as <-. rewrite Forall_forall in Hall.
    apply Hall, list_elem_of_lookup. eauto.
  - apply (IH i j); [lia|done|done].
Qed.
End SortDesc.

#[export] Hint Resolve sort_desc_perm sort_desc_sorted : gym.

(** ** [LIMIT p OFFSET o]: pages of a list *)

Section Pages.
Context {A : Type}.

(** [LIMIT p OFFSET o] over rows in storage order. *)
Definition limit_offset (p o : nat) (l : list A) : list A := take p (drop o l).

Lemma length_limit_offset p o l :
  length (limit_offset p o l) = Nat.min p (length l - o).
Proof. unfold limit_offset. by rewrite length_take, length_drop. Qed.

(** The first [n] pages of size [p], in order, are the first [n * p] rows. *)
Lemma concat_pages p n l :
  concat (map (fun k => limit_offset p (k * p) l) (seq 0 n)) = take (n * p) l.
Proof.
  induction n as [|n IH]; [done|].
  rewrite seq_S, map_app, concat_app, IH. simpl. rewrite app_nil_r.
  unfold limit_offset. rewrite take_take_drop. f_equal. lia.
Qed.

Lemma elem_of_limit_offset p o l x : x ∈ limit_offset p o l -> x ∈ l.
Proof.
  unfold limit_offset. intros H.
  assert (x ∈ drop o l) by (rewrite <- (take_drop p (drop o l)); apply elem_of_app; by left).
  rewrite <- (take_drop o l). apply elem_of_app. by right.
Qed.

Lemma omap_concat {B} (f : A -> option B) (ls : list (list A)) :
  omap f (concat ls) = concat (map (omap f) ls).
Proof. induction ls as [|l ls IH]; simpl; [done|]. by rewrite omap_app, IH. Qed.

Lemma limit_offset_nil p o l : length l <= o -> limit_offset p o l = [].
Proof. intros H. unfold limit_offset. by rewrite drop_ge, take_nil. Qed.
End Pages.

#[export] Hint Rewrite @length_limit_offset : gym_rw.

(** ** Ceiling division *)

(** [k] is at most [ceil(T / p)] exactly when the rows before page [k]
    do not exhaust [T] rows. *)
Lemma le_ceil_div (T p k : Z) :
  (0 < p)%Z -> (k <= (T + p - 1) / p <-> (k - 1) * p < T)%Z.
Proof.
  intros Hp. pose proof (Z.mul_div_le (T + p - 1) p Hp). split.
  - intros Hk. assert (p * k <= p * ((T + p - 1) / p))%Z by (apply Z.mul_le_mono_nonneg_l; lia).
    lia.
  - intros Hk. apply Z.div_le_lower_bound; lia.
Qed.

Lemma ceil_div_cover (T p : Z) :
  (0 < p)%Z -> (0 <= T)%Z -> (T <= (T + p - 1) / p * p)%Z.
Proof.
  intros Hp HT. pose proof (Z.mod_pos_bound (T + p - 1) p Hp).
  pose proof (Z.div_mod (T + p - 1) p ltac:(lia)). lia.
Qed.
