(* ===== verification/Dates.v ===== *)
(** Calendar dates as the two pipelines read them from the CSV.

    The date columns hold ISO-8601 text [YYYY-MM-DD]. The cleaning script
    parses them with [pd.to_datetime(..., errors='coerce')]
    (data_cleaning.py:18-19): text that is not a date, or a date outside
    pandas' nanosecond timestamp range, becomes NaT. The service casts them
    with [pl.col(..).cast(pl.Date)] (main.py:30-33), a strict cast: text
    that is not a date raises. A date is also a day number (days since
    1970-01-01), which is what both libraries store and what pandas
    subtracts when the script derives its day counts. *)

From Stdlib Require Import ZArith Lia Ascii String.
From stdpp Require Import base list strings.
From S2P Require Import Prelude.

Open Scope Z_scope.

Record date : Type := mk_date { year : Z; month : Z; day : Z }.

#[export] Instance date_eq_dec : EqDecision date.
Proof. solve_decision. Defined.

Definition is_leap (y : Z) : bool :=
  (y mod 4 =? 0) && (negb (y mod 100 =? 0) || (y mod 400 =? 0)).

Definition days_in_month (y m : Z) : Z :=
  if (m =? 2) then (if is_leap y then 29 else 28)
  else if (m =? 4) || (m =? 6) || (m =? 9) || (m =? 11) then 30
  else if (1 <=? m) && (m <=? 12) then 31 else 0.

Definition valid_date (d : date) : bool :=
  (1 <=? month d) && (month d <=? 12) &&
  (1 <=? day d) && (day d <=? days_in_month (year d) (month d)).

(** Day number of a date, 1970-01-01 being day 0: the civil-to-days
    conversion of the proleptic Gregorian calendar, computed per 400-year
    era as numpy's and chrono's date types do. *)
Definition days_from_civil (d : date) : Z :=
  let y := if month d <=? 2 then year d - 1 else year d in
  let era := y / 400 in
  let yoe := y - era * 400 in
  let mp := (month d + 9) mod 12 in
  let doy := (153 * mp + 2) / 5 + day d - 1 in
  let doe := yoe * 365 + yoe / 4 - yoe / 100 + doy in
  era * 146097 + doe - 719468.

(** ** The ISO text form *)

Definition digit_val (c : ascii) : option Z :=
  let n := nat_of_ascii c in
  if (48 <=? n)%nat && (n <=? 57)%nat then Some (Z.of_nat n - 48) else None.

Definition digit_char (n : Z) : ascii := ascii_of_nat (Z.to_nat (48 + n)).

Definition two_digits (a b : ascii) : option Z :=
  match digit_val a, digit_val b with
  | Some x, Some y => Some (10 * x + y)
  | _, _ => None
  end.

Definition four_digits (a b c e : ascii) : option Z :=
  match two_digits a b, two_digits c e with
  | Some x, Some y => Some (100 * x + y)
  | _, _ => None
  end.

(** Parse [YYYY-MM-DD]; the text must name a day of the calendar. *)
Definition parse_iso (s : string) : option date :=
  match s with
  | String y1 (String y2 (String y3 (String y4 (String s1
      (String m1 (String m2 (String s2 (String d1 (String d2 EmptyString))))))))) =>
      if Ascii.eqb s1 "-" && Ascii.eqb s2 "-" then
        match four_digits y1 y2 y3 y4, two_digits m1 m2, two_digits d1 d2 with
        | Some y, Some m, Some d =>
            let dt := mk_date y m d in if valid_date dt then Some dt else None
        | _, _, _ => None
        end
      else None
  | _ => None
  end.

(** [date.isoformat()] for years 0..9999, as the JSON encoder prints a date. *)
Definition print_iso (d : date) : string :=
  let y := year d in
  String (digit_char (y / 1000 mod 10)) (String (digit_char (y / 100 mod 10))
  (String (digit_char (y / 10 mod 10)) (String (digit_char (y mod 10))
  (String "-" (String (digit_char (month d / 10 mod 10)) (String (digit_char (month d mod 10))
  (String "-" (String (digit_char (day d / 10 mod 10)) (String (digit_char (day d mod 10))
   EmptyString))))))))).

(** ** The two parsers of the pipelines *)

Definition ns_per_day : Z := 86400 * 1000000000.

(** pandas timestamps are signed 64-bit nanosecond counts, the smallest
    value being reserved for NaT. *)
Definition int64_max : Z := 2 ^ 63 - 1.

Definition int64_min : Z := - 2 ^ 63.

Definition fits_int64 (z : Z) : bool := (int64_min <=? z) && (z <=? int64_max).

(** The subtraction of two datetime64[ns] values: pandas computes
    [a + (-b)] with [add_overflowsafe], which raises OverflowError when
    the result leaves int64. *)
Definition sub_i64 (a b : Z) : result Z :=
  if fits_int64 (a - b) then Ok (a - b) else Raise OverflowError.

(** numpy's negation of an int64 wraps: [-(-2^63)] is [-2^63]. *)
Definition neg_i64 (z : Z) : Z := if Z.eqb z int64_min then z else - z.

Definition pandas_in_bounds (d : date) : bool :=
  Z.abs (days_from_civil d * ns_per_day) <=? int64_max.

(** [pd.to_datetime(s, errors='coerce')] on one cell: NaT ([None]) for a
    missing cell, unparsable text, or a date outside the timestamp range. *)
Definition to_datetime_coerce (cell : option string) : option date :=
  match cell with
  | None => None
  | Some s =>
      match parse_iso s with
      | Some d => if pandas_in_bounds d then Some d else None
      | None => None
      end
  end.

(** [cast(pl.Date)] on one cell of a string column: null stays null,
    text that is not a date raises. polars dates are 32-bit day counts,
    which every four-digit year fits. *)
Definition cast_date_strict (cell : option string) : result (option date) :=
  match cell with
  | None => Ok None
  | Some s =>
      match parse_iso s with
      | Some d => Ok (Some d)
      | None => Raise InvalidOperationError
      end
  end.


(** ** Digits *)

Lemma digit_val_char n : 0 <= n < 10 -> digit_val (digit_char n) = Some n.
Proof.
  intros H. unfold digit_val, digit_char.
  rewrite nat_ascii_embedding by lia.
  destruct (Nat.leb_spec 48 (Z.to_nat (48 + n))), (Nat.leb_spec (Z.to_nat (48 + n)) 57);
    simpl; [f_equal; lia | lia..].
Qed.

Lemma digit_val_inv c n : digit_val c = Some n -> digit_char n = c /\ 0 <= n < 10.
Proof.
  unfold digit_val, digit_char.
  destruct (Nat.leb_spec 48 (nat_of_ascii c)), (Nat.leb_spec (nat_of_ascii c) 57);
    simpl; intros; simplify_eq; split; try lia.
  replace (Z.to_nat _) with (nat_of_ascii c) by lia. apply ascii_nat_embedding.
Qed.

Lemma two_digits_char a b :
  0 <= a < 10 -> 0 <= b < 10 -> two_digits (digit_char a) (digit_char b) = Some (10 * a + b).
Proof. intros. unfold two_digits. by rewrite !digit_val_char. Qed.

Lemma two_digits_inv x y n :
  two_digits x y = Some n ->
  exists a b, x = digit_char a /\ y = digit_char b /\ 0 <= a < 10 /\ 0 <= b < 10 /\ n = 10 * a + b.
Proof.
  unfold two_digits. destruct (digit_val x) eqn:Ex, (digit_val y) eqn:Ey; intros; simplify_eq.
  apply digit_val_inv in Ex as [], Ey as []. eauto 10.
Qed.

Lemma days_in_month_le y m : days_in_month y m <= 31.
Proof. unfold days_in_month. repeat case_if; lia. Qed.

Lemma valid_date_bounds d :
  valid_date d = true -> 1 <= month d <= 12 /\ 1 <= day d <= 31.
Proof.
  unfold valid_date. rewrite !andb_true_iff, !Z.leb_le.
  pose proof (days_in_month_le (year d) (month d)). lia.
Qed.

Lemma four_digit_decomp y :
  0 <= y <= 9999 ->
  100 * (10 * (y / 1000 mod 10) + y / 100 mod 10) + (10 * (y / 10 mod 10) + y mod 10) = y.
Proof.
  intros Hy.
  pose proof (Z.div_mod y 10 ltac:(lia)).
  pose proof (Z.div_mod (y / 10) 10 ltac:(lia)).
  pose proof (Z.div_mod (y / 100) 10 ltac:(lia)).
  assert (E1 : y / 10 / 10 = y / 100) by (rewrite Z.div_div; [reflexivity|lia..]).
  assert (E2 : y / 100 / 10 = y / 1000) by (rewrite Z.div_div; [reflexivity|lia..]).
  rewrite E1, E2 in *.
  rewrite (Z.mod_small (y / 1000) 10) by (split; [apply Z.div_pos|apply Z.div_lt_upper_bound]; lia).
  lia.
Qed.

Lemma two_digit_decomp m : 0 <= m <= 99 -> 10 * (m / 10 mod 10) + m mod 10 = m.
Proof.
  intros Hm. pose proof (Z.div_mod m 10 ltac:(lia)).
  rewrite (Z.mod_small (m / 10) 10) by (split; [apply Z.div_pos|apply Z.div_lt_upper_bound]; lia).
  lia.
Qed.

Lemma div_mod_digits q r n :
  0 < n -> 0 <= r < n -> (n * q + r) / n = q /\ (n * q + r) mod n = r.
Proof.
  intros Hn Hr. split.
  - symmetry. apply (Z.div_unique _ _ _ r); lia.
  - symmetry. apply (Z.mod_unique _ _ q); lia.
Qed.

Lemma digits_of_four a b c e :
  0 <= a < 10 -> 0 <= b < 10 -> 0 <= c < 10 -> 0 <= e < 10 ->
  let y := 100 * (10 * a + b) + (10 * c + e) in
  y / 1000 mod 10 = a /\ y / 100 mod 10 = b /\ y / 10 mod 10 = c /\ y mod 10 = e.
Proof.
  intros Ha Hb Hc He y.
  destruct (div_mod_digits a (100 * b + 10 * c + e) 1000) as [E1 _]; [lia..|].
  destruct (div_mod_digits (10 * a + b) (10 * c + e) 100) as [E2 _]; [lia..|].
  destruct (div_mod_digits (100 * a + 10 * b + c) e 10) as [E3 E4]; [lia..|].
  destruct (div_mod_digits a b 10) as [_ F2]; [lia..|].
  destruct (div_mod_digits (10 * a + b) c 10) as [_ F3]; [lia..|].
  unfold y.
  replace (100 * (10 * a + b) + (10 * c + e)) with (1000 * a + (100 * b + 10 * c + e)) at 1 by lia.
  rewrite E1, Z.mod_small by lia. split; [done|].
  replace (100 * (10 * a + b) + (10 * c + e)) with (100 * (10 * a + b) + (10 * c + e)) at 1 by lia.
  rewrite E2. replace (10 * a + b) with (10 * a + b) by lia. split; [by rewrite F2|].
  replace (100 * (10 * a + b) + (10 * c + e)) with (10 * (100 * a + 10 * b + c) + e) by lia.
  rewrite E3, E4. split; [|done].
  replace (100 * a + 10 * b + c) with (10 * (10 * a + b) + c) by lia. done.
Qed.

Lemma digits_of_two a b :
  0 <= a < 10 -> 0 <= b < 10 -> (10 * a + b) / 10 mod 10 = a /\ (10 * a + b) mod 10 = b.
Proof.
  intros Ha Hb. destruct (div_mod_digits a b 10) as [-> ->]; [lia..|].
  split; [by apply Z.mod_small|done].
Qed.

(** Reduce the text-level functions, keeping the digit functions folded. *)
Ltac iso_simpl :=
  cbn -[digit_char digit_val two_digits Z.div Z.modulo Z.mul Z.add valid_date].

(** [C27] The JSON encoder's text of a date reads back as the same date:
    [parse_iso] inverts [print_iso] on every valid date of a four-digit
    year, so a date cast from the CSV and served as JSON keeps its value. *)
Theorem parse_print_iso d :
  valid_date d = true -> 0 <= year d <= 9999 -> parse_iso (print_iso d) = Some d.
Proof.
  intros Hv Hy. pose proof (valid_date_bounds d Hv) as [Hm Hd].
  destruct d as [y m dd]; simpl in *.
  unfold print_iso, parse_iso, four_digits. iso_simpl.
  rewrite !two_digits_char by (apply Z.mod_pos_bound; lia).
  rewrite four_digit_decomp, !two_digit_decomp by lia.
  by rewrite Hv.
Qed.

(** [C28] Conversely, every text [parse_iso] accepts is the encoder's text
    of the date it denotes: the text form of a date is unique. *)
Theorem print_parse_iso s d : parse_iso s = Some d -> print_iso d = s.
Proof.
  destruct s as [|y1 [|y2 [|y3 [|y4 [|s1 [|m1 [|m2 [|s2 [|d1 [|d2 [|? ?]]]]]]]]]]];
    try discriminate.
  unfold parse_iso, four_digits.
  destruct (Ascii.eqb_spec s1 "-"), (Ascii.eqb_spec s2 "-"); simpl; try discriminate; subst.
  destruct (two_digits y1 y2) eqn:A1, (two_digits y3 y4) eqn:A2,
    (two_digits m1 m2) eqn:A3, (two_digits d1 d2) eqn:A4; try discriminate.
  destruct valid_date; [|discriminate]. intros [= <-].
  apply two_digits_inv in A1 as (a1 & a2 & -> & -> & ? & ? & ->),
    A2 as (a3 & a4 & -> & -> & ? & ? & ->), A3 as (a5 & a6 & -> & -> & ? & ? & ->),
    A4 as (a7 & a8 & -> & -> & ? & ? & ->).
  unfold print_iso; cbn [year month day].
  destruct (digits_of_four a1 a2 a3 a4) as (-> & -> & -> & ->); [lia..|].
  destruct (digits_of_two a5 a6) as [-> ->]; [lia..|].
  destruct (digits_of_two a7 a8) as [-> ->]; [lia..|]. done.
Qed.

(** ** The pandas timestamp range *)

(** [C29] pandas represents a date as a 64-bit count of nanoseconds, so
    [to_datetime] keeps exactly the days numbered -106751..106751, that is
    1677-09-22 to 2262-04-11; every other date is coerced to NaT. *)
Theorem to_datetime_coerce_range s d :
  parse_iso s = Some d ->
  to_datetime_coerce (Some s) = (if decide (-106751 <= days_from_civil d <= 106751)
                                 then Some d else None).
Proof.
  intros Hp. unfold to_datetime_coerce. rewrite Hp.
  unfold pandas_in_bounds, int64_max, ns_per_day.
  destruct (Z.leb_spec (Z.abs (days_from_civil d * (86400 * 1000000000))) (2 ^ 63 - 1)),
    (decide _); simpl in *; done || lia.
Qed.

(** [Timedelta.days] of a difference of timestamps is the floor of the
    nanosecond difference divided by the length of a day. *)
Definition timedelta_days (ns : Z) : Z := ns / ns_per_day.

Lemma timedelta_days_midnights a b :
  timedelta_days (b * ns_per_day - a * ns_per_day) = b - a.
Proof.
  unfold timedelta_days. rewrite <- Z.mul_sub_distr_r.
  apply Z.div_mul. unfold ns_per_day. lia.
Qed.

Lemma timedelta_days_since now b :
  timedelta_days (now - b * ns_per_day) = now / ns_per_day - b.
Proof.
  unfold timedelta_days.
  replace (now - b * ns_per_day) with (now + (- b) * ns_per_day) by lia.
  rewrite Z.div_add by (unfold ns_per_day; lia). lia.
Qed.
