(* ===== verification/Schema.v ===== *)
(** The member record and the response models.

    [member_row D] is one line of the CSV as a dataframe row: fifteen
    nullable cells in the file's column order, the two date cells of type
    [D] ([string] as read, [date] once parsed or cast). [cell] is a value
    of a DuckDB result tuple; [row_cells] is [SELECT *] of one row, and
    [table_schema] the column types of the DuckDB table. Module [Models] holds the pydantic models of src/app/schemas.py and the
    construction [MemberData(Member_ID=r[0], ..., Churn=r[14])] of
    main.py:141-157, with pydantic's checks of each field. *)

From Stdlib Require Import ZArith QArith String.
From stdpp Require Import base list strings.
From S2P Require Import Prelude Dates.

Record member_row (D : Type) : Type := mk_row {
  Member_ID : option Z;
  Name : option string;
  Age : option Q;
  Gender : option string;
  Address : option string;
  Phone_Number : option string;
  Membership_Type : option string;
  Join_Date : option D;
  Last_Visit_Date : option D;
  Favorite_Exercise : option string;
  Avg_Workout_Duration_Min : option Z;
  Avg_Calories_Burned : option Q;
  Total_Weight_Lifted_kg : option Q;
  Visits_Per_Month : option Q;
  Churn : option string
}.
Arguments mk_row {D} _ _ _ _ _ _ _ _ _ _ _ _ _ _ _.
Arguments Member_ID {D} _. Arguments Name {D} _. Arguments Age {D} _.
Arguments Gender {D} _. Arguments Address {D} _. Arguments Phone_Number {D} _.
Arguments Membership_Type {D} _. Arguments Join_Date {D} _.
Arguments Last_Visit_Date {D} _. Arguments Favorite_Exercise {D} _.
Arguments Avg_Workout_Duration_Min {D} _. Arguments Avg_Calories_Burned {D} _.
Arguments Total_Weight_Lifted_kg {D} _. Arguments Visits_Per_Month {D} _.
Arguments Churn {D} _.

(** A row as [read_csv] returns it, and as the DuckDB table stores it. *)
Abbreviation raw_row := (member_row string).
Abbreviation table_row := (member_row date).

(** Replace the two date cells (the date casts of both scripts). *)
Definition map_dates {D E} (f : option D -> option E) (r : member_row D) : member_row E :=
  mk_row (Member_ID r) (Name r) (Age r) (Gender r) (Address r) (Phone_Number r)
    (Membership_Type r) (f (Join_Date r)) (f (Last_Visit_Date r)) (Favorite_Exercise r)
    (Avg_Workout_Duration_Min r) (Avg_Calories_Burned r) (Total_Weight_Lifted_kg r)
    (Visits_Per_Month r) (Churn r).

(** The same with a fallible cast: the Join_Date column is cast first. *)
Definition try_map_dates {D E} (f : option D -> result (option E)) (r : member_row D)
    : result (member_row E) :=
  let? j := f (Join_Date r) in
  let? l := f (Last_Visit_Date r) in
  Ok (mk_row (Member_ID r) (Name r) (Age r) (Gender r) (Address r) (Phone_Number r)
        (Membership_Type r) j l (Favorite_Exercise r) (Avg_Workout_Duration_Min r)
        (Avg_Calories_Burned r) (Total_Weight_Lifted_kg r) (Visits_Per_Month r) (Churn r)).

(** Set one cell ([with_columns] of a single column). *)
Definition set_Name {D} (v : option string) (r : member_row D) : member_row D :=
  mk_row (Member_ID r) v (Age r) (Gender r) (Address r) (Phone_Number r)
    (Membership_Type r) (Join_Date r) (Last_Visit_Date r) (Favorite_Exercise r)
    (Avg_Workout_Duration_Min r) (Avg_Calories_Burned r) (Total_Weight_Lifted_kg r)
    (Visits_Per_Month r) (Churn r).

(** Set the four numeric cells the service imputes. *)
Definition set_numeric {D} (age cal wt vis : option Q) (r : member_row D) : member_row D :=
  mk_row (Member_ID r) (Name r) age (Gender r) (Address r) (Phone_Number r)
    (Membership_Type r) (Join_Date r) (Last_Visit_Date r) (Favorite_Exercise r)
    (Avg_Workout_Duration_Min r) cal wt vis (Churn r).

(** ** Result tuples *)

Inductive cell : Type :=
  | CNull
  | CInt (z : Z)
  | CFloat (q : Q)
  | CStr (s : string)
  | CDate (d : date).

Definition cell_of {A} (f : A -> cell) (o : option A) : cell :=
  match o with Some a => f a | None => CNull end.

(** [SELECT *] on one row: the cells in column order. *)
Definition row_cells (r : table_row) : list cell :=
  [cell_of CInt (Member_ID r); cell_of CStr (Name r); cell_of CFloat (Age r);
   cell_of CStr (Gender r); cell_of CStr (Address r); cell_of CStr (Phone_Number r);
   cell_of CStr (Membership_Type r); cell_of CDate (Join_Date r);
   cell_of CDate (Last_Visit_Date r); cell_of CStr (Favorite_Exercise r);
   cell_of CInt (Avg_Workout_Duration_Min r); cell_of CFloat (Avg_Calories_Burned r);
   cell_of CFloat (Total_Weight_Lifted_kg r); cell_of CFloat (Visits_Per_Month r);
   cell_of CStr (Churn r)].

(** The column types of [gym_membership_data], as DuckDB creates the
    table from the polars frame (main.py:48-61): integer columns stay
    BIGINT, the four columns filled with their mean are DOUBLE, the cast
    date columns are DATE, the others VARCHAR. *)
Inductive col_type : Type := BIGINT | VARCHAR | DOUBLE | DATE.

Definition table_schema : list col_type :=
  [BIGINT; VARCHAR; DOUBLE; VARCHAR; VARCHAR; VARCHAR; VARCHAR; DATE; DATE; VARCHAR;
   BIGINT; DOUBLE; DOUBLE; DOUBLE; VARCHAR].

(** A value of a column: NULL or a value of the column's type. *)
Definition has_type (t : col_type) (c : cell) : bool :=
  match t, c with
  | _, CNull => true
  | BIGINT, CInt _ | VARCHAR, CStr _ | DOUBLE, CFloat _ | DATE, CDate _ => true
  | _, _ => false
  end.

Fixpoint tuple_typed (ts : list col_type) (cs : list cell) : bool :=
  match ts, cs with
  | [], [] => true
  | t :: ts', c :: cs' => has_type t c && tuple_typed ts' cs'
  | _, _ => false
  end.

(** ** The pydantic models (src/app/schemas.py) *)

Module Models.

Record MemberData : Type := mk_MemberData {
  Member_ID : Z;
  Name : string;
  Age : Q;
  Gender : string;
  Address : string;
  Phone_Number : string;
  Membership_Type : string;
  Join_Date : date;
  Last_Visit_Date : date;
  Favorite_Exercise : string;
  Avg_Workout_Duration_Min : Z;
  Avg_Calories_Burned : Q;
  Total_Weight_Lifted_kg : Q;
  Visits_Per_Month : Q;
  Churn : string
}.

(** The field [MemberData] of the source is [member_data] here: a Rocq
    record field cannot share the name of the record type above. *)
Record PaginatedItems : Type := mk_PaginatedItems {
  member_data : list MemberData;
  total : Z;
  page : Z;
  page_size : Z
}.

(** pydantic's checks of one field in its default (lax) mode, on the
    cells a DuckDB tuple of this table can hold. An [int] field accepts
    a float only when it is integral; [None] fails every field. *)
Definition as_int (c : cell) : result Z :=
  match c with
  | CInt z => Ok z
  | CFloat q => if Pos.eqb (Qden (Qred q)) 1 then Ok (Qnum (Qred q)) else Raise ValidationError
  | _ => Raise ValidationError
  end.

Definition as_float (c : cell) : result Q :=
  match c with
  | CInt z => Ok (inject_Z z)
  | CFloat q => Ok q
  | _ => Raise ValidationError
  end.

Definition as_str (c : cell) : result string :=
  match c with CStr s => Ok s | _ => Raise ValidationError end.

Definition as_date (c : cell) : result date :=
  match c with CDate d => Ok d | _ => Raise ValidationError end.

(** [r[i]] checked by a field validator. *)
Definition field {A} (r : list cell) (i : nat) (check : cell -> result A) : result A :=
  match r !! i with Some c => check c | None => Raise IndexError end.

(** [MemberData(Member_ID=r[0], Name=r[1], ..., Churn=r[14])]. *)
Definition MemberData_of_tuple (r : list cell) : result MemberData :=
  let? a0 := field r 0 as_int in let? a1 := field r 1 as_str in
  let? a2 := field r 2 as_float in let? a3 := field r 3 as_str in
  let? a4 := field r 4 as_str in let? a5 := field r 5 as_str in
  let? a6 := field r 6 as_str in let? a7 := field r 7 as_date in
  let? a8 := field r 8 as_date in let? a9 := field r 9 as_str in
  let? a10 := field r 10 as_int in let? a11 := field r 11 as_float in
  let? a12 := field r 12 as_float in let? a13 := field r 13 as_float in
  let? a14 := field r 14 as_str in
  Ok (mk_MemberData a0 a1 a2 a3 a4 a5 a6 a7 a8 a9 a10 a11 a12 a13 a14).

End Models.

(** The member a complete row describes, read by column name: [None] as
    soon as one cell is null. *)
Definition member_of_row (r : table_row) : option Models.MemberData :=
  a0 ← Member_ID r; a1 ← Name r; a2 ← Age r; a3 ← Gender r; a4 ← Address r;
  a5 ← Phone_Number r; a6 ← Membership_Type r; a7 ← Join_Date r;
  a8 ← Last_Visit_Date r; a9 ← Favorite_Exercise r; a10 ← Avg_Workout_Duration_Min r;
  a11 ← Avg_Calories_Burned r; a12 ← Total_Weight_Lifted_kg r; a13 ← Visits_Per_Month r;
  a14 ← Churn r;
  Some (Models.mk_MemberData a0 a1 a2 a3 a4 a5 a6 a7 a8 a9 a10 a11 a12 a13 a14).

Definition of_option {A} (o : option A) : result A :=
  match o with Some a => Ok a | None => Raise ValidationError end.

Lemma of_option_cell_int (o : option Z) : Models.as_int (cell_of CInt o) = of_option o.
Proof. by destruct o. Qed.
Lemma of_option_cell_str (o : option string) : Models.as_str (cell_of CStr o) = of_option o.
Proof. by destruct o. Qed.
Lemma of_option_cell_float (o : option Q) : Models.as_float (cell_of CFloat o) = of_option o.
Proof. by destruct o. Qed.
Lemma of_option_cell_date (o : option date) : Models.as_date (cell_of CDate o) = of_option o.
Proof. by destruct o. Qed.

#[export] Hint Rewrite of_option_cell_int of_option_cell_str of_option_cell_float
  of_option_cell_date : gym_rw.

(** Reading the tuple by position reads the row by column name. *)
Lemma MemberData_of_tuple_row r :
  Models.MemberData_of_tuple (row_cells r) = of_option (member_of_row r).
Proof.
  unfold Models.MemberData_of_tuple, Models.field, member_of_row. simpl.
  autorewrite with gym_rw.
  destruct r as [a0 a1 a2 a3 a4 a5 a6 a7 a8 a9 a10 a11 a12 a13 a14]; simpl.
  repeat match goal with
         | |- context [of_option ?o] => destruct o; simpl; [|done]
         end.
  done.
Qed.

(** [C19] Reading the [SELECT *] tuple by position, as main.py:141-157
    does with [r[0]] to [r[14]], builds exactly the member the row
    describes by column name, and pydantic rejects the tuple with a
    ValidationError exactly when one of its fifteen cells is null. *)
Theorem MemberData_of_tuple_spec r m :
  (Models.MemberData_of_tuple (row_cells r) = Ok m <-> member_of_row r = Some m) /\
  (Models.MemberData_of_tuple (row_cells r) = Raise ValidationError <-> member_of_row r = None).
Proof.
  rewrite MemberData_of_tuple_row.
  destruct (member_of_row r); simpl; split; split; congruence.
Qed.

Lemma has_type_cell_of {A} t (f : A -> cell) o :
  (forall a, has_type t (f a) = true) -> has_type t (cell_of f o) = true.
Proof. intros H. destruct o; simpl; [apply H|by destruct t]. Qed.

Lemma tuple_typed_length ts cs : tuple_typed ts cs = true -> length cs = length ts.
Proof.
  revert cs. induction ts as [|t ts IH]; intros [|c cs]; simpl; try done.
  intros [_ H]%andb_prop. by rewrite (IH cs H).
Qed.

(** [C36] The types of the table and of the model agree: every [SELECT *]
    tuple has the column types of [gym_membership_data], and pydantic's
    [MemberData] accepts every tuple of those types that holds no NULL
    (a DOUBLE column goes to a [float] field, a BIGINT column to an
    [int] field, a DATE column to a [date] field). *)
Theorem member_tuple_typed r cs :
  tuple_typed table_schema (row_cells r) = true /\
  (tuple_typed table_schema cs = true -> CNull ∉ cs -> is_ok (Models.MemberData_of_tuple cs) = true).
Proof.
  split.
  - cbn [tuple_typed table_schema row_cells]. by rewrite !has_type_cell_of by (intros; reflexivity).
  - intros Ht Hn. pose proof (tuple_typed_length _ _ Ht) as Hl.
    do 15 (destruct cs as [|? cs]; [discriminate Hl|]). destruct cs; [|discriminate Hl].
    simpl in Ht. rewrite ?andb_true_iff in Ht. rewrite ?not_elem_of_cons in Hn.
    destruct_and! Ht. destruct_and! Hn.
    repeat match goal with
           | c : cell |- _ => destruct c; try discriminate; try congruence
           end.
    reflexivity.
Qed.
