(* ===== verification/Frame.v ===== *)
(** Column operations of the dataframe and SQL libraries the scripts call.

    A column is a [list (option A)] in row order, [None] a null. The
    operations are the library behaviours the code relies on:
    [Series.value_counts()] (nulls dropped, most frequent first),
    [COUNT(DISTINCT c)] (nulls ignored), [mean()] (nulls ignored, null on
    an all-null column) and [fill_null]/[fillna] (nulls replaced, other
    cells kept). *)

From Stdlib Require Import ZArith QArith Lia Sorted Permutation.
From stdpp Require Import base list gmap list_numbers.
From S2P Require Import Prelude.

(** A grouped aggregate sorted by a score, most first: one entry per key. *)
Definition group_agg {K V} (score : V -> Z) (keys : list K) (agg : K -> V) : list (K * V) :=
  sort_desc (fun p => score p.2) (map (fun k => (k, agg k)) keys).

Section Column.
Context {A : Type} `{EqDecision A}.

(** The non-null cells of a column, in row order. *)
Definition non_null (xs : list (option A)) : list A := omap id xs.

(** Number of cells equal to [k]. *)
Definition count_of (k : A) (xs : list (option A)) : nat :=
  length (List.filter (fun x => bool_decide (x = Some k)) xs).

(** [Series.value_counts()]: each distinct non-null value with its count,
    most frequent first. *)
Definition value_counts (xs : list (option A)) : list (A * nat) :=
  group_agg Z.of_nat (remove_dups (non_null xs)) (fun k => count_of k xs).

(** [COUNT(DISTINCT c)]. *)
Definition count_distinct (xs : list (option A)) : nat :=
  length (remove_dups (non_null xs)).

(** [fill_null(v)] on one cell: a null becomes [v]. *)
Definition fill_null (v : option A) (o : option A) : option A :=
  match o with Some a => Some a | None => v end.
End Column.

(** [mean()] of a numeric column: nulls are skipped; a column without a
    value has a null mean. *)
Definition col_mean (xs : list (option Q)) : option Q :=
  match non_null xs with
  | [] => None
  | vs => Some (foldr Qplus 0%Q vs / inject_Z (Z.of_nat (length vs)))%Q
  end.

(** ** Lemmas *)

Section ColumnLemmas.
Context {A : Type} `{EqDecision A}.
Implicit Types (xs : list (option A)) (k : A).

Lemma elem_of_non_null k xs : k ∈ non_null xs <-> Some k ∈ xs.
Proof.
  unfold non_null. rewrite list_elem_of_omap. split.
  - by intros (y & Hy & ->%eq_sym).
  - intros H. by exists (Some k).
Qed.

Lemma length_remove_dups_le (l : list A) : length (remove_dups l) <= length l.
Proof. induction l as [|x l IH]; simpl; [lia|]. case_decide; simpl; lia. Qed.

Lemma length_non_null_le xs : length (non_null xs) <= length xs.
Proof. induction xs as [|[x|] xs IH]; simpl; lia. Qed.

(** A column has at most as many distinct values as cells. *)
Lemma count_distinct_le xs : count_distinct xs <= length xs.
Proof.
  unfold count_distinct. etransitivity; [apply length_remove_dups_le|].
  apply length_non_null_le.
Qed.

Lemma count_of_cons k x xs :
  count_of k (x :: xs) = (if bool_decide (x = Some k) then 1 else 0) + count_of k xs.
Proof. unfold count_of. simpl. by case_bool_decide. Qed.

Lemma count_of_pos k xs : Some k ∈ xs -> 0 < count_of k xs.
Proof.
  induction xs as [|x xs IH]; [by intros ?%elem_of_nil|].
  rewrite count_of_cons, elem_of_cons. intros [<-|Hk].
  - rewrite bool_decide_true by done. lia.
  - specialize (IH Hk). lia.
Qed.

Lemma non_null_cons_None xs : non_null (None :: xs) = non_null xs.
Proof. done. Qed.

Lemma non_null_cons_Some k xs : non_null (Some k :: xs) = k :: non_null xs.
Proof. done. Qed.

(** A cell is counted under at most one key of a duplicate-free list. *)
Lemma sum_indicator (ks : list A) (x : option A) :
  NoDup ks ->
  sum_list (map (fun k => if bool_decide (x = Some k) then 1 else 0) ks) =
  (match x with Some y => if bool_decide (y ∈ ks) then 1 else 0 | None => 0 end).
Proof.
  induction 1 as [|k ks Hk Hnd IH]; simpl; [by destruct x|].
  rewrite IH. destruct x as [y|]; [|by rewrite bool_decide_false].
  repeat case_bool_decide; simplify_eq; set_solver.
Qed.

(** The counts of a duplicate-free list of keys covering the non-null
    cells add up to the number of non-null cells. *)
Lemma sum_counts_cover (ks : list A) xs :
  NoDup ks -> (forall k, Some k ∈ xs -> k ∈ ks) ->
  sum_list (map (fun k => count_of k xs) ks) = length (non_null xs).
Proof.
  intros Hnd. induction xs as [|x xs IH]; intros Hcov.
  - unfold count_of. simpl. clear Hnd Hcov. induction ks; simpl; lia.
  - erewrite map_ext by (intros k; apply count_of_cons).
    rewrite sum_list_map_add, sum_indicator, IH by (done || set_solver).
    destruct x as [y|]; simpl; [|done].
    rewrite bool_decide_true by set_solver. done.
Qed.
End ColumnLemmas.

Section GroupAgg.
Context {K V : Type} (score : V -> Z).
Implicit Types (keys : list K) (agg : K -> V).

Lemma group_agg_perm keys agg :
  Permutation (group_agg score keys agg) (map (fun k => (k, agg k)) keys).
Proof. apply sort_desc_perm. Qed.

Lemma group_agg_elem keys agg k v :
  (k, v) ∈ group_agg score keys agg <-> k ∈ keys /\ v = agg k.
Proof.
  rewrite (group_agg_perm keys agg), list_elem_of_In, in_map_iff.
  split; [intros (k' & [= -> ->] & Hk); by apply list_elem_of_In in Hk|].
  intros [Hk ->]. exists k. split; [done|]. by apply list_elem_of_In.
Qed.

Lemma group_agg_keys keys agg : map fst (group_agg score keys agg) ≡ₚ keys.
Proof. rewrite (group_agg_perm keys agg), map_map. simpl. by rewrite map_id. Qed.

Lemma group_agg_sorted keys agg : Sorted (desc (fun p => score p.2)) (group_agg score keys agg).
Proof. apply sort_desc_sorted. Qed.

(** An entry list whose values are those of [agg] is determined by its keys. *)
Lemma entries_of_keys (res : list (K * V)) agg :
  (forall k v, (k, v) ∈ res -> v = agg k) -> res = map (fun k => (k, agg k)) (map fst res).
Proof.
  induction res as [|[k v] res IH]; intros Hv; [done|]. simpl.
  rewrite <- (Hv k v) by left. f_equal. apply IH. intros k' v' H. apply Hv. by right.
Qed.

(** Two results with distinct keys, the same key set and the values of
    [agg] differ only in their order. *)
Lemma agg_unique (res1 res2 : list (K * V)) agg :
  NoDup (map fst res1) -> NoDup (map fst res2) ->
  (forall k, k ∈ map fst res1 <-> k ∈ map fst res2) ->
  (forall k v, (k, v) ∈ res1 -> v = agg k) -> (forall k v, (k, v) ∈ res2 -> v = agg k) ->
  res1 ≡ₚ res2.
Proof.
  intros Hn1 Hn2 Hk Hv1 Hv2.
  rewrite (entries_of_keys res1 agg Hv1), (entries_of_keys res2 agg Hv2).
  apply Permutation_map. by apply NoDup_Permutation.
Qed.
End GroupAgg.

Section ValueCounts.
Context {A : Type} `{EqDecision A}.
Implicit Types (xs : list (option A)) (k : A).

(** An entry of the value counts is a value of the column with its
    number of occurrences, and every value of the column has an entry. *)
Lemma value_counts_elem xs k n :
  (k, n) ∈ value_counts xs <-> Some k ∈ xs /\ n = count_of k xs.
Proof.
  unfold value_counts. by rewrite group_agg_elem, elem_of_remove_dups, elem_of_non_null.
Qed.

Lemma value_counts_keys xs : map fst (value_counts xs) ≡ₚ remove_dups (non_null xs).
Proof. apply group_agg_keys. Qed.

Lemma value_counts_NoDup xs : NoDup (map fst (value_counts xs)).
Proof. rewrite value_counts_keys. apply NoDup_remove_dups. Qed.

Lemma value_counts_sorted xs : Sorted (desc (fun p => Z.of_nat p.2)) (value_counts xs).
Proof. apply sort_desc_sorted. Qed.

(** The counts add up to the number of non-null cells. *)
Lemma value_counts_total xs : sum_list (map snd (value_counts xs)) = length (non_null xs).
Proof.
  unfold value_counts. rewrite group_agg_perm, map_map. simpl.
  apply sum_counts_cover; [apply NoDup_remove_dups|].
  intros k Hk. by apply elem_of_remove_dups, elem_of_non_null.
Qed.
End ValueCounts.

(** [COUNT(DISTINCT c)] is the size of the set of the column's values. *)
Lemma count_distinct_size `{Countable A} (xs : list (option A)) :
  count_distinct xs = size (list_to_set (non_null xs) : gset A).
Proof.
  unfold count_distinct.
  rewrite <- (size_list_to_set (C := gset A)) by apply NoDup_remove_dups.
  f_equal. apply set_eq. intros x. rewrite !elem_of_list_to_set. apply elem_of_remove_dups.
Qed.
