(* ===== verification/Store.v ===== *)
(** The DuckDB database file [data/gym_members_dataset.db] as a catalogue
    of named tables.

    The service uses two operations of the store: [CREATE OR REPLACE TABLE
    n AS (SELECT * FROM df)] (main.py:53-60) and the reads of table [n]
    by the queries of main.py:71-139 (a read of a missing table raises
    DuckDB's CatalogException). [TableStore] states these operations and
    [TableStoreLaws] what the service relies on; the clients in [Serving],
    [Queries] and [Api] are proved against the laws only. The instance
    [gmap_store] implements the catalogue as a finite map from table
    names to tables and discharges the laws. *)

From stdpp Require Import base gmap strings.
From S2P Require Import Prelude.

Class TableStore (St T : Type) := {
  get_table : string -> St -> option T;
  create_or_replace : string -> T -> St -> St
}.

Class TableStoreLaws (St T : Type) `{TableStore St T} := {
  get_create_or_replace_eq n t s : get_table n (create_or_replace n t s) = Some t;
  get_create_or_replace_ne n n' t s :
    n <> n' -> get_table n' (create_or_replace n t s) = get_table n' s;
  (** drop-and-recreate: the previous table of that name is gone *)
  create_or_replace_twice n t t' s :
    create_or_replace n t (create_or_replace n t' s) = create_or_replace n t s
}.

(** [SELECT ... FROM n]: the rows of table [n], or a CatalogException. *)
Definition select_from `{TableStore St T} (n : string) (s : St) : result T :=
  match get_table n s with
  | Some t => Ok t
  | None => Raise CatalogException
  end.

#[export] Instance gmap_store (T : Type) : TableStore (gmap string T) T := {
  get_table n s := s !! n;
  create_or_replace n t s := <[n := t]> s
}.

#[export] Instance gmap_store_laws (T : Type) : TableStoreLaws (gmap string T) T.
Proof.
  split; simpl.
  - intros. apply lookup_insert_eq.
  - intros. by apply lookup_insert_ne.
  - intros. apply insert_insert_eq.
Qed.

Section StoreLemmas.
Context `{TableStoreLaws St T}.

Lemma select_from_create_or_replace n t s : select_from n (create_or_replace n t s) = Ok t.
Proof. unfold select_from. by rewrite get_create_or_replace_eq. Qed.

Lemma select_from_ok n s t : select_from n s = Ok t <-> get_table n s = Some t.
Proof. unfold select_from. destruct (get_table n s); split; congruence. Qed.
End StoreLemmas.

#[export] Hint Rewrite @select_from_create_or_replace : gym_rw.
