(* ===== verification/Serving.v ===== *)
(** The start-up of the service, src/app/main.py lines 17-33 and 48-64.

    [fill_step] is the [with_columns] of lines 18-24: names default to
    ["Test Name"] and the four numeric columns are filled with their mean,
    every mean computed on the frame as read (before any row is dropped).
    [drop_null_join] is [drop_nulls(subset=["Join_Date"])] (line 27),
    [cast_dates] the strict [cast(pl.Date)] of both date columns (lines
    30-33), [serve_load] their composition, and [create_table] the [CREATE
    OR REPLACE TABLE gym_membership_data] of lines 48-61 on a store given
    by the [TableStore] interface. *)

From Stdlib Require Import ZArith QArith String.
From stdpp Require Import base list strings.
From S2P Require Import Prelude Dates Schema Frame Store.

Open Scope string_scope.

Definition table_name : string := "gym_membership_data".

Section Load.

(** Lines 18-24. *)
Definition fill_step (raw : list raw_row) : list raw_row :=
  let m_age := col_mean (map Age raw) in
  let m_cal := col_mean (map Avg_Calories_Burned raw) in
  let m_wt := col_mean (map Total_Weight_Lifted_kg raw) in
  let m_vis := col_mean (map Visits_Per_Month raw) in
  map (fun r =>
         set_numeric (fill_null m_age (Age r)) (fill_null m_cal (Avg_Calories_Burned r))
           (fill_null m_wt (Total_Weight_Lifted_kg r)) (fill_null m_vis (Visits_Per_Month r))
           (set_Name (fill_null (Some "Test Name") (Name r)) r))
      raw.

(** Line 27. *)
Definition drop_null_join (df : list raw_row) : list raw_row :=
  List.filter (fun r => is_some (Join_Date r)) df.

(** Lines 30-33: a text that is not a date makes the cast, and so the
    start-up, raise. *)
Definition cast_dates (df : list raw_row) : result (list table_row) :=
  all_ok (map (try_map_dates cast_date_strict) df).

Definition serve_load (raw : list raw_row) : result (list table_row) :=
  cast_dates (drop_null_join (fill_step raw)).

End Load.

Section CreateTable.
Context `{TableStore St (list table_row)}.

(** Lines 48-61. *)
Definition create_table (df : list table_row) (db : St) : St :=
  create_or_replace table_name df db.

(** Lines 17-64 in order: load the frame, then materialise it. The
    module-level [df] the handlers read is the frame returned here. *)
Definition startup (raw : list raw_row) (db : St) : result (list table_row * St) :=
  let? df := serve_load raw in
  Ok (df, create_table df db).
End CreateTable.

(** ** The strict cast *)

(** A date cell the strict cast accepts: null, or the text of a date. *)
Definition cell_parses (c : option string) : bool :=
  match c with None => true | Some s => is_some (parse_iso s) end.

Definition row_parses (r : raw_row) : bool :=
  cell_parses (Join_Date r) && cell_parses (Last_Visit_Date r).

Definition parse_cell (c : option string) : option date := c ≫= parse_iso.

Lemma cast_date_strict_spec c :
  cast_date_strict c = if cell_parses c then Ok (parse_cell c) else Raise InvalidOperationError.
Proof. destruct c as [s|]; simpl; [|done]. by destruct (parse_iso s). Qed.

Lemma try_map_dates_cast r :
  try_map_dates cast_date_strict r =
  if row_parses r then Ok (map_dates parse_cell r) else Raise InvalidOperationError.
Proof.
  unfold try_map_dates, row_parses. rewrite !cast_date_strict_spec.
  by destruct (cell_parses (Join_Date r)), (cell_parses (Last_Visit_Date r)).
Qed.

Lemma cast_dates_spec df :
  cast_dates df =
  if forallb row_parses df then Ok (map (map_dates parse_cell) df)
  else Raise InvalidOperationError.
Proof.
  unfold cast_dates. induction df as [|r df IH]; simpl; [done|].
  rewrite try_map_dates_cast. destruct (row_parses r); simpl; [|done].
  rewrite IH. by destruct (forallb row_parses df).
Qed.

(** [C12] The start-up load, on both branches: it succeeds exactly when
    every row that has a join date holds date texts in both date columns
    (or nulls), and then yields those rows, in order, with names and the
    four numeric columns filled and the dates parsed; otherwise the strict
    cast raises InvalidOperationError and the service does not start. *)
Theorem serve_load_spec raw :
  serve_load raw =
  let kept := drop_null_join (fill_step raw) in
  if forallb row_parses kept then Ok (map (map_dates parse_cell) kept)
  else Raise InvalidOperationError.
Proof. apply cast_dates_spec. Qed.

Lemma serve_load_Ok raw df :
  serve_load raw = Ok df ->
  forallb row_parses (drop_null_join (fill_step raw)) = true /\
  df = map (map_dates parse_cell) (drop_null_join (fill_step raw)).
Proof.
  unfold serve_load. rewrite cast_dates_spec. destruct forallb; [|done]. by intros [= <-].
Qed.

(** Each served row is a kept row with its dates parsed. *)
Lemma serve_load_elem raw df r :
  serve_load raw = Ok df -> r ∈ df ->
  exists r1, r1 ∈ drop_null_join (fill_step raw) /\ row_parses r1 = true /\
    r = map_dates parse_cell r1.
Proof.
  intros [Hall ->]%serve_load_Ok Hr.
  apply list_elem_of_In, in_map_iff in Hr as (r1 & <- & Hr1).
  exists r1. split_and!; [by apply list_elem_of_In| |done].
  exact (proj1 (forallb_forall _ _) Hall r1 Hr1).
Qed.

(** [C7] The invariant of the served table (spec §3): every row the load
    keeps has a join date, and the name column has no null. *)
Theorem serve_load_join_date raw df :
  serve_load raw = Ok df ->
  Forall (fun r => is_some (Join_Date r) = true /\ is_some (Name r) = true) df.
Proof.
  intros Hl. apply Forall_forall. intros r Hr.
  destruct (serve_load_elem raw df r Hl Hr) as (r1 & Hk & Hp & ->).
  unfold drop_null_join, fill_step in Hk. rewrite list_elem_of_In, filter_In, in_map_iff in Hk.
  destruct Hk as [(r0 & <- & _) Hj].
  unfold row_parses in Hp. apply andb_true_iff in Hp as [Hpj _].
  unfold map_dates, set_numeric, set_Name, parse_cell in *; simpl in *.
  destruct (Join_Date r0) as [s|]; [|done]. simpl in *.
  destruct (parse_iso s); [|done]. by destruct (Name r0).
Qed.
