(* ===== verification/Queries.v ===== *)
(** The three SQL queries of src/app/main.py, on the rows of table
    [gym_membership_data] in storage order.

    - [churn_by_membership]: lines 71-78,
      [SELECT Membership_Type, SUM(CASE WHEN churn = 'Yes' THEN 1 ELSE 0 END)
       AS num_churns ... GROUP BY Membership_Type ORDER BY num_churns DESC].
    - [favorite_exercise_count]: lines 93-101,
      [SELECT Favorite_Exercise, COUNT(DISTINCT Member_ID) ... WHERE
       Favorite_Exercise = ? GROUP BY Favorite_Exercise].
    - [count_star] and [page_rows]: lines 122 and 133-139,
      [SELECT COUNT( * )] and [SELECT * ... LIMIT ? OFFSET ?], the latter
      raising past DuckDB's LIMIT/OFFSET bound ([select_page]).

    SQL leaves the order of groups and of ties open; each aggregate has an
    abstract specification ([*_spec]) that every order satisfies, the
    model's result refines it, and any two results meeting it are
    permutations of each other. Aggregates do not depend on the storage
    order of the table ([Proper] instances for [≡ₚ]); pages do. *)

From Stdlib Require Import ZArith QArith Lia Sorted Permutation String.
From stdpp Require Import base list gmap strings list_numbers.
From S2P Require Import Prelude Dates Schema Frame.

Open Scope string_scope.

Abbreviation table := (list table_row).

Module Churn.

(** [CASE WHEN churn = 'Yes' THEN 1 ELSE 0 END]: a NULL churn compares
    as unknown and counts 0. *)
Definition churn_flag (r : table_row) : Z :=
  match Churn r with
  | Some s => if String.eqb s "Yes" then 1 else 0
  | None => 0
  end.

(** [SUM(...)] over the group of rows whose type is [k]; NULL types form
    one group, as in SQL's GROUP BY. *)
Definition num_churns (t : table) (k : option string) : Z :=
  foldr Z.add 0 (map churn_flag (List.filter (fun r => bool_decide (Membership_Type r = k)) t)).

(** The groups, one per distinct value of the grouping column. *)
Definition group_keys (t : table) : list (option string) :=
  remove_dups (map Membership_Type t).

Definition churn_by_membership (t : table) : list (option string * Z) :=
  group_agg id (group_keys t) (num_churns t).

(** What the query promises, whatever order the engine groups in. *)
Definition churn_by_membership_spec (t : table) (res : list (option string * Z)) : Prop :=
  NoDup (map fst res) /\
  (forall k, k ∈ map fst res <-> k ∈ map Membership_Type t) /\
  (forall k n, (k, n) ∈ res -> n = num_churns t k) /\
  Sorted (desc (fun p => p.2)) res.

End Churn.

Module Exercise.

Definition matching (t : table) (ex : string) : table :=
  List.filter (fun r => bool_decide (Favorite_Exercise r = Some ex)) t.

(** One group when some row matches, none otherwise. *)
Definition favorite_exercise_count (t : table) (ex : string) : list (string * Z) :=
  match matching t ex with
  | [] => []
  | rows => [(ex, Z.of_nat (count_distinct (map Member_ID rows)))]
  end.

(** What the query promises, stated on the table's rows: no row when no
    row has that exercise; otherwise one row, keyed by the exercise, with
    the size of the set of member ids of the rows that have it (a NULL id
    is not an element of the set). *)
Definition favorite_exercise_spec (t : table) (ex : string) (res : list (string * Z)) : Prop :=
  ((forall r, r ∈ t -> Favorite_Exercise r <> Some ex) /\ res = []) \/
  ((exists r, r ∈ t /\ Favorite_Exercise r = Some ex) /\
   exists ids : gset Z,
     (forall id, id ∈ ids <-> exists r, r ∈ t /\ Favorite_Exercise r = Some ex /\ Member_ID r = Some id) /\
     res = [(ex, Z.of_nat (size ids))]).

End Exercise.

Module Page.

(** [SELECT COUNT( * )]. *)
Definition count_star (t : table) : Z := Z.of_nat (length t).

(** Line 118: [offset = (page - 1) * page_size]. *)
Definition offset (page page_size : Z) : Z := (page - 1) * page_size.

(** [LIMIT page_size OFFSET offset], rows in storage order (no ORDER BY). *)
Definition page_rows (t : table) (page page_size : Z) : table :=
  limit_offset (Z.to_nat page_size) (Z.to_nat (offset page page_size)) t.

(** DuckDB's largest LIMIT/OFFSET value, [1 << 62]. *)
Definition max_limit_offset : Z := 2 ^ 62.

(** Lines 133-139: the [LIMIT ? OFFSET ?] query with its parameters
    bound. DuckDB raises on a value above [1 << 62] ("Max value ... for
    LIMIT/OFFSET"; a value beyond int64 already fails its conversion to
    BIGINT), otherwise it returns the page. *)
Definition select_page (t : table) (page page_size : Z) : result table :=
  if (page_size <=? max_limit_offset)%Z && (offset page page_size <=? max_limit_offset)%Z
  then Ok (page_rows t page page_size)
  else Raise BinderException.

(** Number of pages of [page_size] rows: [ceil(T / page_size)]. *)
Definition num_pages (t : table) (page_size : Z) : Z :=
  (count_star t + page_size - 1) / page_size.

End Page.

(** ** The churn query *)

Section ChurnProofs.
Import Churn.

Lemma sum_Z_perm (l l' : list Z) : l ≡ₚ l' -> foldr Z.add 0 l = foldr Z.add 0 l'.
Proof. induction 1; simpl; lia. Qed.

(** The count of a group does not depend on the storage order. *)
#[export] Instance num_churns_proper : Proper ((≡ₚ) ==> eq ==> eq) num_churns.
Proof.
  intros t t' Ht k ? <-. unfold num_churns.
  apply sum_Z_perm, Permutation_map. by apply filter_perm.
Qed.

(** [C5] Refinement: the modelled query meets its specification. Its
    groups are the distinct membership types of the table (NULL being
    one), each once; each carries the number of its rows whose churn is
    exactly "Yes"; and the list is sorted by that number, largest first. *)
Theorem churn_by_membership_refines t :
  churn_by_membership_spec t (churn_by_membership t).
Proof.
  unfold churn_by_membership_spec, churn_by_membership, group_keys.
  split_and!.
  - rewrite group_agg_keys. apply NoDup_remove_dups.
  - intros k. by rewrite group_agg_keys, elem_of_remove_dups.
  - intros k n. by rewrite group_agg_elem; intros [_ ->].
  - apply (group_agg_sorted id).
Qed.

(** The specification fixes the answer up to the order of ties:
    two results that meet it are permutations of each other. *)
Theorem churn_by_membership_spec_unique t res1 res2 :
  churn_by_membership_spec t res1 -> churn_by_membership_spec t res2 -> res1 ≡ₚ res2.
Proof.
  intros (N1 & K1 & V1 & _) (N2 & K2 & V2 & _).
  apply (agg_unique res1 res2 (num_churns t)); [done|done| |done|done].
  intros k. by rewrite K1, K2.
Qed.

(** Spec §8: the counts never increase along the response, for any
    two positions, not only neighbours. *)
Theorem churn_by_membership_non_increasing t i j k1 n1 k2 n2 :
  (i < j)%nat ->
  churn_by_membership t !! i = Some (k1, n1) ->
  churn_by_membership t !! j = Some (k2, n2) ->
  (n2 <= n1)%Z.
Proof.
  intros Hij Hi Hj.
  apply (sorted_desc_nth (fun p => p.2) (churn_by_membership t) i j (k1, n1) (k2, n2));
    [apply (group_agg_sorted id)|done..].
Qed.

(** The answer does not depend on the storage order of the table:
    a reordered table has the same specified answers. *)
Theorem churn_by_membership_spec_perm t t' res :
  t ≡ₚ t' -> churn_by_membership_spec t res <-> churn_by_membership_spec t' res.
Proof.
  intros Ht. unfold churn_by_membership_spec.
  assert (Hk : forall k, k ∈ map Membership_Type t <-> k ∈ map Membership_Type t')
    by (intros k; by rewrite Ht).
  setoid_rewrite Hk. by setoid_rewrite Ht.
Qed.
End ChurnProofs.

(** ** The exercise query *)

Section ExerciseProofs.
Import Exercise.

Lemma elem_of_matching t ex r : r ∈ matching t ex <-> r ∈ t /\ Favorite_Exercise r = Some ex.
Proof. unfold matching. by rewrite !list_elem_of_In, filter_In, bool_decide_eq_true. Qed.

(** [C8] Refinement: the query answers with the number of distinct
    non-null member ids among the rows of the requested exercise, as the
    size of a set, or with no row when no member has that exercise. *)
Theorem favorite_exercise_refines t ex :
  favorite_exercise_spec t ex (favorite_exercise_count t ex).
Proof.
  unfold favorite_exercise_spec, favorite_exercise_count.
  destruct (matching t ex) as [|r0 rows] eqn:Em.
  - left. split; [|done]. intros r Hr Hex.
    assert (Hm : r ∈ matching t ex) by (by apply elem_of_matching).
    rewrite Em in Hm. by apply elem_of_nil in Hm.
  - right. split; [exists r0; apply elem_of_matching; rewrite Em; by left|].
    exists (list_to_set (non_null (map Member_ID (r0 :: rows)))).
    split; [|by rewrite count_distinct_size].
    intros id. rewrite elem_of_list_to_set, elem_of_non_null, <- Em, list_elem_of_In, in_map_iff.
    setoid_rewrite <- list_elem_of_In. setoid_rewrite elem_of_matching. naive_solver.
Qed.

Lemma matching_nil t ex :
  (forall r, r ∈ t -> Favorite_Exercise r <> Some ex) -> matching t ex = [].
Proof.
  induction t as [|r t IH]; intros Hn; [done|]. simpl.
  rewrite bool_decide_false by (apply Hn; left). apply IH. intros r' Hr'. apply Hn. by right.
Qed.

(** Spec §8: an exercise no row has is answered with an empty
    list, not an error. *)
Theorem favorite_exercise_absent t ex :
  (forall r, r ∈ t -> Favorite_Exercise r <> Some ex) -> favorite_exercise_count t ex = [].
Proof. intros Hn. unfold favorite_exercise_count. by rewrite matching_nil. Qed.

(** An exercise some row has is answered with exactly one entry,
    keyed by that exercise, whose count is at most the number of rows of
    the exercise. *)
Theorem favorite_exercise_present t ex r :
  r ∈ t -> Favorite_Exercise r = Some ex ->
  exists n, favorite_exercise_count t ex = [(ex, n)] /\
    (0 <= n <= Z.of_nat (length (matching t ex)))%Z.
Proof.
  intros Hr Hex. unfold favorite_exercise_count.
  assert (Hm : r ∈ matching t ex).
  { unfold matching. apply list_elem_of_In, filter_In. split; [by apply list_elem_of_In|].
    by apply bool_decide_true. }
  destruct (matching t ex) as [|r1 rows]; [by apply elem_of_nil in Hm|].
  eexists; split; [done|].
  pose proof (count_distinct_le (map Member_ID (r1 :: rows))) as Hle.
  rewrite length_map in Hle. lia.
Qed.
End ExerciseProofs.

(** ** Pagination *)

Section PageProofs.
Import Page.

(** [C9] A page holds [page_size] rows, fewer on the last page, none
    past the end: page [page] of a table of [T] rows has
    [min(page_size, T - (page - 1) * page_size)] rows, clamped at 0. *)
Theorem page_rows_length t page page_size :
  (1 <= page)%Z -> (1 <= page_size)%Z ->
  Z.of_nat (length (page_rows t page page_size)) =
  Z.max 0 (Z.min page_size (Z.of_nat (length t) - (page - 1) * page_size)).
Proof.
  intros Hp Hs. unfold page_rows, count_star, offset.
  rewrite length_limit_offset. nia.
Qed.

Lemma page_rows_succ t k page_size :
  (0 <= page_size)%Z ->
  page_rows t (Z.of_nat k + 1) page_size = limit_offset (Z.to_nat page_size) (k * Z.to_nat page_size) t.
Proof.
  intros Hs. unfold page_rows, offset. f_equal.
  replace (Z.of_nat k + 1 - 1)%Z with (Z.of_nat k) by lia.
  rewrite Z2Nat.inj_mul by lia. by rewrite Nat2Z.id.
Qed.

(** [C2] Reading pages 1 to [ceil(total / page_size)] in order returns
    every row of the table exactly once, in storage order. *)
Theorem pages_concat t page_size :
  (1 <= page_size)%Z ->
  concat (map (fun k => page_rows t (Z.of_nat k + 1) page_size)
            (seq 0 (Z.to_nat (num_pages t page_size)))) = t.
Proof.
  intros Hs.
  erewrite map_ext by (intros k; apply page_rows_succ; lia).
  rewrite concat_pages. apply take_ge.
  pose proof (ceil_div_cover (count_star t) page_size ltac:(lia) ltac:(unfold count_star; lia)).
  unfold num_pages, count_star in *. nia.
Qed.

(** [C3] Spec §8: page [k] has rows exactly when [k <= ceil(T / page_size)],
    so the non-empty pages are the first [ceil(T / page_size)] ones. *)
Theorem page_nonempty_iff t page page_size :
  (1 <= page)%Z -> (1 <= page_size)%Z ->
  page_rows t page page_size <> [] <-> (page <= num_pages t page_size)%Z.
Proof.
  intros Hp Hs. unfold num_pages. rewrite le_ceil_div by lia.
  rewrite <- length_zero_iff_nil. unfold page_rows, offset, count_star.
  rewrite length_limit_offset. nia.
Qed.
End PageProofs.

Lemma elem_of_page_rows t page page_size r :
  r ∈ Page.page_rows t page page_size -> r ∈ t.
Proof. apply elem_of_limit_offset. Qed.
