(* ===== verification/Api.v ===== *)
(** The FastAPI layer of src/app/main.py and the life cycle of the service.

    [validate_page] and [validate_page_size] are the [Query(..., ge=1)] and
    [Query(..., ge=1, le=100)] declarations of lines 110-116: FastAPI
    rejects an out-of-range value with HTTP 422 before the handler runs.
    The four handlers follow lines 42-44, 69-82, 86-105 and 109-166; a
    handler that raises answers HTTP 500. [handle] dispatches a request on
    a running server, whose state is the module-level frame [df] and the
    DuckDB file.

    [step] is the life cycle of the process as a labelled transition
    system: a boot runs the start-up code (lines 17-64) on the CSV, a
    running server answers requests without changing its state, a stop
    keeps the DuckDB file, and a boot whose load raised leaves the process
    crashed. [reachable_inv] is the invariant of every reachable state;
    [serving_recoverable] says when a running server can be reached
    again through [step_any], the unlabelled steps. *)

From Stdlib Require Import ZArith QArith Lia String.
From stdpp Require Import base list strings relations.
From S2P Require Import Prelude Dates Schema Frame Store Serving Queries.

Open Scope string_scope.

Import Models.

(** ** Query parameters *)

Definition validate_page (p : option Z) : result Z :=
  let v := default 1%Z p in
  if (1 <=? v)%Z then Ok v else Raise RequestValidationError.

Definition validate_page_size (p : option Z) : result Z :=
  let v := default 10%Z p in
  if (1 <=? v)%Z && (v <=? 100)%Z then Ok v else Raise RequestValidationError.

(** [exercise: str = Query(default="Pull-ups")]: any text is accepted. *)
Definition exercise_param (e : option string) : string := default "Pull-ups" e.

(** ** Responses *)

Inductive payload : Type :=
  | RawRecords (rows : list table_row)
  | ChurnCounts (rows : list (option string * Z))
  | ExerciseCounts (rows : list (string * Z))
  | Paginated (p : PaginatedItems).

Inductive response : Type :=
  | HTTP200 (body : payload)
  | HTTP422
  | HTTP500.

Definition to_response (r : result payload) : response :=
  match r with Ok b => HTTP200 b | Raise _ => HTTP500 end.

Inductive request : Type :=
  | GetRawDataset
  | GetChurnByMembership
  | GetFavoriteExercise (exercise : option string)
  | GetPagination (page page_size : option Z).

Section Handlers.
Context `{TableStore St table}.

(** Lines 42-44. *)
Definition get_rawdata_as_json (df : table) : result payload := Ok (RawRecords df).

(** Lines 69-82. *)
Definition get_churn_data (db : St) : result payload :=
  let? t := select_from table_name db in
  Ok (ChurnCounts (Churn.churn_by_membership t)).

(** Lines 86-105. *)
Definition get_member_data (db : St) (exercise : string) : result payload :=
  let? t := select_from table_name db in
  Ok (ExerciseCounts (Exercise.favorite_exercise_count t exercise)).

(** Lines 109-166. *)
Definition get_paginated_date (db : St) (page page_size : Z) : result payload :=
  let? t := select_from table_name db in
  let total := Page.count_star t in
  if (total =? 0)%Z then Ok (Paginated (mk_PaginatedItems [] 0 page page_size))
  else
    let? page_result := Page.select_page t page page_size in
    let? paginated_result := all_ok (map (fun r => MemberData_of_tuple (row_cells r)) page_result) in
    Ok (Paginated (mk_PaginatedItems paginated_result total page page_size)).

Record server : Type := mk_server { srv_df : table; srv_db : St }.

Definition handle (srv : server) (q : request) : response :=
  match q with
  | GetRawDataset => to_response (get_rawdata_as_json (srv_df srv))
  | GetChurnByMembership => to_response (get_churn_data (srv_db srv))
  | GetFavoriteExercise e => to_response (get_member_data (srv_db srv) (exercise_param e))
  | GetPagination p ps =>
      match validate_page p, validate_page_size ps with
      | Ok p', Ok ps' => to_response (get_paginated_date (srv_db srv) p' ps')
      | _, _ => HTTP422
      end
  end.

(** ** The life cycle *)

Inductive phase : Type :=
  | Stopped (db : St)
  | Running (srv : server)
  | Crashed (db : St).

Inductive event : Type :=
  | Boot
  | Served (q : request) (resp : response)
  | Stop.

Inductive step (raw : list raw_row) : phase -> event -> phase -> Prop :=
  | step_boot db df db' :
      startup raw db = Ok (df, db') -> step raw (Stopped db) Boot (Running (mk_server df db'))
  | step_boot_crash db e :
      startup raw db = Raise e -> step raw (Stopped db) Boot (Crashed db)
  | step_request srv q :
      step raw (Running srv) (Served q (handle srv q)) (Running srv)
  | step_stop srv :
      step raw (Running srv) Stop (Stopped (srv_db srv))
  | step_reset db :
      step raw (Crashed db) Stop (Stopped db).

(** The states a process reaches from a first start on the file [db0]. *)
Inductive reachable (raw : list raw_row) (db0 : St) : phase -> Prop :=
  | reach_init : reachable raw db0 (Stopped db0)
  | reach_step p ev p' : reachable raw db0 p -> step raw p ev p' -> reachable raw db0 p'.

(** One step of the life cycle, whatever its label. *)
Definition step_any (raw : list raw_row) (p p' : phase) : Prop := exists ev, step raw p ev p'.
End Handlers.

(** ** Proofs *)

Definition row_complete (r : table_row) : bool := is_some (member_of_row r).

(** The items a page response carries. *)
Definition page_items (resp : response) : list MemberData :=
  match resp with HTTP200 (Paginated p) => member_data p | _ => [] end.

Section ApiProofs.
Context `{TableStoreLaws St table}.

Lemma startup_Ok raw (db : St) df db' :
  startup raw db = Ok (df, db') <-> serve_load raw = Ok df /\ db' = create_table df db.
Proof.
  unfold startup. destruct (serve_load raw); simpl.
  - split; [by intros [= -> ->]|]. by intros [[= ->] ->].
  - split; [done|]. by intros [? _].
Qed.

Lemma startup_Raise raw (db : St) e : startup raw db = Raise e <-> serve_load raw = Raise e.
Proof. unfold startup. destruct (serve_load raw); simpl; split; congruence. Qed.

(** The invariant of the life cycle: the DuckDB file is the first one or
    the first one with the table replaced by the loaded frame; a running
    server's frame is the load of the CSV and is the table of its file. *)
Definition server_inv (raw : list raw_row) (db0 : St) (p : phase) : Prop :=
  match p with
  | Stopped db => db = db0 \/ exists df, serve_load raw = Ok df /\ db = create_table df db0
  | Running srv => serve_load raw = Ok (srv_df srv) /\ srv_db srv = create_table (srv_df srv) db0
  | Crashed db => db = db0 /\ is_ok (serve_load raw) = false
  end.

Lemma reachable_inv raw db0 p : reachable raw db0 p -> server_inv raw db0 p.
Proof.
  induction 1 as [|p ev p' _ IH Hs]; [by left|].
  destruct Hs as [db df db' Hb|db e Hb|srv q|srv|db]; simpl in *.
  - apply startup_Ok in Hb as [Hl ->]. split; [done|].
    destruct IH as [->|(df' & Hl' & ->)]; [done|].
    rewrite Hl in Hl'. injection Hl' as <-. unfold create_table.
    by rewrite create_or_replace_twice.
  - apply startup_Raise in Hb. rewrite Hb.
    destruct IH as [->|(df' & Hl' & ->)]; [done|congruence].
  - done.
  - destruct IH as [Hl ->]. right. eauto.
  - destruct IH as [-> _]. by left.
Qed.

(** [C13] Spec §8, idempotent replace: whatever sequence of boots,
    requests, stops and crashes the process went through, its DuckDB
    file is the initial file or that file with [gym_membership_data]
    replaced once by the loaded frame; booting again changes nothing. *)
Theorem stopped_store_idempotent raw db0 db :
  reachable raw db0 (Stopped db) ->
  db = db0 \/ exists df, serve_load raw = Ok df /\ db = create_table df db0.
Proof. intros Hr. apply (reachable_inv raw db0 _ Hr). Qed.

Lemma running_select raw db0 srv :
  reachable raw db0 (Running srv) ->
  serve_load raw = Ok (srv_df srv) /\ select_from table_name (srv_db srv) = Ok (srv_df srv).
Proof.
  intros [Hl ->]%reachable_inv. split; [done|]. apply select_from_create_or_replace.
Qed.

(** [C14] On every reachable running server the frame [df] the raw
    route returns is the load of the CSV, and it is the table the SQL
    routes read: the two copies of the data agree. *)
Theorem running_consistent raw db0 srv :
  reachable raw db0 (Running srv) ->
  serve_load raw = Ok (srv_df srv) /\ get_table table_name (srv_db srv) = Some (srv_df srv) /\
  handle srv GetRawDataset = HTTP200 (RawRecords (srv_df srv)).
Proof.
  intros (Hl & Hs%select_from_ok)%running_select. done.
Qed.

Lemma reachable_rtc raw db0 p p' :
  reachable raw db0 p -> rtc (step_any raw) p p' -> reachable raw db0 p'.
Proof.
  intros Hr Hs. induction Hs as [|p1 p2 p3 [ev Hst] _ IH]; [done|].
  apply IH. by eapply reach_step.
Qed.

(** Liveness of the service: from every state the process can be
    in, a running server can be reached again (by a stop and a boot at
    most) exactly when the load of the CSV succeeds; when it raises, no
    sequence of boots ever serves a request. *)
Theorem serving_recoverable raw db0 p :
  reachable raw db0 p ->
  (exists srv, rtc (step_any raw) p (Running srv)) <-> is_ok (serve_load raw) = true.
Proof.
  intros Hr. split.
  - intros [srv Hs]. by destruct (reachable_inv _ _ _ (reachable_rtc _ _ _ _ Hr Hs)) as [-> _].
  - intros Hok. destruct (serve_load raw) as [df|e] eqn:Hl; [|done].
    pose proof (reachable_inv _ _ _ Hr) as Hinv. destruct p as [db|srv|db]; simpl in Hinv.
    + exists (mk_server df (create_table df db)). apply rtc_once. exists Boot.
      constructor. by apply startup_Ok.
    + exists srv. apply rtc_refl.
    + rewrite Hl in Hinv. by destruct Hinv.
Qed.
End ApiProofs.

Lemma all_ok_members (rows : table) :
  all_ok (map (fun r => MemberData_of_tuple (row_cells r)) rows) =
  if forallb row_complete rows then Ok (omap member_of_row rows) else Raise ValidationError.
Proof.
  induction rows as [|r rows IH]; simpl; [done|].
  rewrite MemberData_of_tuple_row. unfold row_complete.
  destruct (member_of_row r); simpl; [|done]. rewrite IH. by destruct forallb.
Qed.

Lemma to_response_not_422 (c : result payload) : to_response c <> HTTP422.
Proof. by destruct c. Qed.

Lemma validate_page_Ok p v : validate_page p = Ok v <-> v = default 1%Z p /\ (1 <= v)%Z.
Proof.
  unfold validate_page. destruct (Z.leb_spec 1 (default 1%Z p)); split; intros; simplify_eq;
    naive_solver lia.
Qed.

Lemma validate_page_size_Ok p v :
  validate_page_size p = Ok v <-> v = default 10%Z p /\ (1 <= v <= 100)%Z.
Proof.
  unfold validate_page_size.
  destruct (Z.leb_spec 1 (default 10%Z p)), (Z.leb_spec (default 10%Z p) 100); simpl;
    split; intros; simplify_eq; naive_solver lia.
Qed.

Lemma validate_page_Raise p e : validate_page p = Raise e -> (default 1 p < 1)%Z.
Proof. unfold validate_page. destruct (Z.leb_spec 1 (default 1%Z p)); [done|lia]. Qed.

Lemma validate_page_size_Raise p e :
  validate_page_size p = Raise e -> (default 10 p < 1 \/ 100 < default 10 p)%Z.
Proof.
  unfold validate_page_size.
  destruct (Z.leb_spec 1 (default 10%Z p)), (Z.leb_spec (default 10%Z p) 100); simpl; done || lia.
Qed.

Section PageHandler.
Context `{TableStoreLaws St table}.

Lemma get_paginated_date_spec (db : St) t page page_size :
  select_from table_name db = Ok t ->
  (page_size <= Page.max_limit_offset)%Z -> (Page.offset page page_size <= Page.max_limit_offset)%Z ->
  get_paginated_date db page page_size =
  let rows := Page.page_rows t page page_size in
  if forallb row_complete rows
  then Ok (Paginated (mk_PaginatedItems (omap member_of_row rows) (Page.count_star t) page page_size))
  else Raise ValidationError.
Proof.
  intros Hs Hl Ho. unfold get_paginated_date. rewrite Hs. simpl.
  destruct (Z.eqb_spec (Page.count_star t) 0) as [E|E].
  - destruct t; [|unfold Page.count_star in E; simpl in E; lia].
    unfold Page.page_rows, limit_offset. by rewrite drop_nil, take_nil.
  - unfold Page.select_page. rewrite (proj2 (Z.leb_le _ _) Hl), (proj2 (Z.leb_le _ _) Ho). simpl.
    rewrite all_ok_members. by destruct forallb.
Qed.

(** Past DuckDB's bound the page query raises, unless the table is
    empty: then the handler returns before it (line 125). *)
Lemma get_paginated_date_bound (db : St) t page page_size :
  select_from table_name db = Ok t ->
  (Page.max_limit_offset < Page.offset page page_size)%Z ->
  get_paginated_date db page page_size =
  if (Page.count_star t =? 0)%Z then Ok (Paginated (mk_PaginatedItems [] 0 page page_size))
  else Raise BinderException.
Proof.
  intros Hs Ho. unfold get_paginated_date. rewrite Hs. simpl.
  destruct (Page.count_star t =? 0)%Z; [done|].
  unfold Page.select_page. rewrite (proj2 (Z.leb_gt _ _) Ho), andb_false_r. done.
Qed.

Lemma handle_pagination_valid (srv : server) page page_size :
  (1 <= page)%Z -> (1 <= page_size <= 100)%Z ->
  handle srv (GetPagination (Some page) (Some page_size)) =
  to_response (get_paginated_date (srv_db srv) page page_size).
Proof.
  intros Hp Hs. simpl.
  rewrite (proj2 (validate_page_Ok _ page)), (proj2 (validate_page_size_Ok _ page_size)); auto.
Qed.
End PageHandler.

Section HandlerTheorems.
Context `{TableStoreLaws St table}.

(** [C4] Spec §8: FastAPI answers 422 to a pagination request exactly
    when [page] (default 1) is below 1 or [page_size] (default 10) is
    outside 1..100; page 0 and page size 0 are rejected. *)
Theorem handle_pagination_422 (srv : server) p ps :
  handle srv (GetPagination p ps) = HTTP422 <->
  (default 1 p < 1 \/ default 10 ps < 1 \/ 100 < default 10 ps)%Z.
Proof.
  simpl. destruct (validate_page p) as [v|e] eqn:Ep, (validate_page_size ps) as [w|e'] eqn:Es;
    try apply validate_page_Ok in Ep; try apply validate_page_size_Ok in Es;
    try apply validate_page_Raise in Ep; try apply validate_page_size_Raise in Es.
  - split; [by intros ?%to_response_not_422|lia].
  - split; [intros _|done]. lia.
  - split; [intros _|done]. lia.
  - split; [intros _|done]. lia.
Qed.

(** A valid page of complete rows of the table the store holds. *)
Lemma handle_page_Ok (srv : server) t page page_size :
  select_from table_name (srv_db srv) = Ok t ->
  (1 <= page)%Z -> (1 <= page_size <= 100)%Z -> ((page - 1) * page_size <= 2 ^ 62)%Z ->
  Forall (fun r => row_complete r = true) (Page.page_rows t page page_size) ->
  handle srv (GetPagination (Some page) (Some page_size)) =
  HTTP200 (Paginated (mk_PaginatedItems
    (omap member_of_row (Page.page_rows t page page_size)) (Page.count_star t) page page_size)).
Proof.
  intros Hsel Hp Hs Ho Hc. rewrite handle_pagination_valid by done.
  rewrite (get_paginated_date_spec _ _ _ _ Hsel) by (unfold Page.max_limit_offset, Page.offset; lia).
  simpl.
  rewrite (proj2 (forallb_forall _ _)); [done|].
  intros r Hin. by apply (proj1 (Forall_forall _ _) Hc), list_elem_of_In.
Qed.

(** [C1] On a reachable running server, a valid page whose offset
    [(page-1)*page_size] is within DuckDB's bound [2^62] and whose rows
    are all complete is answered 200 with the members of rows
    [(page-1)*page_size] onwards, at most [page_size] of them, and the
    row count of the whole table. *)
Theorem handle_pagination_ok raw db0 srv page page_size :
  reachable raw db0 (Running srv) ->
  (1 <= page)%Z -> (1 <= page_size <= 100)%Z -> ((page - 1) * page_size <= 2 ^ 62)%Z ->
  Forall (fun r => row_complete r = true) (Page.page_rows (srv_df srv) page page_size) ->
  handle srv (GetPagination (Some page) (Some page_size)) =
  HTTP200 (Paginated (mk_PaginatedItems
    (omap member_of_row (Page.page_rows (srv_df srv) page page_size))
    (Page.count_star (srv_df srv)) page page_size)).
Proof.
  intros Hr Hp Hs Ho Hc. destruct (running_select raw db0 srv Hr) as [_ Hsel].
  by apply handle_page_Ok.
Qed.

(** [C6] Error path of line 136: a valid page whose offset
    [(page-1)*page_size] exceeds [2^62] is refused by DuckDB, so on a
    non-empty table the route answers 500; on an empty table the handler
    returns before the query (line 125) and answers 200 with no item. *)
Theorem handle_pagination_offset_bound raw db0 srv page page_size :
  reachable raw db0 (Running srv) ->
  (1 <= page)%Z -> (1 <= page_size <= 100)%Z -> (2 ^ 62 < (page - 1) * page_size)%Z ->
  handle srv (GetPagination (Some page) (Some page_size)) =
  match srv_df srv with
  | [] => HTTP200 (Paginated (mk_PaginatedItems [] 0 page page_size))
  | _ :: _ => HTTP500
  end.
Proof.
  intros Hr Hp Hs Ho. rewrite handle_pagination_valid by done.
  destruct (running_select raw db0 srv Hr) as [_ Hsel].
  rewrite (get_paginated_date_bound _ _ _ _ Hsel) by (unfold Page.max_limit_offset, Page.offset; lia).
  by destruct (srv_df srv).
Qed.

(** [C11] On a reachable running server, a valid page that contains a
    row with a null cell is answered 500: pydantic rejects the row. *)
Theorem handle_pagination_500 raw db0 srv page page_size r :
  reachable raw db0 (Running srv) ->
  (1 <= page)%Z -> (1 <= page_size <= 100)%Z ->
  r ∈ Page.page_rows (srv_df srv) page page_size -> row_complete r = false ->
  handle srv (GetPagination (Some page) (Some page_size)) = HTTP500.
Proof.
  intros Hr Hp Hs Hin Hc. rewrite handle_pagination_valid by done.
  destruct (running_select raw db0 srv Hr) as [_ Hsel].
  destruct (Z.le_gt_cases (Page.offset page page_size) Page.max_limit_offset) as [Ho|Ho].
  2:{ rewrite (get_paginated_date_bound _ _ _ _ Hsel Ho).
      destruct (srv_df srv); [by apply elem_of_page_rows, elem_of_nil in Hin|done]. }
  rewrite (get_paginated_date_spec _ _ _ _ Hsel) by (done || unfold Page.max_limit_offset; lia).
  simpl.
  destruct (forallb row_complete _) eqn:E; [|done].
  apply list_elem_of_In in Hin. by rewrite (proj1 (forallb_forall _ _) E r Hin) in Hc.
Qed.

(** [C10] On a reachable running server whose rows are complete, the
    items of pages 1 to [ceil(T / page_size)] of the pagination route,
    concatenated, are the members of the frame the raw route returns, in
    the same order: the two routes serve the same data. The offsets of
    these pages are below the row count, so within DuckDB's bound for
    any table of at most [2^62] rows. *)
Theorem raw_dataset_pages raw db0 srv page_size :
  reachable raw db0 (Running srv) ->
  Forall (fun r => row_complete r = true) (srv_df srv) ->
  (Z.of_nat (length (srv_df srv)) <= 2 ^ 62)%Z ->
  (1 <= page_size <= 100)%Z ->
  concat (map (fun k => page_items (handle srv (GetPagination (Some (Z.of_nat k + 1)) (Some page_size))))
            (seq 0 (Z.to_nat (Page.num_pages (srv_df srv) page_size)))) =
  omap member_of_row (srv_df srv).
Proof.
  intros Hr Hc HT Hs. destruct (running_select raw db0 srv Hr) as [_ Hsel].
  erewrite map_ext_in.
  2:{ intros k Hk%in_seq. rewrite (handle_page_Ok srv (srv_df srv)); [reflexivity|done|lia|lia| |].
      - pose proof (proj1 (le_ceil_div (Page.count_star (srv_df srv)) page_size (Z.of_nat k + 1)
                             ltac:(lia)) ltac:(unfold Page.num_pages in Hk; lia)).
        unfold Page.count_star in *. lia.
      - apply Forall_forall; intros r Hin; apply elem_of_page_rows in Hin.
        by apply (proj1 (Forall_forall _ _) Hc). }
  simpl. rewrite <- (map_map _ (omap member_of_row)).
  rewrite <- omap_concat.
  erewrite map_ext by (intros k; rewrite page_rows_succ; [reflexivity|lia]).
  rewrite concat_pages, take_ge; [done|].
  pose proof (ceil_div_cover (Page.count_star (srv_df srv)) page_size ltac:(lia)
                ltac:(unfold Page.count_star; lia)).
  unfold Page.num_pages, Page.count_star in *. nia.
Qed.
End HandlerTheorems.

Lemma length_omap_complete (rows : table) :
  Forall (fun r => row_complete r = true) rows -> length (omap member_of_row rows) = length rows.
Proof.
  induction 1 as [|r rows Hr _ IH]; [done|].
  unfold row_complete in Hr. simpl. destruct (member_of_row r); [|done]. simpl. f_equal. exact IH.
Qed.

Section RouteTheorems.
Context `{TableStoreLaws St table}.

(** On a reachable running server the two aggregate routes answer 200
    with their query evaluated on the served frame. *)
Theorem sql_routes_answer raw db0 srv :
  reachable raw db0 (Running srv) ->
  handle srv GetChurnByMembership = HTTP200 (ChurnCounts (Churn.churn_by_membership (srv_df srv))) /\
  forall e, handle srv (GetFavoriteExercise e) =
    HTTP200 (ExerciseCounts (Exercise.favorite_exercise_count (srv_df srv) (exercise_param e))).
Proof.
  intros Hr. destruct (running_select raw db0 srv Hr) as [_ Hsel].
  simpl. unfold get_churn_data, get_member_data. rewrite Hsel. done.
Qed.

(** Spec §8's example: on a table of 25 complete rows, page 1 of
    size 10 holds exactly 10 members and reports a total of 25. *)
Theorem page_one_of_25 raw db0 srv :
  reachable raw db0 (Running srv) ->
  length (srv_df srv) = 25%nat ->
  Forall (fun r => row_complete r = true) (srv_df srv) ->
  exists p, handle srv (GetPagination (Some 1%Z) (Some 10%Z)) = HTTP200 (Paginated p) /\
    length (member_data p) = 10%nat /\ total p = 25%Z.
Proof.
  intros Hr Hlen Hc. rewrite handle_pagination_valid by lia.
  destruct (running_select raw db0 srv Hr) as [_ Hsel].
  rewrite (get_paginated_date_spec _ _ _ _ Hsel) by (vm_compute; discriminate). simpl.
  assert (Hpc : Forall (fun r => row_complete r = true) (Page.page_rows (srv_df srv) 1 10)).
  { apply Forall_forall. intros r Hin%elem_of_page_rows. by apply (proj1 (Forall_forall _ _) Hc). }
  rewrite (proj2 (forallb_forall _ _)).
  2:{ intros r Hin. by apply (proj1 (Forall_forall _ _) Hpc), list_elem_of_In. }
  eexists; split; [done|]. cbn [member_data total]. rewrite length_omap_complete by done.
  unfold Page.page_rows, Page.count_star. rewrite length_limit_offset, Hlen. done.
Qed.
End RouteTheorems.
