(* ===== verification/Server.v ===== *)
(** The process src/app/main.py runs: the module executed at import, then
    uvicorn serving the application forever (line 170).

    [ServerE] is the interface uvicorn gives the application: it
    receives an HTTP request ([Recv]) and sends back the response the
    route produced ([Send]). [serve_loop] is line 170, [run(app=app,
    host='0.0.0.0', port=8080)]: wait for a request, run its route
    ([Api.handle]), send the response, and start again, as the
    interaction tree [ITree.iter] of that body. [main_py] is the whole
    module: the start-up of lines 17-64 ([Serving.startup]) and, when it
    returns, the serve loop on the server it built; when it raises, the
    exception ends the process before line 170 is reached.

    An interaction tree is observed by [run_io], a client that sends the
    requests of a list in order and reads the responses, with a budget
    of [fuel] steps of the tree (one per event or silent step); it
    returns the responses read and, if the process ended, its exception.

    The theorems: [main_py_terminates] says the process ends (on every
    branch, or on some branch, of its interaction with the clients)
    exactly when the load of the CSV raises; [main_py_responses] gives
    the exact responses of every run; [main_py_refines] says every run
    is a path of the life cycle [Api.step], so the invariants proved on
    that relation hold of the process. *)

From Stdlib Require Import Arith Lia String Program.Equality.
From stdpp Require Import base list.
From ITree Require Import ITree.
From ITree.Props Require Import Finite.
From S2P Require Import Prelude Dates Schema Frame Store Serving Queries Api.

(** ** The process *)

(** uvicorn's side of the ASGI interface: a request arrives, a response
    is sent back. *)
Inductive ServerE : Type -> Type :=
  | Recv : ServerE request
  | Send (resp : response) : ServerE unit.

Section Process.
Context `{TableStore St table}.

(** One turn of uvicorn's loop: receive a request, answer it with its
    route, and go on. *)
Definition serve_once {R} (srv : server) (_ : unit) : itree ServerE (unit + R) :=
  ITree.bind (ITree.trigger Recv) (fun q =>
  ITree.bind (ITree.trigger (Send (handle srv q))) (fun _ => Ret (inl tt))).

(** Line 170: the loop never returns of its own. *)
Definition serve_loop {R} (srv : server) : itree ServerE R := ITree.iter (serve_once srv) tt.

(** main.py as a process: the import-time start-up (lines 17-64), then
    line 170; an exception of the start-up ends the process. *)
Definition main_py (raw : list raw_row) (db : St) : itree ServerE py_exception :=
  match startup raw db with
  | Ok (df, db') => serve_loop (mk_server df db')
  | Raise e => Ret e
  end.

(** A client that sends the requests [ins] in order, observing [fuel]
    steps of the process: the responses it reads, and the exception the
    process ended with, if it ended. With no request left the process
    waits. *)
Fixpoint run_io {R} (fuel : nat) (ins : list request) (t : itree ServerE R)
    : list response * option R :=
  match fuel with
  | O => ([], None)
  | S n =>
      match observe t with
      | RetF r => ([], Some r)
      | TauF t' => run_io n ins t'
      | VisF e k =>
          match e in ServerE X return (X -> itree ServerE R) -> list response * option R with
          | Recv => fun k => match ins with [] => ([], None) | q :: qs => run_io n qs (k q) end
          | Send r => fun k => let '(os, res) := run_io n ins (k tt) in (r :: os, res)
          end k
      end
  end.

(** Runs of the life cycle: a sequence of labelled steps. *)
Inductive steps (raw : list raw_row) : phase -> list event -> phase -> Prop :=
  | steps_nil p : steps raw p [] p
  | steps_cons p ev p' evs p'' :
      step raw p ev p' -> steps raw p' evs p'' -> steps raw p (ev :: evs) p''.
End Process.

(** ** Proofs *)

Section ProcessProofs.
Context `{TableStoreLaws St table}.
Local Open Scope nat_scope.

(** The loop after it received [q]: it sends the answer, then starts a
    new turn. *)
Definition after_recv {R} (srv : server) (q : request) : itree ServerE R :=
  ITree.bind (ITree.bind (ITree.trigger (Send (handle srv q))) (fun _ => Ret (inl tt)))
    (fun lr : unit + R => match lr with inl l => Tau (ITree.iter (serve_once srv) l) | inr r => Ret r end).

(** The serve loop ends on no branch: no sequence of requests stops it. *)
Lemma serve_loop_not_any_finite {R} (srv : server) : ~ any_finite (serve_loop (R:=R) srv).
Proof.
  intros FIN.
  assert (Hall : forall t : itree ServerE R, any_finite t ->
             observe t = observe (serve_loop srv) \/
             (exists q, observe t = observe (after_recv srv q)) \/
             observe t = TauF (serve_loop srv) -> False).
  { clear FIN. intros t FIN.
    induction FIN as [a t Ht|t u Ht FIN IH|X e t k x Ht FIN IH];
      intros [Hl|[[q Hq]|Hs]]; rewrite Ht in *; try discriminate.
    - injection Hs as ->. apply IH. by left.
    - cbn in Hl. dependent destruction Hl. apply IH. right; left. exists x. reflexivity.
    - cbn in Hq. dependent destruction Hq. apply IH. by right; right. }
  by apply (Hall _ FIN); left.
Qed.

(** Both answers a process can be given exist, so a tree whose branches
    all end has one that ends. *)
Lemma all_finite_any_finite {R} (t : itree ServerE R) : all_finite t -> any_finite t.
Proof.
  induction 1 as [a t Ht|t u Ht _ IH|X e t k Ht _ IH].
  - by eapply any_finiteRet.
  - by eapply any_finiteTau.
  - destruct e.
    + eapply (any_finiteVis _ t k GetRawDataset); [exact Ht|apply IH].
    + eapply (any_finiteVis _ t k tt); [exact Ht|apply IH].
Qed.

Lemma div3_step n : (S (S (S n)) + 1) / 3 = S ((n + 1) / 3).
Proof.
  replace (S (S (S n)) + 1) with (n + 1 + 1 * 3) by lia. rewrite Nat.div_add; lia.
Qed.

(** A turn of the loop takes three steps: the request, the response and
    the silent step back to the top. *)
Lemma run_io_serve_loop_turn {R} (srv : server) n q qs :
  run_io (S (S (S n))) (q :: qs) (serve_loop (R:=R) srv) =
  let '(os, res) := run_io n qs (serve_loop (R:=R) srv) in (handle srv q :: os, res).
Proof. reflexivity. Qed.

(** The loop's responses after [fuel] steps: those of the first
    [(fuel + 1) / 3] requests, in order; the loop never returns. *)
Lemma run_io_serve_loop {R} (srv : server) fuel ins :
  run_io fuel ins (serve_loop (R:=R) srv) = (map (handle srv) (take ((fuel + 1) / 3)%nat ins), None).
Proof.
  revert ins. induction fuel as [fuel IH] using lt_wf_ind. intros ins.
  destruct fuel as [|[|[|n]]]; [done|destruct ins; reflexivity|destruct ins; reflexivity|].
  destruct ins as [|q qs]; [by rewrite take_nil|].
  rewrite run_io_serve_loop_turn, IH by lia. by rewrite div3_step.
Qed.

Lemma zip_with_map_take {A B C} (f : A -> B -> C) (g : A -> B) (l : list A) k :
  zip_with f l (map g (take k l)) = map (fun x => f x (g x)) (take k l).
Proof.
  revert k. induction l as [|x l IH]; intros [|k]; simpl; [done..|]. by rewrite IH.
Qed.

Lemma steps_reachable raw (db0 : St) p evs p' :
  reachable raw db0 p -> steps raw p evs p' -> reachable raw db0 p'.
Proof.
  intros Hr Hs. induction Hs as [|p ev p1 evs p2 Hst _ IH]; [done|].
  apply IH. by eapply reach_step.
Qed.

(** A running server answers any sequence of requests, each with its
    route's response, and stays as it is. *)
Lemma steps_requests raw (srv : server) qs :
  steps raw (Running srv) (map (fun q => Served q (handle srv q)) qs) (Running srv).
Proof. induction qs; simpl; [constructor|]. econstructor; [constructor|done]. Qed.

(** [C16] Termination of the process: main.py ends, whatever requests
    the clients send (all its branches are finite), exactly when the
    load of the CSV raises, before line 170 is reached; when the load
    succeeds, no sequence of requests ever ends it (no branch is
    finite). *)
Theorem main_py_terminates raw (db : St) :
  (all_finite (main_py raw db) <-> is_ok (serve_load raw) = false) /\
  (any_finite (main_py raw db) <-> is_ok (serve_load raw) = false).
Proof.
  unfold main_py, startup. destruct (serve_load raw) as [df|e]; simpl.
  - pose proof (serve_loop_not_any_finite (R:=py_exception) (mk_server df (create_table df db))) as Hn.
    split; split; intros F; try discriminate; exfalso; [apply Hn, all_finite_any_finite, F|exact (Hn F)].
  - split; split; intros _; try done; [apply all_finite_Ret|apply any_finite_Ret].
Qed.

(** [C17] What a client reads: after [fuel] steps of the process, the
    responses to its first [(fuel + 1) / 3] requests, in the order sent,
    each the response of its route on the server the start-up built
    (the loaded frame and the DuckDB file with the table replaced), and
    the process still running; or, when the load raises, no response and
    the process ended with that exception. *)
Theorem main_py_responses raw (db : St) fuel ins :
  run_io fuel ins (main_py raw db) =
  match serve_load raw with
  | Ok df => (map (handle (mk_server df (create_table df db))) (take ((fuel + 1) / 3) ins), None)
  | Raise e => ([], match fuel with O => None | S _ => Some e end)
  end.
Proof.
  unfold main_py, startup. destruct (serve_load raw) as [df|e]; simpl.
  - apply run_io_serve_loop.
  - by destruct fuel.
Qed.

(** The process refines the life cycle: the events of every run
    of main.py (the boot, then each request with the response sent) form
    a path of [Api.step] from the stopped process, ending in a reachable
    state, the crashed one when the process ended. So the invariants of
    the life cycle ([stopped_store_idempotent], [running_consistent],
    [serving_recoverable]) hold of the process. *)
Theorem main_py_refines raw (db : St) fuel ins :
  let '(outs, res) := run_io fuel ins (main_py raw db) in
  exists p, steps raw (Stopped db) (Boot :: zip_with Served ins outs) p /\
    reachable raw db p /\ (forall e, res = Some e -> p = Crashed db).
Proof.
  unfold main_py. destruct (startup raw db) as [[df db']|e] eqn:Hs.
  - rewrite run_io_serve_loop, zip_with_map_take.
    assert (Hp : steps raw (Stopped db)
      (Boot :: map (fun q => Served q (handle (mk_server df db') q)) (take ((fuel + 1) / 3) ins))
      (Running (mk_server df db'))) by (econstructor; [by constructor|apply steps_requests]).
    eexists. split_and!; [exact Hp|eapply steps_reachable; [apply reach_init|exact Hp]|done].
  - assert (Hp : steps raw (Stopped db) [Boot] (Crashed db))
      by (econstructor; [by eapply step_boot_crash|constructor]).
    destruct fuel; simpl; rewrite zip_with_nil_r; exists (Crashed db);
      (split_and!; [exact Hp|eapply steps_reachable; [apply reach_init|exact Hp]|done]).
Qed.
End ProcessProofs.
