(* ===== verification/Histogram.v ===== *)
(** The binning of [plt.hist(df_new['Age'], bins=20)] (data_cleaning.py:41).

    matplotlib computes the range of the data ignoring NaN ([nanmin],
    [nanmax]) and hands it to [numpy.histogram], which makes 21 equally
    spaced edges ([linspace]) and places each value with its fast path for
    equal bins: the index is the integer part of
    [(x - first_edge) / (last_edge - first_edge) * n_bins], the right edge
    is put into the last bin, and two corrections move a value whose
    computed index disagrees with the edges by one ([decrement],
    [increment]). The counts are a [bincount] of the indices. Values are
    exact rationals here, so the corrections never fire; [bin_index_spec]
    shows that the index computation, corrections included, places each
    value in the bin the edges delimit. *)

From Stdlib Require Import ZArith QArith Qround Qminmax Lqa Lia.
From stdpp Require Import base list list_numbers.
From S2P Require Import Prelude.

Local Open Scope Q_scope.

(** [a < b] on rationals, as a boolean. *)
Definition Qlt_bool (a b : Q) : bool := negb (Qle_bool b a).

Lemma Qlt_bool_iff a b : Qlt_bool a b = true <-> a < b.
Proof.
  unfold Qlt_bool. rewrite negb_true_iff. split.
  - intros H. apply Qnot_le_lt. intros H'%Qle_bool_iff. congruence.
  - intros H. destruct (Qle_bool b a) eqn:E; [|done]. apply Qle_bool_iff in E. lra.
Qed.

(** [bins=20]. *)
Definition n_bins : nat := 20.

(** matplotlib's [bin_range]: the smallest and largest value, when there
    is one. *)
Definition data_range (xs : list Q) : option (Q * Q) :=
  match xs with
  | [] => None
  | x :: xs' => Some (fold_left Qmin xs' x, fold_left Qmax xs' x)
  end.

(** numpy's [_get_outer_edges]: an empty input gets the range [0, 1], a
    range of one point is widened by a half on each side. *)
Definition outer_edges (r : option (Q * Q)) : Q * Q :=
  match r with
  | None => (0, 1)
  | Some (lo, hi) => if Qeq_bool lo hi then (lo - (1#2), hi + (1#2)) else (lo, hi)
  end.

(** [np.linspace(first_edge, last_edge, n_bins + 1)][i]. *)
Definition bin_edge (lo hi : Q) (i : nat) : Q :=
  lo + inject_Z (Z.of_nat i) * ((hi - lo) / inject_Z (Z.of_nat n_bins)).

(** [keep = (tmp_a >= first_edge) & (tmp_a <= last_edge)]. *)
Definition keep (lo hi x : Q) : bool := Qle_bool lo x && Qle_bool x hi.

(** [f_indices = (tmp_a - first_edge) / norm_denom * norm_numerator]. *)
Definition bin_pos (lo hi x : Q) : Q := (x - lo) / (hi - lo) * inject_Z (Z.of_nat n_bins).

(** The bin numpy gives a kept value: [f_indices.astype(np.intp)], the
    right edge moved into the last bin, then [decrement] and [increment]. *)
Definition bin_index (lo hi x : Q) : nat :=
  let f := bin_pos lo hi x in
  let i0 := Z.to_nat (Qfloor f) in
  let i1 := if Nat.eqb i0 n_bins then pred n_bins else i0 in
  let i2 := if Qlt_bool x (bin_edge lo hi i1) then pred i1 else i1 in
  if Qle_bool (bin_edge lo hi (S i2)) x && negb (Nat.eqb i2 (pred n_bins)) then S i2 else i2.

(** [np.bincount(indices, minlength=n)]. *)
Definition bincount (n : nat) (idx : list nat) : list nat :=
  map (fun i => length (List.filter (Nat.eqb i) idx)) (seq 0 n).

(** [numpy.histogram(xs, bins=20, range=bin_range)]: the edges and the
    counts. *)
Definition histogram (xs : list Q) : list Q * list nat :=
  let '(lo, hi) := outer_edges (data_range xs) in
  (map (bin_edge lo hi) (seq 0 (S n_bins)),
   bincount n_bins (map (bin_index lo hi) (List.filter (keep lo hi) xs))).

(** [plt.hist] of a column: NaN cells are not counted. *)
Definition hist_column (col : list (option Q)) : list Q * list nat :=
  histogram (omap id col).

(** The reference placement: bin [i] holds the values from its left edge
    up to its right edge, the last bin its right edge included. *)
Definition in_bin (lo hi : Q) (i : nat) (x : Q) : bool :=
  Qle_bool (bin_edge lo hi i) x &&
  (Qlt_bool x (bin_edge lo hi (S i)) || (Nat.eqb i (pred n_bins) && Qeq_bool x hi)).

(** ** Proofs *)

(** The position of a value as a real number of bins: it is 0 at [lo],
    [n_bins] at [hi], and affine in between. *)
Section Position.
Variables lo hi : Q.
Hypothesis Hlt : lo < hi.

Definition bin_width : Q := (hi - lo) / inject_Z (Z.of_nat n_bins).

Lemma bin_width_pos : 0 < bin_width.
Proof.
  unfold bin_width. apply Qlt_shift_div_l; [reflexivity|]. lra.
Qed.

Lemma bin_pos_affine x : x == lo + bin_pos lo hi x * bin_width.
Proof.
  unfold bin_pos, bin_width. field.
  repeat split; try discriminate; lra.
Qed.

Lemma hi_affine : hi == lo + inject_Z (Z.of_nat n_bins) * bin_width.
Proof. unfold bin_width. field. repeat split; try discriminate; lra. Qed.

Lemma edge_le_iff i x :
  bin_edge lo hi i <= x <-> inject_Z (Z.of_nat i) <= bin_pos lo hi x.
Proof.
  pose proof bin_width_pos as Hw. pose proof (bin_pos_affine x) as Hx.
  unfold bin_edge. fold bin_width. set (f := bin_pos lo hi x) in *. rewrite Hx.
  rewrite Qplus_le_r. by apply Qmult_le_r.
Qed.

Lemma edge_lt_iff i x :
  x < bin_edge lo hi i <-> bin_pos lo hi x < inject_Z (Z.of_nat i).
Proof.
  pose proof bin_width_pos as Hw. pose proof (bin_pos_affine x) as Hx.
  unfold bin_edge. fold bin_width. set (f := bin_pos lo hi x) in *. rewrite Hx.
  rewrite Qplus_lt_r. by apply Qmult_lt_r.
Qed.

Lemma eq_hi_iff x : x == hi <-> bin_pos lo hi x == inject_Z (Z.of_nat n_bins).
Proof.
  pose proof bin_width_pos as Hw. pose proof (bin_pos_affine x) as Hx.
  pose proof hi_affine as Hh. set (f := bin_pos lo hi x) in *. rewrite Hx, Hh.
  split; intros E.
  - apply (Qmult_inj_r _ _ bin_width); [intros E'; rewrite E' in Hw; discriminate|]. lra.
  - rewrite E. reflexivity.
Qed.

Lemma bin_pos_bounds x :
  lo <= x <= hi -> 0 <= bin_pos lo hi x <= inject_Z (Z.of_nat n_bins).
Proof.
  intros [Hl Hh]. pose proof bin_width_pos as Hw. pose proof (bin_pos_affine x) as Hx.
  pose proof hi_affine as Hi. set (f := bin_pos lo hi x) in *.
  split; apply (Qmult_le_r _ _ bin_width Hw); lra.
Qed.
End Position.

Lemma Z_le_floor (z : Z) f : inject_Z z <= f <-> (z <= Qfloor f)%Z.
Proof.
  split.
  - intros H. rewrite <- (Qfloor_Z z). by apply Qfloor_resp_le.
  - intros H. rewrite Zle_Qle in H. eapply Qle_trans; [exact H|apply Qfloor_le].
Qed.

Lemma floor_lt_Z (z : Z) f : f < inject_Z z <-> (Qfloor f < z)%Z.
Proof.
  pose proof (Qfloor_le f) as Hl. pose proof (Qlt_floor f) as Hu. split.
  - intros H. rewrite Zlt_Qlt. eapply Qle_lt_trans; eauto.
  - intros H. assert (Hz : (Qfloor f + 1 <= z)%Z) by lia. rewrite Zle_Qle in Hz.
    eapply Qlt_le_trans; eauto.
Qed.

(** The integer part of a position in [0, n_bins], capped at the last
    bin, is the bin whose interval holds the position. *)
Lemma floor_bin f i :
  0 <= f <= inject_Z (Z.of_nat n_bins) -> (i < n_bins)%nat ->
  Nat.min (Z.to_nat (Qfloor f)) (pred n_bins) = i <->
  inject_Z (Z.of_nat i) <= f /\
  (f < inject_Z (Z.of_nat (S i)) \/ (i = pred n_bins /\ f == inject_Z (Z.of_nat n_bins))).
Proof.
  intros [H0 H20] Hi.
  assert (Hk0 : (0 <= Qfloor f)%Z) by (apply (Z_le_floor 0); done).
  assert (Hk20 : (Qfloor f <= Z.of_nat n_bins)%Z)
    by (rewrite <- (Qfloor_Z (Z.of_nat n_bins)); by apply Qfloor_resp_le).
  assert (Htop : f == inject_Z (Z.of_nat n_bins) <-> Qfloor f = Z.of_nat n_bins).
  { split; [intros E; rewrite E; apply Qfloor_Z|].
    intros E. apply Qle_antisym; [done|]. apply Z_le_floor. lia. }
  rewrite Z_le_floor, floor_lt_Z, Htop. unfold n_bins in *. lia.
Qed.

Section Index.
Variables lo hi : Q.
Hypothesis Hlt : lo < hi.

Lemma Qlt_bool_edge_false i x :
  inject_Z (Z.of_nat i) <= bin_pos lo hi x -> Qlt_bool x (bin_edge lo hi i) = false.
Proof.
  intros H. apply not_true_iff_false. rewrite Qlt_bool_iff.
  apply Qle_not_lt. by apply edge_le_iff.
Qed.

Lemma Qle_bool_edge_false i x :
  bin_pos lo hi x < inject_Z (Z.of_nat i) -> Qle_bool (bin_edge lo hi i) x = false.
Proof.
  intros H. apply not_true_iff_false. rewrite Qle_bool_iff, edge_le_iff by done.
  by apply Qlt_not_le.
Qed.

(** numpy's corrections never fire on exact values: the bin is the
    integer part of the position, capped at the last bin. *)
Lemma bin_index_floor x :
  lo <= x <= hi ->
  bin_index lo hi x = Nat.min (Z.to_nat (Qfloor (bin_pos lo hi x))) (pred n_bins).
Proof.
  intros Hx. pose proof (bin_pos_bounds lo hi Hlt x Hx) as Hb.
  assert (Hk : (Qfloor (bin_pos lo hi x) <= Z.of_nat n_bins)%Z)
    by (rewrite <- (Qfloor_Z (Z.of_nat n_bins)); exact (Qfloor_resp_le _ _ (proj2 Hb))).
  set (i := Nat.min (Z.to_nat (Qfloor (bin_pos lo hi x))) (pred n_bins)).
  assert (Hi : (i < n_bins)%nat) by (unfold i, n_bins; lia).
  destruct (proj1 (floor_bin _ i Hb Hi) eq_refl) as [Hle Hup].
  cbv beta zeta delta [bin_index].
  replace (if Nat.eqb (Z.to_nat (Qfloor (bin_pos lo hi x))) n_bins then pred n_bins
           else Z.to_nat (Qfloor (bin_pos lo hi x))) with i
    by (unfold i; destruct (Nat.eqb_spec (Z.to_nat (Qfloor (bin_pos lo hi x))) n_bins); unfold n_bins in *; lia).
  rewrite Qlt_bool_edge_false by done.
  destruct Hup as [Hup|[-> _]].
  - by rewrite Qle_bool_edge_false.
  - rewrite Nat.eqb_refl, andb_false_r. done.
Qed.
End Index.

(** The reference and the index computation agree, as booleans. *)
Lemma bin_index_eqb lo hi x i :
  lo < hi -> lo <= x <= hi -> (i < n_bins)%nat ->
  Nat.eqb i (bin_index lo hi x) = in_bin lo hi i x.
Proof.
  intros Hlt Hx Hi.
  enough (H : bin_index lo hi x = i <-> in_bin lo hi i x = true).
  { destruct (Nat.eqb_spec i (bin_index lo hi x)), (in_bin lo hi i x); naive_solver. }
  rewrite (bin_index_floor lo hi Hlt x Hx), floor_bin by (auto using bin_pos_bounds).
  unfold in_bin. rewrite andb_true_iff, orb_true_iff, andb_true_iff, Qle_bool_iff,
    Qlt_bool_iff, Nat.eqb_eq, Qeq_bool_iff.
  by rewrite (edge_le_iff lo hi Hlt), (edge_lt_iff lo hi Hlt), (eq_hi_iff lo hi Hlt x).
Qed.

Lemma bin_index_lt lo hi x : lo < hi -> lo <= x <= hi -> (bin_index lo hi x < n_bins)%nat.
Proof. intros Hlt Hx. rewrite (bin_index_floor lo hi Hlt x Hx). unfold n_bins. lia. Qed.

(** The range of the data bounds every value. *)
Lemma fold_Qmin_le l a : fold_left Qmin l a <= a /\ Forall (fun y => fold_left Qmin l a <= y) l.
Proof.
  revert a. induction l as [|x l IH]; intros a; simpl; [split; [apply Qle_refl|constructor]|].
  destruct (IH (Qmin a x)) as [H1 H2]. split_and!.
  - eapply Qle_trans; [exact H1|apply Q.le_min_l].
  - constructor; [|done]. eapply Qle_trans; [exact H1|apply Q.le_min_r].
Qed.

Lemma fold_Qmax_ge l a : a <= fold_left Qmax l a /\ Forall (fun y => y <= fold_left Qmax l a) l.
Proof.
  revert a. induction l as [|x l IH]; intros a; simpl; [split; [apply Qle_refl|constructor]|].
  destruct (IH (Qmax a x)) as [H1 H2]. split_and!.
  - eapply Qle_trans; [apply Q.le_max_l|exact H1].
  - constructor; [|done]. eapply Qle_trans; [apply Q.le_max_r|exact H1].
Qed.

Lemma data_range_spec xs lo hi :
  data_range xs = Some (lo, hi) -> lo <= hi /\ Forall (fun x => lo <= x <= hi) xs.
Proof.
  destruct xs as [|x xs]; simpl; [done|]. intros [= <- <-].
  destruct (fold_Qmin_le xs x) as [Hm1 Hm2], (fold_Qmax_ge xs x) as [HM1 HM2].
  split; [eapply Qle_trans; eauto|]. constructor; [done|].
  apply Forall_forall. intros y Hy.
  split; [apply (proj1 (Forall_forall _ _) Hm2 y Hy)|apply (proj1 (Forall_forall _ _) HM2 y Hy)].
Qed.

(** The outer edges are a proper interval holding every value. *)
Lemma outer_edges_spec xs lo hi :
  outer_edges (data_range xs) = (lo, hi) -> lo < hi /\ Forall (fun x => lo <= x <= hi) xs.
Proof.
  destruct (data_range xs) as [[a b]|] eqn:Hr; simpl.
  - apply data_range_spec in Hr as [Hab Hall]. destruct (Qeq_bool a b) eqn:E; intros [= <- <-].
    + apply Qeq_bool_iff in E. split; [lra|].
      eapply Forall_impl; [exact Hall|]. simpl. intros x Hx. lra.
    + apply Qeq_bool_neq in E. split; [|done]. apply Qle_lteq in Hab as [?|?]; [done|].
      by destruct E.
  - intros [= <- <-]. destruct xs; [|done]. split; [reflexivity|constructor].
Qed.

(** ** [bincount] *)

Lemma length_bincount n idx : length (bincount n idx) = n.
Proof. unfold bincount. by rewrite length_map, length_seq. Qed.

Lemma lookup_bincount n idx i :
  (i < n)%nat -> bincount n idx !! i = Some (length (List.filter (Nat.eqb i) idx)).
Proof. intros Hi. unfold bincount. by rewrite list_lookup_fmap, lookup_seq_lt. Qed.

Lemma sum_eqb_seq a n :
  sum_list (map (fun i => if Nat.eqb i a then 1 else 0)%nat (seq 0 n)) = if Nat.ltb a n then 1%nat else 0%nat.
Proof.
  induction n as [|n IH]; [done|].
  rewrite seq_S, map_app, sum_list_with_app, IH. simpl.
  destruct (Nat.ltb_spec a n), (Nat.eqb_spec n a), (Nat.ltb_spec a (S n)); lia.
Qed.

(** Every index below [n] is counted once. *)
Lemma sum_bincount n idx :
  Forall (fun i => i < n)%nat idx -> sum_list (bincount n idx) = length idx.
Proof.
  unfold bincount. induction idx as [|a idx IH]; intros Hall.
  - simpl. induction (seq 0 n); simpl; lia.
  - apply Forall_cons in Hall as [Ha Hall]. simpl.
    rewrite (map_ext _ (fun i => (if Nat.eqb i a then 1 else 0) + length (List.filter (Nat.eqb i) idx))%nat)
      by (intros i; simpl; by destruct (Nat.eqb i a)).
    rewrite sum_list_map_add, sum_eqb_seq, IH by done.
    destruct (Nat.ltb_spec a n); lia.
Qed.

Lemma filter_map_length {A B} (p : B -> bool) (f : A -> B) (l : list A) :
  length (List.filter p (map f l)) = length (List.filter (fun a => p (f a)) l).
Proof. induction l as [|a l IH]; simpl; [done|]. destruct (p (f a)); simpl; lia. Qed.

Lemma filter_keep_all lo hi xs :
  Forall (fun x => lo <= x <= hi) xs -> List.filter (keep lo hi) xs = xs.
Proof.
  induction 1 as [|x xs [Hl Hh] _ IH]; simpl; [done|].
  rewrite IH. unfold keep. apply Qle_bool_iff in Hl, Hh. by rewrite Hl, Hh.
Qed.

(** ** The histogram *)

(** [C30] numpy's fast index computation (the integer part of the scaled
    position, the right edge moved into the last bin, then the
    [decrement] and [increment] corrections) puts a value of the range in
    bin [i] exactly when the edges put it there: the left edge of [i] is
    at most the value and the value is below the right edge, the last bin
    also taking the right edge itself. *)
Theorem bin_index_spec lo hi x i :
  lo < hi -> lo <= x <= hi -> (i < n_bins)%nat ->
  bin_index lo hi x = i <-> in_bin lo hi i x = true.
Proof.
  intros Hlt Hx Hi. rewrite <- (bin_index_eqb lo hi x i Hlt Hx Hi), Nat.eqb_eq.
  split; congruence.
Qed.

Lemma histogram_indices xs lo hi :
  outer_edges (data_range xs) = (lo, hi) ->
  (histogram xs).2 = bincount n_bins (map (bin_index lo hi) xs) /\
  Forall (fun x => lo < hi /\ lo <= x <= hi) xs.
Proof.
  intros He. destruct (outer_edges_spec xs lo hi He) as [Hlt Hall].
  unfold histogram. rewrite He, filter_keep_all by done. split; [done|].
  eapply Forall_impl; [exact Hall|]. done.
Qed.

(** [C31] Each of the 20 bars of the histogram counts the values that
    lie in its bin, the bins being those of the outer edges of the data
    (its minimum and maximum, widened by a half when they are equal). *)
Theorem histogram_counts xs lo hi i :
  outer_edges (data_range xs) = (lo, hi) -> (i < n_bins)%nat ->
  (histogram xs).2 !! i = Some (length (List.filter (in_bin lo hi i) xs)).
Proof.
  intros He Hi. destruct (histogram_indices xs lo hi He) as [-> Hall].
  rewrite lookup_bincount, filter_map_length by done. do 2 f_equal.
  apply filter_ext_in. intros x Hx%list_elem_of_In.
  destruct (proj1 (Forall_forall _ _) Hall x Hx) as [Hlt Hr]. by apply bin_index_eqb.
Qed.

(** [C32] The histogram has 21 edges and 20 bars, and its bars add up to
    the number of values: every value is drawn exactly once. *)
Theorem histogram_total xs :
  length (histogram xs).1 = S n_bins /\ length (histogram xs).2 = n_bins /\
  sum_list (histogram xs).2 = length xs.
Proof.
  destruct (outer_edges (data_range xs)) as [lo hi] eqn:He.
  destruct (histogram_indices xs lo hi He) as [Hc Hall].
  split_and!; [unfold histogram; rewrite He; reflexivity| |];
    rewrite Hc; [apply length_bincount|].
  rewrite sum_bincount, length_map; [done|]. apply Forall_map.
  eapply Forall_impl; [exact Hall|]. intros x [Hlt Hx]. by apply bin_index_lt.
Qed.
