(* ===== verification/Cleaning.v ===== *)
(** The cleaning and reporting script, src/analytics/data_cleaning.py.

    The script is straight-line code on one pandas frame; each step is a
    function on the list of rows, composed in the script's order by
    [clean_pipeline]:
    - [drop_missing_id_age]: [dropna(subset=['Member_ID','Age'])] (line 12);
    - [fill_unknown_name]: [fillna({'Name':'Unknown'})] (line 15);
    - [parse_dates]: [pd.to_datetime(..., errors='coerce')] of both date
      columns (lines 18-19);
    - [consistency_report]: [value_counts()] of every text column (lines
      23-26; what the script prints is in [Report]);
    - [membership_period] and [days_since_last_visit]: the two derived
      columns (lines 29 and 34), the second relative to the time [now] the
      script runs, in nanoseconds since the epoch.
    [run_cleaning] is the same lines as pandas evaluates them: the two
    date subtractions are overflow-checked int64 operations, and an
    overflow raises OverflowError.
    The charts are modelled by the data they draw: [membership_pie] (lines
    48-50, with the hard-coded labels), [churned_df]/[active_df] and their
    mean workout durations (lines 56-61), and [gender_churn] (line 76). *)

From Stdlib Require Import ZArith QArith Lia Sorted Permutation String.
From stdpp Require Import base list strings list_numbers.
From S2P Require Import Prelude Dates Schema Frame.

Open Scope string_scope.

(** A row of [df_new] after line 34: the member row and the two derived
    columns. *)
Record clean_row : Type := mk_clean {
  base : table_row;
  Membership_Period_Days : option Z;
  Days_Since_Last_Visit : option Z
}.

(** Line 12. *)
Definition drop_missing_id_age (df : list raw_row) : list raw_row :=
  List.filter (fun r => is_some (Member_ID r) && is_some (Age r)) df.

(** Line 15. *)
Definition fill_unknown_name (df : list raw_row) : list raw_row :=
  map (fun r => set_Name (fill_null (Some "Unknown") (Name r)) r) df.

(** Lines 18-19. *)
Definition parse_dates (df : list raw_row) : list table_row :=
  map (map_dates to_datetime_coerce) df.

(** The columns of dtype [object] once the dates are parsed (line 23). *)
Definition text_columns (df : list table_row) : list (string * list (option string)) :=
  [("Name", map Name df); ("Gender", map Gender df); ("Address", map Address df);
   ("Phone_Number", map Phone_Number df); ("Membership_Type", map Membership_Type df);
   ("Favorite_Exercise", map Favorite_Exercise df); ("Churn", map Churn df)].

(** Lines 23-26: the value counts printed for each text column. *)
Definition consistency_report (df : list table_row) : list (string * list (string * nat)) :=
  map (fun '(c, col) => (c, value_counts col)) (text_columns df).

(** A parsed date as a pandas timestamp: midnight, in nanoseconds. *)
Definition timestamp_ns (d : date) : Z := days_from_civil d * ns_per_day.

(** Line 29: [(Last_Visit_Date - Join_Date).dt.days]; NaT on either side
    gives NaN. *)
Definition membership_period (r : table_row) : option Z :=
  match Join_Date r, Last_Visit_Date r with
  | Some j, Some l => Some (timedelta_days (timestamp_ns l - timestamp_ns j))
  | _, _ => None
  end.

(** Line 34: [(pd.Timestamp.now() - Last_Visit_Date).dt.days]. *)
Definition days_since_last_visit (now : Z) (r : table_row) : option Z :=
  match Last_Visit_Date r with
  | Some l => Some (timedelta_days (now - timestamp_ns l))
  | None => None
  end.

(** Lines 9-36: [df_new] at the end of the cleaning steps. *)
Definition clean_pipeline (now : Z) (raw : list raw_row) : list clean_row :=
  let df := parse_dates (fill_unknown_name (drop_missing_id_age raw)) in
  map (fun r => mk_clean r (membership_period r) (days_since_last_visit now r)) df.

(** The rows of [df_new] after line 19: kept, name filled, dates parsed. *)
Definition dated_frame (raw : list raw_row) : list table_row :=
  parse_dates (fill_unknown_name (drop_missing_id_age raw)).

(** Line 29 as pandas evaluates it: the column subtraction is checked
    and raises OverflowError when a difference leaves int64. *)
Definition membership_period_checked (r : table_row) : result (option Z) :=
  match Join_Date r, Last_Visit_Date r with
  | Some j, Some l =>
      let? d := sub_i64 (timestamp_ns l) (timestamp_ns j) in Ok (Some (timedelta_days d))
  | _, _ => Ok None
  end.

(** Line 34: [Timestamp - Series] is evaluated as [-(Series - Timestamp)]. *)
Definition days_since_last_visit_checked (now : Z) (r : table_row) : result (option Z) :=
  match Last_Visit_Date r with
  | Some l => let? d := sub_i64 (timestamp_ns l) now in Ok (Some (timedelta_days (neg_i64 d)))
  | None => Ok None
  end.

(** Lines 9-36 with the checks: each derived column is computed whole
    before it is assigned, line 29 before line 34, and the first
    overflow stops the script. *)
Definition run_cleaning (now : Z) (raw : list raw_row) : result (list clean_row) :=
  let df := dated_frame raw in
  let? periods := all_ok (map membership_period_checked df) in
  let? sinces := all_ok (map (days_since_last_visit_checked now) df) in
  Ok (zip_with (fun rp s => mk_clean rp.1 rp.2 s) (zip df periods) sinces).

(** ** The data behind the charts *)

Definition pie_labels : list string := ["Quarterly"; "Monthly"; "Yearly"].

(** Lines 49-50: [plt.pie(value_counts(), labels=labels)] pairs the i-th
    label with the i-th largest count; matplotlib raises ValueError when
    the numbers of labels and of wedges differ. *)
Definition membership_pie (df : list clean_row) : result (list (string * nat)) :=
  let counts := value_counts (map (fun r => Membership_Type (base r)) df) in
  if Nat.eqb (length counts) (length pie_labels)
  then Ok (zip pie_labels (map snd counts))
  else Raise ValueError.

(** Lines 56-57. *)
Definition churned_df (df : list clean_row) : list clean_row :=
  List.filter (fun r => bool_decide (Churn (base r) = Some "Yes")) df.

Definition active_df (df : list clean_row) : list clean_row :=
  List.filter (fun r => bool_decide (Churn (base r) = Some "No")) df.

(** Lines 60-61: the mean workout duration of a group, NaN (None) for a
    group without a value. *)
Definition avg_workout (df : list clean_row) : option Q :=
  col_mean (map (fun r => inject_Z <$> Avg_Workout_Duration_Min (base r)) df).

(** Line 76: [groupby(['Gender','Churn']).size().unstack(fill_value=0)]
    as a function of the two keys; rows with a null key are not grouped. *)
Definition gender_churn (df : list clean_row) (g c : string) : nat :=
  length (List.filter (fun r => bool_decide (Gender (base r) = Some g /\ Churn (base r) = Some c)) df).

(** ** Proofs *)

Definition has_id_age (r : raw_row) : bool := is_some (Member_ID r) && is_some (Age r).

Lemma elem_of_clean_pipeline now raw c :
  c ∈ clean_pipeline now raw <->
  exists r0, r0 ∈ raw /\ has_id_age r0 = true /\
    c = (let r := map_dates to_datetime_coerce (set_Name (fill_null (Some "Unknown") (Name r0)) r0) in
         mk_clean r (membership_period r) (days_since_last_visit now r)).
Proof.
  unfold clean_pipeline, parse_dates, fill_unknown_name, drop_missing_id_age.
  rewrite !list_elem_of_In, !in_map_iff. split.
  - intros (r & <- & (r1 & <- & (r0 & <- & Hin)%in_map_iff)%in_map_iff).
    apply filter_In in Hin as [Hin Hk]. exists r0. split; [by apply list_elem_of_In|done].
  - intros (r0 & Hin & Hk & ->). eexists; split; [reflexivity|].
    apply in_map_iff. eexists; split; [reflexivity|]. apply in_map_iff.
    eexists; split; [reflexivity|]. apply filter_In. split; [by apply list_elem_of_In|done].
Qed.

(** [C20] Spec §8: the cleaned frame keeps exactly the rows that have a
    member id and an age, each once and in order, so no row without them
    survives; and its name column has no null left. *)
Theorem clean_pipeline_required now raw :
  length (clean_pipeline now raw) = length (List.filter has_id_age raw) /\
  Forall (fun c => is_some (Member_ID (base c)) = true /\ is_some (Age (base c)) = true /\
                   is_some (Name (base c)) = true) (clean_pipeline now raw).
Proof.
  split.
  - unfold clean_pipeline, parse_dates, fill_unknown_name, drop_missing_id_age.
    by rewrite !length_map.
  - apply Forall_forall. intros c (r0 & _ & Hk & ->)%elem_of_clean_pipeline.
    unfold has_id_age in Hk. apply andb_true_iff in Hk as [Hid Hage]. simpl.
    split_and!; [done|done|]. by destruct (Name r0).
Qed.

(** [C21] Spec §8: [Membership_Period_Days] is the number of days from the
    join date to the last visit whenever both dates parsed, and NaN
    otherwise. *)
Theorem membership_period_days_spec now raw c :
  c ∈ clean_pipeline now raw ->
  Membership_Period_Days c =
  match Join_Date (base c), Last_Visit_Date (base c) with
  | Some j, Some l => Some (days_from_civil l - days_from_civil j)
  | _, _ => None
  end.
Proof.
  intros (r0 & _ & _ & ->)%elem_of_clean_pipeline.
  cbn [base Membership_Period_Days]. unfold membership_period, timestamp_ns.
  cbn [map_dates Join_Date Last_Visit_Date set_Name].
  destruct (to_datetime_coerce (Join_Date r0)), (to_datetime_coerce (Last_Visit_Date r0));
    try done.
  by rewrite timedelta_days_midnights.
Qed.

(** [C22] [Days_Since_Last_Visit] is the number of whole days from the last
    visit to the day of [now]: the floor of the nanosecond difference, so a
    visit today counts 0 at any time of day. *)
Theorem days_since_last_visit_spec now raw c :
  c ∈ clean_pipeline now raw ->
  Days_Since_Last_Visit c =
  (fun l => now / ns_per_day - days_from_civil l) <$> Last_Visit_Date (base c).
Proof.
  intros (r0 & _ & _ & ->)%elem_of_clean_pipeline.
  cbn [base Days_Since_Last_Visit]. unfold days_since_last_visit, timestamp_ns.
  cbn [map_dates Last_Visit_Date set_Name].
  destruct (to_datetime_coerce (Last_Visit_Date r0)); [|done].
  by rewrite timedelta_days_since.
Qed.

(** [C23] Every date left in the cleaned frame is within pandas' timestamp
    range, days -106751..106751 (1677-09-22 to 2262-04-11): the coercing
    parser turns any other date into NaT. *)
Theorem clean_dates_in_range now raw c d :
  c ∈ clean_pipeline now raw ->
  (Join_Date (base c) = Some d \/ Last_Visit_Date (base c) = Some d) ->
  (-106751 <= days_from_civil d <= 106751)%Z.
Proof.
  intros (r0 & _ & _ & ->)%elem_of_clean_pipeline. simpl.
  assert (Hc : forall s, to_datetime_coerce s = Some d -> (-106751 <= days_from_civil d <= 106751)%Z).
  { intros [s|]; simpl; [|done]. destruct (parse_iso s) as [d'|]; [|done].
    unfold pandas_in_bounds, int64_max, ns_per_day.
    destruct (Z.leb_spec (Z.abs (days_from_civil d' * (86400 * 1000000000))) (2 ^ 63 - 1));
      simpl; intros; simplify_eq; lia. }
  intros [H|H]; by apply Hc in H.
Qed.

(** [C24] The consistency audit prints, for each text column, every
    distinct non-null value once with its number of occurrences, most
    frequent first, and the counts add up to the column's non-null cells. *)
Theorem consistency_report_spec df c vc :
  (c, vc) ∈ consistency_report df ->
  exists col, (c, col) ∈ text_columns df /\
    (forall k n, (k, n) ∈ vc <-> Some k ∈ col /\ n = count_of k col) /\
    NoDup (map fst vc) /\
    Sorted (desc (fun p => Z.of_nat p.2)) vc /\
    sum_list (map snd vc) = length (non_null col).
Proof.
  unfold consistency_report. rewrite list_elem_of_In, in_map_iff.
  intros ([c' col] & [= <- <-] & Hin). exists col.
  split; [by apply list_elem_of_In|]. split_and!.
  - intros k n. apply value_counts_elem.
  - apply value_counts_NoDup.
  - apply value_counts_sorted.
  - apply value_counts_total.
Qed.

Lemma length_value_counts {A} `{EqDecision A} (xs : list (option A)) :
  length (value_counts xs) = length (remove_dups (non_null xs)).
Proof. rewrite <- (length_map fst), value_counts_keys. done. Qed.

(** The pie chart has three hard-coded labels: matplotlib raises
    ValueError unless the frame has exactly three distinct membership
    types, and otherwise draws the i-th label on the i-th most frequent
    type, whatever that type is. *)
Theorem membership_pie_spec df :
  membership_pie df =
  if Nat.eqb (length (remove_dups (non_null (map (fun r => Membership_Type (base r)) df)))) 3
  then Ok (zip pie_labels (map snd (value_counts (map (fun r => Membership_Type (base r)) df))))
  else Raise ValueError.
Proof. unfold membership_pie. by rewrite length_value_counts. Qed.

(** A cleaned row of the given membership type, other cells null. *)
Definition row_of_type (t : string) : clean_row :=
  mk_clean (mk_row None None None None None None (Some t) None None None None None None None None)
    None None.

(** The labels are attached by rank, not by name: on a frame with
    three Monthly, two Yearly and one Quarterly member the wedge labelled
    "Quarterly" shows the three Monthly members. *)
Theorem membership_pie_mislabels :
  let df := map row_of_type ["Monthly"; "Yearly"; "Monthly"; "Quarterly"; "Yearly"; "Monthly"] in
  membership_pie df = Ok [("Quarterly", 3%nat); ("Monthly", 2%nat); ("Yearly", 1%nat)] /\
  count_of "Quarterly" (map (fun r => Membership_Type (base r)) df) = 1%nat /\
  count_of "Monthly" (map (fun r => Membership_Type (base r)) df) = 3%nat.
Proof. vm_compute. split_and!; reflexivity. Qed.

(** The bar chart's two groups split the members whose churn is
    "Yes" or "No": every such row is in exactly one group, and rows with
    any other or a null churn are in neither. *)
Theorem churn_split_partition df :
  churned_df df ++ active_df df ≡ₚ
  List.filter (fun r => bool_decide (Churn (base r) = Some "Yes" \/ Churn (base r) = Some "No")) df.
Proof.
  unfold churned_df, active_df. induction df as [|r df IH]; simpl; [done|].
  destruct (Churn (base r)) as [s|] eqn:E.
  - destruct (String.eqb_spec s "Yes") as [->|Hy]; [|destruct (String.eqb_spec s "No") as [->|Hn]].
    + rewrite bool_decide_true, bool_decide_false, bool_decide_true by (done || naive_solver).
      simpl. by rewrite IH.
    + rewrite bool_decide_false, bool_decide_true, bool_decide_true by (done || naive_solver).
      rewrite <- Permutation_middle. by rewrite IH.
    + rewrite !bool_decide_false by naive_solver. done.
  - rewrite !bool_decide_false by naive_solver. done.
Qed.

(** ** The overflow checks of lines 29 and 34 *)

(** A row whose derived columns leave int64. *)
Definition overflows (now : Z) (r : table_row) : bool :=
  match Join_Date r, Last_Visit_Date r with
  | Some j, Some l => negb (fits_int64 (timestamp_ns l - timestamp_ns j))
  | _, _ => false
  end ||
  match Last_Visit_Date r with
  | Some l => negb (fits_int64 (timestamp_ns l - now))
  | None => false
  end.

Lemma sub_i64_Raise a b e : sub_i64 a b = Raise e -> e = OverflowError.
Proof. unfold sub_i64. by destruct (fits_int64 (a - b)); intros [=]. Qed.

Lemma sub_i64_Ok a b : fits_int64 (a - b) = true -> sub_i64 a b = Ok (a - b).
Proof. unfold sub_i64. by intros ->. Qed.

Lemma is_ok_sub_i64_bind {B} a b (k : Z -> result B) :
  (forall d, is_ok (k d) = true) -> is_ok (let? d := sub_i64 a b in k d) = fits_int64 (a - b).
Proof. intros Hk. unfold sub_i64. by destruct (fits_int64 (a - b)); simpl. Qed.

Lemma overflows_is_ok now r :
  overflows now r =
  negb (is_ok (membership_period_checked r) && is_ok (days_since_last_visit_checked now r)).
Proof.
  unfold overflows, membership_period_checked, days_since_last_visit_checked.
  destruct (Join_Date r), (Last_Visit_Date r); simpl;
    rewrite ?is_ok_sub_i64_bind by done; try done; by destruct fits_int64.
Qed.

Lemma checked_Raise now r e :
  (membership_period_checked r = Raise e \/ days_since_last_visit_checked now r = Raise e) ->
  e = OverflowError.
Proof.
  unfold membership_period_checked, days_since_last_visit_checked.
  destruct (Join_Date r), (Last_Visit_Date r); simpl; intros [H|H]; try done;
    destruct (sub_i64 _ _) eqn:E; simpl in H; simplify_eq; by eapply sub_i64_Raise.
Qed.

Lemma forallb_and_existsb {A} (p q : A -> bool) (l : list A) :
  forallb p l && forallb q l = negb (existsb (fun x => negb (p x && q x)) l).
Proof.
  induction l as [|x l IH]; simpl; [done|]. rewrite negb_orb, <- IH.
  by destruct (p x), (q x), (forallb p l), (forallb q l).
Qed.

Lemma run_cleaning_is_ok now raw :
  is_ok (run_cleaning now raw) = negb (existsb (overflows now) (dated_frame raw)).
Proof.
  erewrite existsb_ext by (intros r; apply overflows_is_ok).
  rewrite <- forallb_and_existsb, <- !all_ok_map_is_ok. unfold run_cleaning.
  destruct (all_ok (map membership_period_checked _)), (all_ok (map (days_since_last_visit_checked now) _));
    reflexivity.
Qed.

Lemma run_cleaning_Raise now raw e : run_cleaning now raw = Raise e -> e = OverflowError.
Proof.
  unfold run_cleaning.
  destruct (all_ok (map membership_period_checked _)) as [p|e1] eqn:E1; simpl.
  - destruct (all_ok (map (days_since_last_visit_checked now) _)) as [s|e2] eqn:E2; simpl; [done|].
    intros [= <-]. apply all_ok_map_Raise_inv in E2 as (r & _ & Hr). apply (checked_Raise now r). by right.
  - intros [= <-]. apply all_ok_map_Raise_inv in E1 as (r & _ & Hr). apply (checked_Raise now r). by left.
Qed.

Lemma overflow_run_cleaning now raw :
  Exists (fun r => overflows now r = true) (dated_frame raw) ->
  run_cleaning now raw = Raise OverflowError.
Proof.
  intros (r & Hr & Ho)%Exists_exists.
  assert (Hb : is_ok (run_cleaning now raw) = false).
  { rewrite run_cleaning_is_ok, negb_false_iff, existsb_exists.
    exists r. split; [by apply list_elem_of_In|done]. }
  destruct (run_cleaning now raw) as [c|e] eqn:E; [done|].
  by rewrite (run_cleaning_Raise now raw e E).
Qed.

(** [C15] Error path of lines 29 and 34, which the spec (§4.1) says raise
    nothing: pandas checks the int64 subtractions, so the script raises
    exactly when a kept row has its last visit and its join date more
    than 2^63 ns (about 292 years) apart, or its last visit that far from
    the time the script runs; and the only exception it raises there is
    OverflowError. *)
Theorem run_cleaning_overflow now raw :
  (forall e, run_cleaning now raw = Raise e -> e = OverflowError) /\
  (run_cleaning now raw = Raise OverflowError <->
   Exists (fun r => overflows now r = true) (dated_frame raw)).
Proof.
  split; [apply run_cleaning_Raise|].
  rewrite Exists_exists. split.
  - intros H. assert (Hb : is_ok (run_cleaning now raw) = false) by (by rewrite H).
    rewrite run_cleaning_is_ok, negb_false_iff, existsb_exists in Hb.
    destruct Hb as (r & Hr & Ho). exists r. split; [by apply list_elem_of_In|done].
  - intros H. apply overflow_run_cleaning, Exists_exists, H.
Qed.

Lemma zip_with_clean (df : list table_row) (f g : table_row -> option Z) :
  zip_with (fun rp s => mk_clean rp.1 rp.2 s) (zip df (map f df)) (map g df) =
  map (fun r => mk_clean r (f r) (g r)) df.
Proof. induction df as [|r df IH]; simpl; [done|]. by rewrite IH. Qed.

(** Dates at most 53375 days (about 146 years) from 1970-01-01. *)
Definition dates_within (r : table_row) : Prop :=
  forall d, (Join_Date r = Some d \/ Last_Visit_Date r = Some d) ->
  (Z.abs (days_from_civil d) <= 53375)%Z.

Lemma period_checked_within r :
  dates_within r -> membership_period_checked r = Ok (membership_period r).
Proof.
  intros Hd. unfold membership_period_checked, membership_period.
  destruct (Join_Date r) as [j|] eqn:Ej, (Last_Visit_Date r) as [l|] eqn:El; try done.
  pose proof (Hd j (or_introl Ej)). pose proof (Hd l (or_intror El)).
  rewrite sub_i64_Ok; [done|]. unfold fits_int64, timestamp_ns, int64_min, int64_max, ns_per_day in *.
  apply andb_true_iff; split; apply Z.leb_le; lia.
Qed.

Section InRange.
Variable now : Z.
Hypothesis Hnow : (Z.abs now <= 53375 * ns_per_day)%Z.

Lemma since_checked_within r :
  dates_within r -> days_since_last_visit_checked now r = Ok (days_since_last_visit now r).
Proof.
  intros Hd. unfold days_since_last_visit_checked, days_since_last_visit.
  destruct (Last_Visit_Date r) as [l|] eqn:El; [|done].
  pose proof (Hd l (or_intror El)).
  rewrite sub_i64_Ok.
  2:{ unfold fits_int64, timestamp_ns, int64_min, int64_max, ns_per_day in *.
      apply andb_true_iff; split; apply Z.leb_le; lia. }
  simpl. unfold neg_i64. destruct (Z.eqb_spec (timestamp_ns l - now) int64_min) as [E|_].
  - exfalso. unfold timestamp_ns, int64_min, ns_per_day in *. lia.
  - do 3 f_equal. lia.
Qed.
End InRange.

(** [C18] Bounds under which lines 29 and 34 cannot overflow: when the
    script runs within 53375 days of 1970-01-01 and every date it keeps
    is that close too (1823-11-12 to 2116-02-20), the checked pipeline
    returns the frame of [clean_pipeline], with its exact day
    differences. *)
Theorem run_cleaning_in_range now raw :
  (Z.abs now <= 53375 * ns_per_day)%Z ->
  Forall dates_within (dated_frame raw) ->
  run_cleaning now raw = Ok (clean_pipeline now raw).
Proof.
  intros Hnow Hall. rewrite Forall_forall in Hall. unfold run_cleaning.
  assert (Hw : forall r, In r (dated_frame raw) -> dates_within r)
    by (intros r Hr; apply Hall, list_elem_of_In, Hr).
  rewrite (map_ext_in membership_period_checked (fun r => Ok (membership_period r)))
    by (intros r Hr; exact (period_checked_within r (Hw r Hr))).
  rewrite (map_ext_in (days_since_last_visit_checked now) (fun r => Ok (days_since_last_visit now r)))
    by (intros r Hr; exact (since_checked_within now Hnow r (Hw r Hr))).
  rewrite !all_ok_map_Ok. simpl. by rewrite zip_with_clean.
Qed.
