(* ===== verification/Report.v ===== *)
(** What src/analytics/data_cleaning.py prints (lines 21-36), in order.

    The script prints the consistency audit (lines 23-26: for each text
    column a header, its [value_counts()] and a blank line), then for
    each derived column its dtype and the column itself (lines 30-31 and
    35-36). A printed item is modelled by what it shows, not by pandas'
    text layout: a [value_counts()] Series by its pairs, a Series of days
    by its dtype and its cells with their index labels.

    Two facts of pandas matter here:
    - [.dt.days] gives an [int64] column when no difference is NaT, and
      a [float64] column (NaN for the missing ones) as soon as one is:
      the derived columns are printed as whole numbers only when every
      kept row has the dates they subtract ([days_dtype]);
    - [dropna] keeps the labels of the rows it keeps, so the index
      printed with a column is the line numbers, from 0, of the kept CSV
      rows ([frame_index]).
    [run_cleaning_io] is lines 9-36 with their output: an overflow of
    line 29 or 34 stops the script after what it has printed so far. *)

From Stdlib Require Import ZArith Lia Ascii String.
From stdpp Require Import base list strings.
From S2P Require Import Prelude Dates Schema Frame Cleaning.

Local Open Scope list_scope.

(** The numpy dtypes of a column of whole days. *)
Inductive dtype : Type := int64 | float64.

(** [Series.dt.days]: NaN forces [float64]. *)
Definition days_dtype (col : list (option Z)) : dtype :=
  if forallb is_some col then int64 else float64.

(** The index of [df_new]: [read_csv] labels the rows 0, 1, ... and
    [dropna] (line 12) keeps the labels of the rows it keeps. *)
Definition frame_index (raw : list raw_row) : list nat :=
  map fst (List.filter (fun p => has_id_age p.2) (zip (seq 0 (length raw)) raw)).

Inductive printed : Type :=
  | PText (s : string)                                 (** [print] of a string *)
  | PValueCounts (col : string) (counts : list (string * nat))
  | PDtype (t : dtype)                                 (** [print(s.dtype)] *)
  | PSeries (name : string) (t : dtype) (cells : list (nat * option Z)).

(** Lines 23-26. [print("\n")] prints a newline, then [print]'s own. *)
Definition audit_prints (df : list table_row) : list printed :=
  flat_map (fun '(c, col) =>
              [PText ("--- " ++ c ++ " ---")%string; PValueCounts c (value_counts col);
               PText (String "010"%char EmptyString)])
           (text_columns df).

(** Lines 30-31 and 35-36 for one derived column. *)
Definition derived_prints (name : string) (idx : list nat) (col : list (option Z)) : list printed :=
  [PDtype (days_dtype col); PSeries name (days_dtype col) (zip idx col)].

(** Lines 9-36 with what they print: the audit, then line 29 and its
    prints, then line 34 and its prints; an exception stops the script
    with the output printed so far. *)
Definition run_cleaning_io (now : Z) (raw : list raw_row) : list printed * result (list clean_row) :=
  let df := dated_frame raw in
  let out := audit_prints df in
  match all_ok (map membership_period_checked df) with
  | Raise e => (out, Raise e)
  | Ok periods =>
      let out := out ++ derived_prints "Membership_Period_Days"%string (frame_index raw) periods in
      match all_ok (map (days_since_last_visit_checked now) df) with
      | Raise e => (out, Raise e)
      | Ok sinces =>
          (out ++ derived_prints "Days_Since_Last_Visit"%string (frame_index raw) sinces,
           Ok (zip_with (fun rp s => mk_clean rp.1 rp.2 s) (zip df periods) sinces))
      end
  end.

(** ** Proofs *)

(** The printing changes nothing: the frame or exception is the one of
    [run_cleaning]. *)
Lemma run_cleaning_io_result now raw : (run_cleaning_io now raw).2 = run_cleaning now raw.
Proof.
  unfold run_cleaning_io, run_cleaning.
  destruct (all_ok (map membership_period_checked _)), (all_ok (map (days_since_last_visit_checked now) _));
    reflexivity.
Qed.

Lemma days_dtype_int64 col : days_dtype col = int64 <-> Forall (fun o => is_some o = true) col.
Proof.
  unfold days_dtype. rewrite Forall_forall.
  destruct (forallb is_some col) eqn:E.
  - split; [|done]. intros _ o Ho. apply forallb_forall with (x := o) in E; [done|].
    by apply list_elem_of_In.
  - split; [done|]. intros Hall. rewrite <- not_true_iff_false, forallb_forall in E.
    exfalso. apply E. intros o Ho. apply Hall. by apply list_elem_of_In.
Qed.

Lemma Forall2_Forall_iff {A B} (R : A -> B -> Prop) (P : B -> Prop) (Q : A -> Prop) l1 l2 :
  Forall2 R l1 l2 -> (forall x y, R x y -> P y <-> Q x) -> Forall P l2 <-> Forall Q l1.
Proof.
  intros HR Hpq. induction HR as [|x y l1 l2 Hxy _ IH]; [split; constructor|].
  rewrite !Forall_cons, IH, (Hpq x y Hxy). done.
Qed.

Lemma membership_period_checked_Ok r v :
  membership_period_checked r = Ok v -> is_some v = is_some (Join_Date r) && is_some (Last_Visit_Date r).
Proof.
  unfold membership_period_checked. destruct (Join_Date r), (Last_Visit_Date r); simpl;
    [destruct sub_i64; simpl; [intros [= <-]|]|intros [= <-]..]; done.
Qed.

Lemma days_since_checked_Ok now r v :
  days_since_last_visit_checked now r = Ok v -> is_some v = is_some (Last_Visit_Date r).
Proof.
  unfold days_since_last_visit_checked. destruct (Last_Visit_Date r); simpl;
    [destruct sub_i64; simpl; [intros [= <-]|]|intros [= <-]]; done.
Qed.

(** The dtype of a derived column computed without overflow: [int64]
    exactly when the rows all have what [f] needs. *)
Lemma days_dtype_checked (f : table_row -> result (option Z)) (need : table_row -> bool) df col :
  (forall r v, f r = Ok v -> is_some v = need r) ->
  all_ok (map f df) = Ok col ->
  days_dtype col = int64 <-> Forall (fun r => need r = true) df.
Proof.
  intros Hf Hok. rewrite days_dtype_int64.
  apply all_ok_Ok, Forall2_fmap_l in Hok. apply (Forall2_Forall_iff _ _ _ _ _ Hok).
  intros r v Hv. by rewrite (Hf r v Hv).
Qed.

Lemma length_filter_labelled (raw : list raw_row) n :
  length (List.filter (fun p => has_id_age p.2) (zip (seq n (length raw)) raw)) =
  length (List.filter has_id_age raw).
Proof.
  revert n. induction raw as [|r raw IH]; intros n; simpl; [done|].
  destruct (has_id_age r); simpl; by rewrite IH.
Qed.

Lemma length_frame_index raw : length (frame_index raw) = length (dated_frame raw).
Proof.
  unfold frame_index, dated_frame, parse_dates, fill_unknown_name, drop_missing_id_age.
  rewrite !length_map. apply length_filter_labelled.
Qed.

Lemma map_fields_zip_with (df : list table_row) (ps ss : list (option Z)) :
  length ps = length df -> length ss = length df ->
  map Membership_Period_Days (zip_with (fun rp s => mk_clean rp.1 rp.2 s) (zip df ps) ss) = ps /\
  map Days_Since_Last_Visit (zip_with (fun rp s => mk_clean rp.1 rp.2 s) (zip df ps) ss) = ss.
Proof.
  revert ps ss. induction df as [|r df IH]; intros [|p ps] [|s ss] Hp Hs; simpl in *; try lia; [done|].
  destruct (IH ps ss) as [-> ->]; [lia..|done].
Qed.

Lemma all_ok_map_length {A B} (f : A -> result B) l r : all_ok (map f l) = Ok r -> length r = length l.
Proof. intros H%all_ok_Ok%Forall2_length. by rewrite length_map in H. Qed.

(** [C26] What the script prints after the audit, when the cleaning
    completes: the dtype and then the values of Membership_Period_Days
    (lines 30-31), then those of Days_Since_Last_Visit (lines 35-36),
    each value with its index label, the line number of its CSV row.
    A derived column is printed as [int64] exactly when every kept row
    has the dates it subtracts (both dates, or the last visit), and as
    [float64] (whole days shown as floats, NaN for the others) as soon
    as one row misses one. *)
Theorem script_prints now raw df :
  run_cleaning now raw = Ok df ->
  (run_cleaning_io now raw).1 =
    audit_prints (dated_frame raw) ++
    derived_prints "Membership_Period_Days" (frame_index raw) (map Membership_Period_Days df) ++
    derived_prints "Days_Since_Last_Visit" (frame_index raw) (map Days_Since_Last_Visit df) /\
  length (frame_index raw) = length df /\
  (days_dtype (map Membership_Period_Days df) = int64 <->
     Forall (fun r => is_some (Join_Date r) && is_some (Last_Visit_Date r) = true) (dated_frame raw)) /\
  (days_dtype (map Days_Since_Last_Visit df) = int64 <->
     Forall (fun r => is_some (Last_Visit_Date r) = true) (dated_frame raw)).
Proof.
  unfold run_cleaning. intros Hok.
  destruct (all_ok (map membership_period_checked (dated_frame raw))) as [ps|e] eqn:Hp; [|done].
  destruct (all_ok (map (days_since_last_visit_checked now) (dated_frame raw))) as [ss|e] eqn:Hs; [|done].
  injection Hok as <-.
  pose proof (all_ok_map_length _ _ _ Hp) as Lp. pose proof (all_ok_map_length _ _ _ Hs) as Ls.
  destruct (map_fields_zip_with _ ps ss Lp Ls) as [-> ->].
  split_and!.
  - unfold run_cleaning_io. rewrite Hp, Hs. cbn -[derived_prints audit_prints app]. by rewrite <- app_assoc.
  - rewrite length_frame_index, length_zip_with, length_zip. lia.
  - exact (days_dtype_checked _ _ _ _ membership_period_checked_Ok Hp).
  - exact (days_dtype_checked _ _ _ _ (days_since_checked_Ok now) Hs).
Qed.
