(* ===== verification/Charts.v ===== *)
(** The chart section of src/analytics/data_cleaning.py (lines 38-85).

    pyplot is a state machine: a stack of open figures, the most recently
    active on top ([plt.gcf()]), and the files written so far. A new
    figure is numbered one above the largest open number, as
    [plt.figure()] does, so numbers are reused after [plt.close()]. Every call of the script is a command [cmd];
    [exec_cmd] is its effect on the state, [Raise] when matplotlib raises,
    and [run] executes the script's commands in order, stopping at the
    first exception with the state reached so far (the files already
    written stay on disk).

    The library behaviour modelled is the one the script relies on:
    - a drawing call ([hist], [pie], [bar], [xlabel], ...) on an empty
      stack first opens a figure of the default size ([rcParams], 6.4 x
      4.8 inches), as [plt.gca()] does;
    - [plt.figure(figsize=...)] opens a new figure and makes it current;
      [plt.close()] closes the current figure, the previous one becoming
      current again;
    - [plt.pie] raises ValueError when labels and values differ in number;
    - [DataFrame.plot] without [ax] opens a figure of its own (pandas'
      [MPLPlot._setup_subplots]), with a legend of its column names;
    - [plt.legend(labels=...)] pairs the labels with the existing
      handles in order, dropping labels without a handle.
    Styling (colours, [autopct], [startangle]) is not modelled: it does
    not change what a chart shows. *)

From Stdlib Require Import ZArith QArith String Sorted.
From stdpp Require Import base list gmap strings.
From S2P Require Import Prelude Dates Schema Frame Histogram Cleaning.

Open Scope string_scope.

(** ** Figures *)

(** What is drawn on a figure. *)
Inductive artist : Type :=
  | AHist (edges : list Q) (counts : list nat)
  | APie (wedges : list (string * nat))
  | ABar (bars : list (string * option Q))
  | AStackedBar (index : list string) (columns : list (string * list nat)).

Record figure : Type := mk_figure {
  fig_num : nat;
  fig_size : Q * Q;
  artists : list artist;
  fig_title : option string;
  fig_xlabel : option string;
  fig_ylabel : option string;
  (** the legend's title and its entries (label shown, series marked) *)
  fig_legend : option (string * list (string * string));
  fig_xtick_rotation : option Z
}.

Record pyplot : Type := mk_pyplot {
  open_figs : list figure;
  disk : gmap string figure
}.

(** A table of counts as [unstack] returns it: the row labels, the name
    of the column level, and each column with its counts. *)
Record count_table : Type := mk_table {
  row_index : list string;
  col_name : string;
  cols : list (string * list nat)
}.

Inductive cmd : Type :=
  | Figure (figsize : option (Q * Q))
  | Hist (x : list (option Q))
  | Pie (x : list nat) (labels : list string)
  | Bar (categories : list string) (heights : list (option Q))
  | FrameStackedBar (t : count_table)
  | XLabel (s : string)
  | YLabel (s : string)
  | Title (s : string)
  | Legend (title : string) (labels : list string)
  | XTicks (rotation : Z)
  | SaveFig (path : string)
  | Close.

(** [rcParams['figure.figsize']]. *)
Definition default_figsize : Q * Q := (64 # 10, 48 # 10)%Q.

Definition plt_init : pyplot := mk_pyplot [] ∅.

(** [plt.figure()] without [num]: [max(get_fignums()) + 1], or 1 when no
    figure is open. *)
Definition next_num (s : pyplot) : nat := S (list_max (map fig_num (open_figs s))).

Definition new_figure (size : Q * Q) (s : pyplot) : pyplot :=
  mk_pyplot (mk_figure (next_num s) size [] None None None None None :: open_figs s) (disk s).

(** [plt.gcf()]: a figure is opened when none is. *)
Definition ensure_figure (s : pyplot) : pyplot :=
  match open_figs s with [] => new_figure default_figsize s | _ => s end.

(** Apply a change to the current figure. *)
Definition update_gcf (g : figure -> figure) (s : pyplot) : pyplot :=
  let s := ensure_figure s in
  match open_figs s with
  | f :: fs => mk_pyplot (g f :: fs) (disk s)
  | [] => s
  end.

Definition add_artist (a : artist) (f : figure) : figure :=
  mk_figure (fig_num f) (fig_size f) (artists f ++ [a]) (fig_title f) (fig_xlabel f)
    (fig_ylabel f) (fig_legend f) (fig_xtick_rotation f).

Definition set_title (t : string) (f : figure) : figure :=
  mk_figure (fig_num f) (fig_size f) (artists f) (Some t) (fig_xlabel f) (fig_ylabel f)
    (fig_legend f) (fig_xtick_rotation f).

Definition set_xlabel (t : string) (f : figure) : figure :=
  mk_figure (fig_num f) (fig_size f) (artists f) (fig_title f) (Some t) (fig_ylabel f)
    (fig_legend f) (fig_xtick_rotation f).

Definition set_ylabel (t : string) (f : figure) : figure :=
  mk_figure (fig_num f) (fig_size f) (artists f) (fig_title f) (fig_xlabel f) (Some t)
    (fig_legend f) (fig_xtick_rotation f).

Definition set_legend (l : string * list (string * string)) (f : figure) : figure :=
  mk_figure (fig_num f) (fig_size f) (artists f) (fig_title f) (fig_xlabel f) (fig_ylabel f)
    (Some l) (fig_xtick_rotation f).

Definition set_xticks (r : Z) (f : figure) : figure :=
  mk_figure (fig_num f) (fig_size f) (artists f) (fig_title f) (fig_xlabel f) (fig_ylabel f)
    (fig_legend f) (Some r).

(** The labelled artists a legend can show, in drawing order. *)
Definition handles_of (a : artist) : list string :=
  match a with
  | APie w => map fst w
  | AStackedBar _ cs => map fst cs
  | _ => []
  end.

Definition legend_handles (f : figure) : list string := concat (map handles_of (artists f)).

(** [Axes.pie]: [len(labels) != len(x)] raises. *)
Definition pie_wedges (x : list nat) (labels : list string) : result (list (string * nat)) :=
  if Nat.eqb (length labels) (length x) then Ok (zip labels x) else Raise ValueError.

Definition exec_cmd (s : pyplot) (c : cmd) : result pyplot :=
  match c with
  | Figure sz => Ok (new_figure (default default_figsize sz) s)
  | Hist x => let '(e, n) := hist_column x in Ok (update_gcf (add_artist (AHist e n)) s)
  | Pie x labels =>
      let? w := pie_wedges x labels in Ok (update_gcf (add_artist (APie w)) s)
  | Bar cs hs =>
      if Nat.eqb (length cs) (length hs) then Ok (update_gcf (add_artist (ABar (zip cs hs))) s)
      else Raise ValueError
  | FrameStackedBar t =>
      Ok (update_gcf (fun f => set_legend (col_name t, map (fun c => (c.1, c.1)) (cols t))
                                 (add_artist (AStackedBar (row_index t) (cols t)) f))
            (new_figure default_figsize s))
  | XLabel t => Ok (update_gcf (set_xlabel t) s)
  | YLabel t => Ok (update_gcf (set_ylabel t) s)
  | Title t => Ok (update_gcf (set_title t) s)
  | Legend t labels =>
      Ok (update_gcf (fun f => set_legend (t, zip labels (legend_handles f)) f) s)
  | XTicks r => Ok (update_gcf (set_xticks r) s)
  | SaveFig p =>
      let s := ensure_figure s in
      match open_figs s with
      | f :: _ => Ok (mk_pyplot (open_figs s) (<[p := f]> (disk s)))
      | [] => Ok s
      end
  | Close =>
      match open_figs s with
      | _ :: fs => Ok (mk_pyplot fs (disk s))
      | [] => Ok s
      end
  end.

(** Run commands in order; an exception stops the script. *)
Fixpoint run (cs : list cmd) (s : pyplot) : pyplot * option py_exception :=
  match cs with
  | [] => (s, None)
  | c :: cs' =>
      match exec_cmd s c with
      | Ok s' => run cs' s'
      | Raise e => (s, Some e)
      end
  end.

(** ** The script *)

(** [groupby] sorts its keys (Python compares strings character by
    character). *)
Fixpoint insert_str (x : string) (l : list string) : list string :=
  match l with
  | [] => [x]
  | y :: l' => if String.leb x y then x :: l else y :: insert_str x l'
  end.

Fixpoint sort_str (l : list string) : list string :=
  match l with [] => [] | x :: l' => insert_str x (sort_str l') end.

(** The [(Gender, Churn)] keys of the rows where neither is null
    ([groupby] drops null keys). *)
Definition gender_churn_keys (df : list clean_row) : list (string * string) :=
  omap (fun r => g ← Gender (base r); c ← Churn (base r); Some (g, c)) df.

(** Line 76: [df_new.groupby(['Gender','Churn']).size().unstack(fill_value=0)]. *)
Definition gender_churn_table (df : list clean_row) : count_table :=
  let ks := gender_churn_keys df in
  let genders := sort_str (remove_dups (map fst ks)) in
  let churns := sort_str (remove_dups (map snd ks)) in
  mk_table genders "Churn" (map (fun c => (c, map (fun g => gender_churn df g c) genders)) churns).

(** The numbers the pie is drawn from (line 50). *)
Definition pie_values (df : list clean_row) : list nat :=
  map snd (value_counts (map (fun r => Membership_Type (base r)) df)).

Definition hist_path : string := "Visualizations/age_histogram_plot.png".
Definition pie_path : string := "Visualizations/membership_type.png".
Definition bar_path : string := "Visualizations/workout_duration_comparison.png".
Definition gender_path : string := "Visualizations/gender_churn_distribution.png".

(** Lines 41-85, call by call. *)
Definition chart_script (df : list clean_row) : list cmd :=
  [ (* 41-45 *)
    Hist (map (fun r => Age (base r)) df); XLabel "Age"; YLabel "Frequency";
    Title "Age Distribution"; SaveFig hist_path;
    (* 48-53 *)
    Figure (Some (8, 6)%Q); Pie (pie_values df) pie_labels;
    Title "Membership Type Distribution"; SaveFig pie_path; Close;
    (* 63-73 *)
    Figure (Some (8, 6)%Q);
    Bar ["Churned"; "Active"] [avg_workout (churned_df df); avg_workout (active_df df)];
    XLabel "Member Status"; YLabel "Average Workout Duration (min)";
    Title "Avg Workout Duration: Churned vs Active Members"; SaveFig bar_path; Close;
    (* 76-85 *)
    Figure (Some (8, 6)%Q); FrameStackedBar (gender_churn_table df);
    XLabel "Gender"; YLabel "Count"; Title "Gender Distribution by Churn Status";
    Legend "Churn" ["No"; "Yes"]; XTicks 0; SaveFig gender_path; Close ].

Definition run_charts (df : list clean_row) : pyplot * option py_exception :=
  run (chart_script df) plt_init.

(** The figure of lines 41-45, as the script leaves it. *)
Definition fig_hist (df : list clean_row) : figure :=
  let '(e, n) := hist_column (map (fun r => Age (base r)) df) in
  mk_figure 1 default_figsize [AHist e n] (Some "Age Distribution") (Some "Age")
    (Some "Frequency") None None.

(** ** Proofs *)

(** The chart's pie is the pie of [membership_pie]. *)
Lemma pie_wedges_membership df : pie_wedges (pie_values df) pie_labels = membership_pie df.
Proof. unfold pie_wedges, pie_values, membership_pie. by rewrite length_map, Nat.eqb_sym. Qed.

Lemma run_charts_eq df :
  run_charts df =
  match membership_pie df with
  | Ok w =>
    (mk_pyplot [mk_figure 2 (8, 6)%Q [] None None None None None; fig_hist df]
      (<[gender_path := mk_figure 3 default_figsize
            [AStackedBar (row_index (gender_churn_table df)) (cols (gender_churn_table df))]
            (Some "Gender Distribution by Churn Status") (Some "Gender") (Some "Count")
            (Some ("Churn", zip ["No"; "Yes"] (map fst (cols (gender_churn_table df))))) (Some 0%Z)]>
      (<[bar_path := mk_figure 2 (8, 6)%Q
            [ABar [("Churned", avg_workout (churned_df df)); ("Active", avg_workout (active_df df))]]
            (Some "Avg Workout Duration: Churned vs Active Members") (Some "Member Status")
            (Some "Average Workout Duration (min)") None None]>
      (<[pie_path := mk_figure 2 (8, 6)%Q [APie w] (Some "Membership Type Distribution")
            None None None None]>
      (<[hist_path := fig_hist df]> ∅)))), None)
  | Raise e =>
    (mk_pyplot [mk_figure 2 (8, 6)%Q [] None None None None None; fig_hist df]
      (<[hist_path := fig_hist df]> ∅), Some e)
  end.
Proof.
  unfold run_charts, chart_script, fig_hist. rewrite <- pie_wedges_membership.
  cbn [run exec_cmd].
  destruct (hist_column (map (fun r => Age (base r)) df)) as [e n].
  destruct (pie_wedges (pie_values df) pie_labels) as [w|err]; [|reflexivity].
  cbn [update_gcf ensure_figure new_figure plt_init open_figs next_num list_max fold_right Nat.max
       disk default set_legend add_artist set_xlabel set_ylabel set_title set_xticks legend_handles
       artists fig_num fig_size fig_title fig_xlabel fig_ylabel fig_legend fig_xtick_rotation
       map concat handles_of app fst].
  by rewrite app_nil_r.
Qed.

(** Run the script symbolically with its equation [Hrun], given the
    outcome [Hpie] of the pie. *)
Ltac run_charts_symbolic Hrun Hpie :=
  rewrite Hrun, Hpie; eexists; split; [reflexivity|]; simpl.

Lemma membership_pie_Raise df :
  length (remove_dups (non_null (map (fun r => Membership_Type (base r)) df))) <> 3%nat ->
  membership_pie df = Raise ValueError.
Proof.
  intros H. unfold membership_pie. rewrite length_value_counts.
  case_if; [|done]. apply Nat.eqb_eq in Heqb. by destruct H.
Qed.

Lemma artists_fig_hist df :
  artists (fig_hist df) =
  [AHist (hist_column (map (fun r => Age (base r)) df)).1 (hist_column (map (fun r => Age (base r)) df)).2].
Proof. unfold fig_hist. by destruct (hist_column _). Qed.

Lemma fig_size_fig_hist df : fig_num (fig_hist df) = 1%nat /\ fig_size (fig_hist df) = default_figsize.
Proof. unfold fig_hist. by destruct (hist_column _). Qed.

(** [C33] When the pie can be drawn, the chart section runs to its end
    and writes exactly four files: the histogram of the cleaned ages, the
    pie with the wedges of [membership_pie], the bars of the two mean
    workout durations (churned, then active), and the stacked bars of the
    unstacked [(Gender, Churn)] group sizes, whose legend attaches "No"
    and "Yes" to the churn columns in their sorted order. *)
Theorem run_charts_files df w :
  membership_pie df = Ok w ->
  exists s, run_charts df = (s, None) /\
    dom (disk s) = {[hist_path; pie_path; bar_path; gender_path]} /\
    artists <$> disk s !! hist_path =
      Some [AHist (hist_column (map (fun r => Age (base r)) df)).1
                  (hist_column (map (fun r => Age (base r)) df)).2] /\
    artists <$> disk s !! pie_path = Some [APie w] /\
    artists <$> disk s !! bar_path =
      Some [ABar [("Churned", avg_workout (churned_df df)); ("Active", avg_workout (active_df df))]] /\
    artists <$> disk s !! gender_path =
      Some [AStackedBar (row_index (gender_churn_table df)) (cols (gender_churn_table df))] /\
    fig_legend <$> disk s !! gender_path =
      Some (Some ("Churn", zip ["No"; "Yes"] (map fst (cols (gender_churn_table df))))).
Proof.
  intros Hp. run_charts_symbolic (run_charts_eq df) Hp.
  split; [rewrite !dom_insert_L, dom_empty_L; set_solver|].
  rewrite <- artists_fig_hist. unfold hist_path, pie_path, bar_path, gender_path.
  by simplify_map_eq.
Qed.

(** [C34] The [plt.figure(figsize=(8, 6))] of line 77 does not size the
    gender chart: [DataFrame.plot] opens a figure of its own, so that
    chart is saved at the default size 6.4 x 4.8 as figure 3 while the bar
    chart gets 8 x 6, and the script ends with two figures left open: the
    empty 8 x 6 figure 2 of line 77 (number 2 again, the pie's and the
    bar chart's figures having been closed) and the histogram's figure 1,
    never closed. *)
Theorem gender_chart_default_size df w :
  membership_pie df = Ok w ->
  exists s, run_charts df = (s, None) /\
    fig_size <$> disk s !! gender_path = Some default_figsize /\
    fig_num <$> disk s !! gender_path = Some 3%nat /\
    fig_size <$> disk s !! bar_path = Some (8, 6)%Q /\
    map (fun f => (fig_num f, fig_size f, artists f)) (open_figs s) =
      [(2%nat, (8, 6)%Q, []);
       (1%nat, default_figsize, [AHist (hist_column (map (fun r => Age (base r)) df)).1
                                       (hist_column (map (fun r => Age (base r)) df)).2])].
Proof.
  intros Hp. run_charts_symbolic (run_charts_eq df) Hp.
  rewrite <- artists_fig_hist, (proj1 (fig_size_fig_hist df)), (proj2 (fig_size_fig_hist df)).
  unfold bar_path, gender_path. by simplify_map_eq.
Qed.

(** [C35] Error path: when the frame does not have exactly three distinct
    membership types, [plt.pie] raises ValueError and the script stops;
    the histogram is the only file it has written. *)
Theorem run_charts_pie_crash df :
  length (remove_dups (non_null (map (fun r => Membership_Type (base r)) df))) <> 3%nat ->
  exists s, run_charts df = (s, Some ValueError) /\ dom (disk s) = {[hist_path]} /\
    artists <$> disk s !! hist_path =
      Some [AHist (hist_column (map (fun r => Age (base r)) df)).1
                  (hist_column (map (fun r => Age (base r)) df)).2].
Proof.
  intros H3. run_charts_symbolic (run_charts_eq df) (membership_pie_Raise df H3).
  split; [rewrite dom_insert_L, dom_empty_L; set_solver|].
  rewrite <- artists_fig_hist. by simplify_map_eq.
Qed.
