(* ===== verification/Pipelines.v ===== *)
(** The two programs end to end, and how they relate.

    [run_script] is src/analytics/data_cleaning.py as a whole: the
    cleaning stage [run_cleaning] (lines 9-36, which raises OverflowError
    when a date difference leaves int64) followed by the chart section
    [run_charts] (lines 38-85) on the frame it returns.

    The service (src/app/main.py) and the script read the same CSV and
    clean it independently. [pipelines_agree] relates them: on a CSV
    whose rows have every cell the two pipelines fill or filter, and
    dates that both parse, the service's table is the script's frame
    without its two derived columns. *)

From Stdlib Require Import ZArith QArith String.
From stdpp Require Import base list gmap strings.
From S2P Require Import Prelude Dates Schema Frame Serving Histogram Cleaning Charts.

Open Scope string_scope.

(** data_cleaning.py, lines 9-85. *)
Definition run_script (now : Z) (raw : list raw_row) : pyplot * option py_exception :=
  match run_cleaning now raw with
  | Ok df => run_charts df
  | Raise e => (plt_init, Some e)
  end.

(** ** The two pipelines on the same input *)

(** A date text both parsers accept: ISO, and within pandas' range. *)
Definition date_text_ok (s : string) : bool :=
  match parse_iso s with Some d => pandas_in_bounds d | None => false end.

(** A CSV row that neither pipeline fills, drops or coerces: it has a
    member id, a name, an age, the three other imputed numbers and a join
    date, and its date texts are accepted by both parsers. *)
Definition complete_raw (r : raw_row) : bool :=
  is_some (Member_ID r) && is_some (Name r) && is_some (Age r) &&
  is_some (Avg_Calories_Burned r) && is_some (Total_Weight_Lifted_kg r) &&
  is_some (Visits_Per_Month r) &&
  match Join_Date r with Some s => date_text_ok s | None => false end &&
  match Last_Visit_Date r with Some s => date_text_ok s | None => true end.

(** ** Proofs *)

Lemma filter_true_id {A} (p : A -> bool) (l : list A) :
  (forall x, In x l -> p x = true) -> List.filter p l = l.
Proof.
  induction l as [|x l IH]; intros Hp; simpl; [done|].
  rewrite Hp by (by left). f_equal. apply IH. intros y Hy. apply Hp. by right.
Qed.

Lemma map_dates_ext {D E} (f g : option D -> option E) (r : member_row D) :
  f (Join_Date r) = g (Join_Date r) -> f (Last_Visit_Date r) = g (Last_Visit_Date r) ->
  map_dates f r = map_dates g r.
Proof. intros Hj Hl. unfold map_dates. by rewrite Hj, Hl. Qed.

Lemma fill_null_Some {A} (m : option A) (o : option A) : is_some o = true -> fill_null m o = o.
Proof. by destruct o. Qed.

Lemma complete_raw_spec r :
  complete_raw r = true ->
  is_some (Member_ID r) = true /\ is_some (Name r) = true /\ is_some (Age r) = true /\
  is_some (Avg_Calories_Burned r) = true /\ is_some (Total_Weight_Lifted_kg r) = true /\
  is_some (Visits_Per_Month r) = true /\
  (exists j, Join_Date r = Some j /\ date_text_ok j = true) /\
  (forall l, Last_Visit_Date r = Some l -> date_text_ok l = true).
Proof.
  unfold complete_raw. rewrite !andb_true_iff.
  intros (((((((Hid & Hn) & Ha) & Hc) & Hw) & Hv) & Hj) & Hl).
  split_and!; try done.
  - destruct (Join_Date r) as [j|]; [by exists j|done].
  - intros l El. by rewrite El in Hl.
Qed.

(** A complete row is left as it is by both fill steps. *)
Lemma complete_fill r m_age m_cal m_wt m_vis p :
  complete_raw r = true ->
  set_numeric (fill_null m_age (Age r)) (fill_null m_cal (Avg_Calories_Burned r))
    (fill_null m_wt (Total_Weight_Lifted_kg r)) (fill_null m_vis (Visits_Per_Month r))
    (set_Name (fill_null p (Name r)) r) = r /\
  set_Name (fill_null p (Name r)) r = r.
Proof.
  intros (_ & Hn & Ha & Hc & Hw & Hv & _)%complete_raw_spec.
  rewrite !fill_null_Some by done. by destruct r.
Qed.

Lemma date_text_ok_parse s :
  date_text_ok s = true -> parse_cell (Some s) = to_datetime_coerce (Some s).
Proof.
  unfold date_text_ok, parse_cell. simpl. destruct (parse_iso s) as [d|]; [|done].
  by intros ->.
Qed.

Lemma complete_parses r : complete_raw r = true -> row_parses r = true.
Proof.
  intros (_ & _ & _ & _ & _ & _ & (j & Ej & Hj) & Hl)%complete_raw_spec.
  unfold row_parses, cell_parses. rewrite Ej. unfold date_text_ok in Hj.
  destruct (parse_iso j); [|done]. simpl.
  destruct (Last_Visit_Date r) as [l|] eqn:El; [|done].
  specialize (Hl l eq_refl). unfold date_text_ok in Hl. by destruct (parse_iso l).
Qed.

(** On an accepted text the two parsers agree. *)
Lemma complete_dates r :
  complete_raw r = true -> map_dates parse_cell r = map_dates to_datetime_coerce r.
Proof.
  intros (_ & _ & _ & _ & _ & _ & (j & Ej & Hj) & Hl)%complete_raw_spec.
  apply map_dates_ext.
  - rewrite Ej. by apply date_text_ok_parse.
  - destruct (Last_Visit_Date r) as [l|] eqn:El; [|done]. by apply date_text_ok_parse, Hl.
Qed.

Lemma base_clean_pipeline now raw : map base (clean_pipeline now raw) = dated_frame raw.
Proof. unfold clean_pipeline, dated_frame. rewrite map_map. apply map_id. Qed.

(** When a date difference overflows, the script stops before its first
    chart: no figure is opened and no file is written. *)
Lemma run_script_overflow now raw :
  Exists (fun r => overflows now r = true) (dated_frame raw) ->
  run_script now raw = (plt_init, Some OverflowError).
Proof. intros H. unfold run_script. by rewrite overflow_run_cleaning. Qed.

(** [C25] The two pipelines agree on clean input: when every row of the
    CSV has the cells the service fills (name, age, calories, weight,
    visits), a member id and a join date, and date texts both parsers
    accept, the service's start-up succeeds and its table is exactly the
    script's cleaned frame, row for row, without the two derived
    columns. *)
Theorem pipelines_agree now raw :
  Forall (fun r => complete_raw r = true) raw ->
  serve_load raw = Ok (map base (clean_pipeline now raw)).
Proof.
  intros Hall. rewrite Forall_forall in Hall.
  assert (Hc : forall r, In r raw -> complete_raw r = true) by (intros r Hr; apply Hall, list_elem_of_In, Hr).
  assert (Hfill : fill_step raw = raw).
  { unfold fill_step. rewrite <- (map_id raw) at 2. apply map_ext_in.
    intros r Hr. apply (complete_fill r), Hc, Hr. }
  assert (Hjoin : drop_null_join raw = raw).
  { apply filter_true_id. intros r Hr.
    by destruct (complete_raw_spec r (Hc r Hr)) as (_ & _ & _ & _ & _ & _ & (j & -> & _) & _). }
  unfold serve_load. rewrite Hfill, Hjoin, cast_dates_spec.
  rewrite (proj2 (forallb_forall _ _)) by (intros r Hr; by apply complete_parses, Hc).
  rewrite base_clean_pipeline. unfold dated_frame, parse_dates, fill_unknown_name, drop_missing_id_age.
  rewrite filter_true_id.
  2:{ intros r Hr. destruct (complete_raw_spec r (Hc r Hr)) as (Hid & _ & Ha & _).
      unfold has_id_age. by rewrite Hid, Ha. }
  f_equal. rewrite map_map. apply map_ext_in. intros r Hr.
  rewrite (proj2 (complete_fill r None None None None (Some "Unknown") (Hc r Hr))).
  by apply complete_dates, Hc.
Qed.
