(* ===== verification/Witnesses.v ===== *)
(** Concrete runs of the development's theorems.

    Each [*_witness] applies one theorem of the components at a small
    concrete input on which its hypotheses hold, the hypotheses being
    checked by evaluation: a few rows of the CSV, the tables they load
    into, and the service booted on them with an empty DuckDB file. *)

From Stdlib Require Import ZArith QArith Lia Sorted Permutation String.
From stdpp Require Import base list gmap strings list_numbers relations.
From S2P Require Import Prelude Dates Schema Frame Store Serving Queries Api Server Histogram Cleaning Report Charts Pipelines.

Open Scope string_scope.

(** ** Sample data *)

(** A table row with the cells the queries read. *)
Definition trow (id : Z) (mt ex ch : string) : table_row :=
  mk_row (Some id) None None None None None (Some mt) None None (Some ex) None None None None
    (Some ch).

Definition sample_table : list table_row :=
  [trow 1 "Monthly" "Squats" "Yes"; trow 2 "Yearly" "Cycling" "No";
   trow 3 "Monthly" "Squats" "No"; trow 1 "Monthly" "Squats" "Yes"].

(** A CSV line with every cell present but the last visit. *)
Definition csv_row (id : Z) (last : option string) : raw_row :=
  mk_row (Some id) (Some "Ana") (Some (inject_Z 30)) (Some "Female") (Some "1 Main St")
    (Some "555-0100") (Some "Monthly") (Some "2023-01-15") last (Some "Squats") (Some 45%Z)
    (Some (inject_Z 300)) (Some (inject_Z 100)) (Some (inject_Z 8)) (Some "No").

Definition complete_csv : list raw_row :=
  [csv_row 1 (Some "2023-06-01"); csv_row 2 (Some "2023-07-01"); csv_row 3 (Some "2024-02-29")].

Definition null_visit_csv : list raw_row := [csv_row 1 None].

Definition csv_25 : list raw_row := map (fun i => csv_row (Z.of_nat i) (Some "2023-06-01")) (seq 0 25).

Abbreviation db_file := (gmap string (list table_row)).

(** The service after booting on [raw] with an empty DuckDB file. *)
Definition booted (raw : list raw_row) : @server db_file :=
  let df := match serve_load raw with Ok d => d | Raise _ => [] end in
  mk_server df (create_table df ∅).

Lemma booted_reachable raw :
  is_ok (serve_load raw) = true -> reachable raw (∅ : db_file) (Running (booted raw)).
Proof.
  intros Hok. eapply reach_step; [apply reach_init|]. unfold booted.
  destruct (serve_load raw) as [df|] eqn:E; [|done].
  apply step_boot. unfold startup. by rewrite E.
Qed.

(** ** Dates *)

Lemma parse_print_iso_witness :
  valid_date (mk_date 2024 2 29) = true /\ (0 <= 2024 <= 9999)%Z /\
  parse_iso (print_iso (mk_date 2024 2 29)) = Some (mk_date 2024 2 29).
Proof.
  split_and!; [reflexivity|lia|lia|]. apply parse_print_iso; [reflexivity|simpl; lia].
Defined.

Lemma print_parse_iso_witness :
  parse_iso "2023-01-15" = Some (mk_date 2023 1 15) /\
  print_iso (mk_date 2023 1 15) = "2023-01-15".
Proof. split; [reflexivity|]. apply print_parse_iso. reflexivity. Defined.

Lemma to_datetime_coerce_range_witness :
  parse_iso "2262-04-12" = Some (mk_date 2262 4 12) /\
  to_datetime_coerce (Some "2262-04-12") =
  (if decide (-106751 <= days_from_civil (mk_date 2262 4 12) <= 106751)%Z
   then Some (mk_date 2262 4 12) else None).
Proof. split; [reflexivity|]. apply to_datetime_coerce_range. reflexivity. Defined.

(** ** Queries *)

Lemma churn_by_membership_spec_unique_witness :
  let res := [(Some "Monthly", 2%Z); (Some "Yearly", 0%Z)] in
  Churn.churn_by_membership_spec sample_table res /\ Churn.churn_by_membership_spec sample_table res /\
  res ≡ₚ res.
Proof.
  assert (Hs : Churn.churn_by_membership_spec sample_table
                 [(Some "Monthly", 2%Z); (Some "Yearly", 0%Z)]).
  { split_and!.
    - by apply NoDup_cons; split; [set_solver|apply NoDup_singleton].
    - intros k. cbn. set_solver.
    - intros k n Hin. repeat (apply elem_of_cons in Hin as [Hin|Hin]; [by simplify_eq|]).
      by apply elem_of_nil in Hin.
    - apply Sorted_cons; [apply Sorted_cons; constructor|constructor; unfold desc; cbn; lia]. }
  split_and!; [exact Hs|exact Hs|]. by apply (churn_by_membership_spec_unique sample_table).
Defined.

Lemma churn_by_membership_non_increasing_witness :
  (0 < 1)%nat /\
  Churn.churn_by_membership sample_table !! 0%nat = Some (Some "Monthly", 2%Z) /\
  Churn.churn_by_membership sample_table !! 1%nat = Some (Some "Yearly", 0%Z) /\
  (0 <= 2)%Z.
Proof.
  split_and!; [lia|reflexivity|reflexivity|].
  apply (churn_by_membership_non_increasing sample_table 0 1 (Some "Monthly") 2 (Some "Yearly") 0);
    [lia|reflexivity|reflexivity].
Defined.

Lemma churn_by_membership_spec_perm_witness :
  sample_table ≡ₚ reverse sample_table /\
  (Churn.churn_by_membership_spec sample_table [] <->
   Churn.churn_by_membership_spec (reverse sample_table) []).
Proof.
  split; [by rewrite reverse_Permutation|].
  apply churn_by_membership_spec_perm. by rewrite reverse_Permutation.
Defined.

Lemma favorite_exercise_absent_witness :
  (forall r, r ∈ sample_table -> Favorite_Exercise r <> Some "Deadlift") /\
  Exercise.favorite_exercise_count sample_table "Deadlift" = [].
Proof.
  assert (H : forall r, r ∈ sample_table -> Favorite_Exercise r <> Some "Deadlift").
  { intros r Hr. repeat (apply elem_of_cons in Hr as [->|Hr]; [done|]).
    by apply elem_of_nil in Hr. }
  split; [exact H|]. by apply favorite_exercise_absent.
Defined.

Lemma favorite_exercise_present_witness :
  trow 1 "Monthly" "Squats" "Yes" ∈ sample_table /\
  Favorite_Exercise (trow 1 "Monthly" "Squats" "Yes") = Some "Squats" /\
  exists n, Exercise.favorite_exercise_count sample_table "Squats" = [("Squats", n)] /\
    (0 <= n <= Z.of_nat (length (Exercise.matching sample_table "Squats")))%Z.
Proof.
  split_and!; [by left|reflexivity|].
  apply (favorite_exercise_present sample_table "Squats" (trow 1 "Monthly" "Squats" "Yes"));
    [by left|reflexivity].
Defined.

Lemma page_rows_length_witness :
  (1 <= 2)%Z /\ (1 <= 3)%Z /\
  Z.of_nat (length (Page.page_rows sample_table 2 3)) =
  Z.max 0 (Z.min 3 (Page.count_star sample_table - Page.offset 2 3)).
Proof. split_and!; [lia|lia|]. apply page_rows_length; lia. Defined.

Lemma pages_concat_witness :
  (1 <= 3)%Z /\
  concat (map (fun k => Page.page_rows sample_table (Z.of_nat k + 1) 3)
            (seq 0 (Z.to_nat (Page.num_pages sample_table 3)))) = sample_table.
Proof. split; [lia|]. apply pages_concat. lia. Defined.

Lemma page_nonempty_iff_witness :
  (1 <= 3)%Z /\ (1 <= 2)%Z /\
  (Page.page_rows sample_table 3 2 <> [] <-> (3 <= Page.num_pages sample_table 2)%Z).
Proof. split_and!; [lia|lia|]. apply page_nonempty_iff; lia. Defined.

(** ** Service *)

Lemma serve_load_join_date_witness :
  serve_load complete_csv = Ok (srv_df (booted complete_csv)) /\
  Forall (fun r => is_some (Join_Date r) = true /\ is_some (Name r) = true)
    (srv_df (booted complete_csv)).
Proof.
  split; [reflexivity|]. apply (serve_load_join_date complete_csv). reflexivity.
Defined.

Lemma stopped_store_idempotent_witness :
  reachable complete_csv (∅ : db_file) (Stopped (srv_db (booted complete_csv))) /\
  (srv_db (booted complete_csv) = ∅ \/
   exists df, serve_load complete_csv = Ok df /\ srv_db (booted complete_csv) = create_table df ∅).
Proof.
  assert (Hr : reachable complete_csv (∅ : db_file) (Stopped (srv_db (booted complete_csv)))).
  { eapply reach_step; [apply booted_reachable; reflexivity|]. apply step_stop. }
  split; [exact Hr|]. exact (stopped_store_idempotent complete_csv ∅ _ Hr).
Defined.

Lemma running_consistent_witness :
  reachable complete_csv (∅ : db_file) (Running (booted complete_csv)) /\
  serve_load complete_csv = Ok (srv_df (booted complete_csv)) /\
  get_table table_name (srv_db (booted complete_csv)) = Some (srv_df (booted complete_csv)) /\
  handle (booted complete_csv) GetRawDataset = HTTP200 (RawRecords (srv_df (booted complete_csv))).
Proof.
  assert (Hr := booted_reachable complete_csv eq_refl).
  split; [exact Hr|]. exact (running_consistent complete_csv ∅ _ Hr).
Defined.

Lemma handle_pagination_ok_witness :
  reachable complete_csv (∅ : db_file) (Running (booted complete_csv)) /\
  (1 <= 2)%Z /\ (1 <= 2 <= 100)%Z /\ ((2 - 1) * 2 <= 2 ^ 62)%Z /\
  Forall (fun r => row_complete r = true) (Page.page_rows (srv_df (booted complete_csv)) 2 2) /\
  handle (booted complete_csv) (GetPagination (Some 2%Z) (Some 2%Z)) =
  HTTP200 (Paginated (Models.mk_PaginatedItems
    (omap member_of_row (Page.page_rows (srv_df (booted complete_csv)) 2 2))
    (Page.count_star (srv_df (booted complete_csv))) 2 2)).
Proof.
  assert (Hr := booted_reachable complete_csv eq_refl).
  assert (Hc : Forall (fun r => row_complete r = true)
                 (Page.page_rows (srv_df (booted complete_csv)) 2 2))
    by (vm_compute; repeat constructor).
  split_and!; [exact Hr|lia|lia|lia|lia|exact Hc|].
  apply (handle_pagination_ok complete_csv ∅); [exact Hr|lia|lia|lia|exact Hc].
Defined.

(** Page [2^62] of size 10 on the three complete rows: its offset is
    past DuckDB's bound, and the table is not empty. *)
Lemma handle_pagination_offset_bound_witness :
  reachable complete_csv (∅ : db_file) (Running (booted complete_csv)) /\
  (1 <= 2 ^ 62)%Z /\ (1 <= 10 <= 100)%Z /\ (2 ^ 62 < (2 ^ 62 - 1) * 10)%Z /\
  handle (booted complete_csv) (GetPagination (Some (2 ^ 62)%Z) (Some 10%Z)) = HTTP500.
Proof.
  assert (Hr := booted_reachable complete_csv eq_refl).
  split_and!; [exact Hr|lia|lia|lia|lia|].
  rewrite (handle_pagination_offset_bound complete_csv ∅ _ (2 ^ 62) 10); [reflexivity|exact Hr|lia..].
Defined.

(** A CSV line without a last visit passes the load and breaks every
    page that holds it. *)
Lemma handle_pagination_500_witness :
  reachable null_visit_csv (∅ : db_file) (Running (booted null_visit_csv)) /\
  (1 <= 1)%Z /\ (1 <= 10 <= 100)%Z /\
  Page.page_rows (srv_df (booted null_visit_csv)) 1 10 = srv_df (booted null_visit_csv) /\
  row_complete (map_dates parse_cell (csv_row 1 None)) = false /\
  handle (booted null_visit_csv) (GetPagination (Some 1%Z) (Some 10%Z)) = HTTP500.
Proof.
  assert (Hr := booted_reachable null_visit_csv eq_refl).
  split_and!; [exact Hr|lia|lia|lia|reflexivity|reflexivity|].
  apply (handle_pagination_500 null_visit_csv ∅ _ 1 10 (map_dates parse_cell (csv_row 1 None)));
    [exact Hr|lia|lia|vm_compute; left|reflexivity].
Defined.

Lemma raw_dataset_pages_witness :
  reachable complete_csv (∅ : db_file) (Running (booted complete_csv)) /\
  Forall (fun r => row_complete r = true) (srv_df (booted complete_csv)) /\
  (Z.of_nat (length (srv_df (booted complete_csv))) <= 2 ^ 62)%Z /\
  (1 <= 2 <= 100)%Z /\
  concat (map (fun k => page_items (handle (booted complete_csv)
                                      (GetPagination (Some (Z.of_nat k + 1)) (Some 2%Z))))
            (seq 0 (Z.to_nat (Page.num_pages (srv_df (booted complete_csv)) 2)))) =
  omap member_of_row (srv_df (booted complete_csv)).
Proof.
  assert (Hr := booted_reachable complete_csv eq_refl).
  assert (Hc : Forall (fun r => row_complete r = true) (srv_df (booted complete_csv)))
    by (vm_compute; repeat constructor).
  assert (HT : (Z.of_nat (length (srv_df (booted complete_csv))) <= 2 ^ 62)%Z)
    by (vm_compute; discriminate).
  split_and!; [exact Hr|exact Hc|exact HT|lia|lia|].
  apply (raw_dataset_pages complete_csv ∅); [exact Hr|exact Hc|exact HT|lia].
Defined.

Lemma sql_routes_answer_witness :
  reachable complete_csv (∅ : db_file) (Running (booted complete_csv)) /\
  handle (booted complete_csv) GetChurnByMembership =
    HTTP200 (ChurnCounts (Churn.churn_by_membership (srv_df (booted complete_csv)))) /\
  forall e, handle (booted complete_csv) (GetFavoriteExercise e) =
    HTTP200 (ExerciseCounts (Exercise.favorite_exercise_count (srv_df (booted complete_csv))
                               (exercise_param e))).
Proof.
  assert (Hr := booted_reachable complete_csv eq_refl).
  split; [exact Hr|]. exact (sql_routes_answer complete_csv ∅ _ Hr).
Defined.

Lemma page_one_of_25_witness :
  reachable csv_25 (∅ : db_file) (Running (booted csv_25)) /\
  length (srv_df (booted csv_25)) = 25%nat /\
  Forall (fun r => row_complete r = true) (srv_df (booted csv_25)) /\
  exists p, handle (booted csv_25) (GetPagination (Some 1%Z) (Some 10%Z)) = HTTP200 (Paginated p) /\
    length (Models.member_data p) = 10%nat /\ Models.total p = 25%Z.
Proof.
  assert (Hr := booted_reachable csv_25 eq_refl).
  assert (Hl : length (srv_df (booted csv_25)) = 25%nat) by reflexivity.
  assert (Hc : Forall (fun r => row_complete r = true) (srv_df (booted csv_25)))
    by (vm_compute; repeat constructor).
  split_and!; [exact Hr|exact Hl|exact Hc|].
  exact (page_one_of_25 csv_25 ∅ _ Hr Hl Hc).
Defined.

(** ** Cleaning *)

(** 2023-11-14 22:13:20 UTC, as [pd.Timestamp.now()] in nanoseconds. *)
Definition now0 : Z := 1700000000 * 1000000000.

Definition first_clean (raw : list raw_row) : clean_row :=
  hd (mk_clean (trow 0 "" "" "") None None) (clean_pipeline now0 raw).

Lemma membership_period_days_spec_witness :
  first_clean complete_csv ∈ clean_pipeline now0 complete_csv /\
  Membership_Period_Days (first_clean complete_csv) =
  match Join_Date (base (first_clean complete_csv)), Last_Visit_Date (base (first_clean complete_csv)) with
  | Some j, Some l => Some (days_from_civil l - days_from_civil j)
  | _, _ => None
  end.
Proof.
  assert (Hin : first_clean complete_csv ∈ clean_pipeline now0 complete_csv) by (vm_compute; left).
  split; [exact Hin|]. exact (membership_period_days_spec now0 complete_csv _ Hin).
Defined.

Lemma days_since_last_visit_spec_witness :
  first_clean complete_csv ∈ clean_pipeline now0 complete_csv /\
  Days_Since_Last_Visit (first_clean complete_csv) =
  (fun l => now0 / ns_per_day - days_from_civil l) <$> Last_Visit_Date (base (first_clean complete_csv)).
Proof.
  assert (Hin : first_clean complete_csv ∈ clean_pipeline now0 complete_csv) by (vm_compute; left).
  split; [exact Hin|]. exact (days_since_last_visit_spec now0 complete_csv _ Hin).
Defined.

Lemma clean_dates_in_range_witness :
  first_clean complete_csv ∈ clean_pipeline now0 complete_csv /\
  Join_Date (base (first_clean complete_csv)) = Some (mk_date 2023 1 15) /\
  (-106751 <= days_from_civil (mk_date 2023 1 15) <= 106751)%Z.
Proof.
  assert (Hin : first_clean complete_csv ∈ clean_pipeline now0 complete_csv) by (vm_compute; left).
  split_and!; [exact Hin|reflexivity| |];
    apply (clean_dates_in_range now0 complete_csv _ _ Hin); left; reflexivity.
Defined.

Lemma consistency_report_spec_witness :
  let df := map base (clean_pipeline now0 complete_csv) in
  ("Gender", value_counts (map Gender df)) ∈ consistency_report df /\
  exists col, ("Gender", col) ∈ text_columns df /\
    (forall k n, (k, n) ∈ value_counts (map Gender df) <-> Some k ∈ col /\ n = count_of k col) /\
    NoDup (map fst (value_counts (map Gender df))) /\
    Sorted (desc (fun p => Z.of_nat p.2)) (value_counts (map Gender df)) /\
    sum_list (map snd (value_counts (map Gender df))) = length (non_null col).
Proof.
  intros df.
  assert (Hin : ("Gender", value_counts (map Gender df)) ∈ consistency_report df).
  { unfold consistency_report, text_columns. simpl. apply elem_of_cons. right.
    apply elem_of_cons. by left. }
  split; [exact Hin|]. exact (consistency_report_spec df _ _ Hin).
Defined.

(** ** Types of the table *)

Lemma member_tuple_typed_witness :
  let cs := row_cells (map_dates parse_cell (csv_row 1 (Some "2023-06-01"))) in
  tuple_typed table_schema cs = true /\ CNull ∉ cs /\ is_ok (Models.MemberData_of_tuple cs) = true.
Proof.
  intros cs.
  assert (Ht : tuple_typed table_schema cs = true) by reflexivity.
  assert (Hn : CNull ∉ cs).
  { unfold cs, row_cells. rewrite !not_elem_of_cons.
    split_and!; try (vm_compute; discriminate). apply not_elem_of_nil. }
  split_and!; [exact Ht|exact Hn|]. apply (proj2 (member_tuple_typed (map_dates parse_cell (csv_row 1 (Some "2023-06-01"))) cs)); assumption.
Defined.

(** ** Liveness *)

Lemma serving_recoverable_witness :
  reachable complete_csv (∅ : db_file) (Stopped (srv_db (booted complete_csv))) /\
  ((exists srv, rtc (step_any complete_csv) (Stopped (srv_db (booted complete_csv))) (Running srv)) <->
   is_ok (serve_load complete_csv) = true).
Proof.
  assert (Hr : reachable complete_csv (∅ : db_file) (Stopped (srv_db (booted complete_csv)))).
  { eapply reach_step; [apply booted_reachable; reflexivity|]. apply step_stop. }
  split; [exact Hr|]. exact (serving_recoverable complete_csv ∅ _ Hr).
Defined.

(** ** The histogram *)

Definition ages : list Q := [inject_Z 20; inject_Z 30; inject_Z 40; inject_Z 40].

Lemma bin_index_spec_witness :
  (0 < 100)%Q /\ (0 <= 50 <= 100)%Q /\ (10 < n_bins)%nat /\
  (bin_index 0 100 50 = 10%nat <-> in_bin 0 100 10 50 = true).
Proof.
  assert (H1 : (0 < 100)%Q) by (apply Qlt_bool_iff; reflexivity).
  assert (H2 : (0 <= 50 <= 100)%Q) by (split; apply Qle_bool_iff; reflexivity).
  assert (H3 : (10 < n_bins)%nat) by (unfold n_bins; lia).
  split_and!; [exact H1|apply H2|apply H2|exact H3|]. exact (bin_index_spec 0 100 50 10 H1 H2 H3).
Defined.

Lemma histogram_counts_witness :
  outer_edges (data_range ages) = (inject_Z 20, inject_Z 40) /\ (10 < n_bins)%nat /\
  (histogram ages).2 !! 10%nat = Some (length (List.filter (in_bin (inject_Z 20) (inject_Z 40) 10) ages)) /\
  (histogram ages).2 !! 10%nat = Some 1%nat.
Proof.
  assert (He : outer_edges (data_range ages) = (inject_Z 20, inject_Z 40)) by reflexivity.
  assert (Hi : (10 < n_bins)%nat) by (unfold n_bins; lia).
  split_and!; [exact He|exact Hi|exact (histogram_counts ages _ _ 10 He Hi)|].
  rewrite (histogram_counts ages _ _ 10 He Hi). reflexivity.
Defined.

(** ** The charts *)

(** A cleaned row with the cells the charts read. *)
Definition crow (age : Z) (t g c : string) : clean_row :=
  mk_clean (mk_row (Some 1%Z) None (Some (inject_Z age)) (Some g) None None (Some t) None None None
              (Some 30%Z) None None None (Some c)) None None.

Definition chart_df : list clean_row :=
  [crow 20 "Monthly" "Male" "Yes"; crow 30 "Yearly" "Female" "No";
   crow 40 "Quarterly" "Male" "No"; crow 40 "Quarterly" "Female" "No"].

Lemma run_charts_files_witness :
  membership_pie chart_df = Ok [("Quarterly", 2%nat); ("Monthly", 1%nat); ("Yearly", 1%nat)] /\
  exists s, run_charts chart_df = (s, None) /\
    dom (disk s) = {[hist_path; pie_path; bar_path; gender_path]} /\
    artists <$> disk s !! pie_path = Some [APie [("Quarterly", 2%nat); ("Monthly", 1%nat); ("Yearly", 1%nat)]].
Proof.
  assert (Hp : membership_pie chart_df = Ok [("Quarterly", 2%nat); ("Monthly", 1%nat); ("Yearly", 1%nat)])
    by reflexivity.
  split; [exact Hp|].
  destruct (run_charts_files chart_df _ Hp) as (s & Hs & Hd & _ & Hpie & _).
  exists s. split_and!; assumption.
Defined.

Lemma gender_chart_default_size_witness :
  membership_pie chart_df = Ok [("Quarterly", 2%nat); ("Monthly", 1%nat); ("Yearly", 1%nat)] /\
  exists s, run_charts chart_df = (s, None) /\
    fig_size <$> disk s !! gender_path = Some default_figsize /\
    fig_num <$> disk s !! gender_path = Some 3%nat /\
    fig_size <$> disk s !! bar_path = Some (8, 6)%Q.
Proof.
  assert (Hp : membership_pie chart_df = Ok [("Quarterly", 2%nat); ("Monthly", 1%nat); ("Yearly", 1%nat)])
    by reflexivity.
  split; [exact Hp|].
  destruct (gender_chart_default_size chart_df _ Hp) as (s & Hs & Hg & Hn & Hb & _).
  exists s. split_and!; assumption.
Defined.

Lemma run_charts_pie_crash_witness :
  let df := clean_pipeline now0 complete_csv in
  length (remove_dups (non_null (map (fun r => Membership_Type (base r)) df))) = 1%nat /\
  exists s, run_charts df = (s, Some ValueError) /\ dom (disk s) = {[hist_path]}.
Proof.
  intros df.
  assert (H1 : length (remove_dups (non_null (map (fun r => Membership_Type (base r)) df))) = 1%nat)
    by reflexivity.
  split; [exact H1|].
  destruct (run_charts_pie_crash df ltac:(rewrite H1; lia)) as (s & Hs & Hd & _).
  exists s. split; assumption.
Defined.

(** ** Overflow of the derived columns *)

(** A member who joined in 1680 and last came in 2260: both dates are
    within pandas' range, their difference is not. *)
Definition far_csv : list raw_row :=
  [mk_row (Some 7%Z) (Some "Ana") (Some (inject_Z 30)) (Some "Female") (Some "1 Main St")
     (Some "555-0100") (Some "Monthly") (Some "1680-01-01") (Some "2260-01-01") (Some "Squats")
     (Some 45%Z) (Some (inject_Z 300)) (Some (inject_Z 100)) (Some (inject_Z 8)) (Some "No")].

Lemma run_cleaning_overflow_witness :
  Exists (fun r => overflows now0 r = true) (dated_frame far_csv) /\
  run_cleaning now0 far_csv = Raise OverflowError.
Proof.
  assert (H : Exists (fun r => overflows now0 r = true) (dated_frame far_csv))
    by (apply Exists_cons_hd; vm_compute; reflexivity).
  split; [exact H|]. exact (proj2 (proj2 (run_cleaning_overflow now0 far_csv)) H).
Defined.

Lemma run_cleaning_in_range_witness :
  (Z.abs now0 <= 53375 * ns_per_day)%Z /\ Forall dates_within (dated_frame complete_csv) /\
  run_cleaning now0 complete_csv = Ok (clean_pipeline now0 complete_csv).
Proof.
  assert (Hn : (Z.abs now0 <= 53375 * ns_per_day)%Z) by (vm_compute; discriminate).
  assert (Hw : Forall dates_within (dated_frame complete_csv)).
  { vm_compute [dated_frame complete_csv]. repeat constructor;
      intros d [Hd|Hd]; vm_compute in Hd; injection Hd as <-; vm_compute; discriminate. }
  split_and!; [exact Hn|exact Hw|]. exact (run_cleaning_in_range now0 complete_csv Hn Hw).
Defined.

(** ** The two pipelines *)

Lemma pipelines_agree_witness :
  Forall (fun r => complete_raw r = true) complete_csv /\
  serve_load complete_csv = Ok (map base (clean_pipeline now0 complete_csv)).
Proof.
  assert (Hc : Forall (fun r => complete_raw r = true) complete_csv)
    by (repeat constructor).
  split; [exact Hc|]. exact (pipelines_agree now0 complete_csv Hc).
Defined.

(** ** Printed output *)

(** The complete CSV and a fourth row without a last visit. *)
Definition mixed_csv : list raw_row := complete_csv ++ [csv_row 4 None].

Lemma script_prints_witness :
  run_cleaning now0 mixed_csv = Ok (clean_pipeline now0 mixed_csv) /\
  days_dtype (map Days_Since_Last_Visit (clean_pipeline now0 mixed_csv)) <> int64.
Proof.
  assert (H : run_cleaning now0 mixed_csv = Ok (clean_pipeline now0 mixed_csv)) by (vm_compute; reflexivity).
  split; [exact H|]. rewrite (proj2 (proj2 (proj2 (script_prints now0 mixed_csv _ H)))).
  intros Hall. rewrite Forall_lookup in Hall. by specialize (Hall 3%nat _ eq_refl).
Defined.

(** ** The process *)

(** main.py started on 25 complete rows and an empty DuckDB file: a
    client asking for page 3 of size 10 reads one response, after three
    steps, with the last 5 members. *)
Example process_page_three :
  map page_items (run_io 3 [GetPagination (Some 3%Z) (Some 10%Z)] (main_py csv_25 (∅ : db_file))).1 =
  [map (fun i => Models.mk_MemberData (Z.of_nat i) "Ana" (inject_Z 30) "Female" "1 Main St" "555-0100"
       "Monthly" (mk_date 2023 1 15) (mk_date 2023 6 1) "Squats" 45 (inject_Z 300) (inject_Z 100)
       (inject_Z 8) "No") (seq 20 5)].
Proof. vm_compute. reflexivity. Qed.
